(** * vulhub-manager: environment registry and lifecycle driver

    A shallow embedding of the three Python modules of the repository
    ([app.py], [operations.py], [vulhub_manager.py]) and the properties
    of the registry specification checked against them.

    Conventions of the embedding.
    - A Python [str] is a [string]; text is taken to be ASCII, where the
      byte-wise helpers below ([strip], [lower], [int], [repr]) coincide
      with Python's.
    - A Python exception that the source catches is an [option] or a
      dedicated result type whose failure case carries the state the
      handler sees.
    - What the operating system, the Docker CLI, PyYAML and [json]
      answer is not code of the repository; it is read from explicit
      oracle records ([FS], [Host], [Tree], [World]). *)

From Stdlib Require Import String Ascii List ZArith NArith Bool Lia.
From Stdlib Require Import Sorting.Sorted Sorting.Permutation.
From Stdlib Require Import Numbers.DecimalString Numbers.DecimalPos.
Import ListNotations.

Set Warnings "-register-all".

Open Scope string_scope.
Open Scope list_scope.

(* ================================================================== *)
(** * Python built-ins used by the sources *)
(* ================================================================== *)

Module Py.

(** [c.isspace()] on ASCII: TAB..CR, FS..US and the blank. *)
Definition is_space (c : ascii) : bool :=
  let n := N_of_ascii c in
  ((9 <=? n) && (n <=? 13) || (28 <=? n) && (n <=? 31) || (n =? 32))%N.

Definition is_digit (c : ascii) : bool :=
  let n := N_of_ascii c in ((48 <=? n) && (n <=? 57))%N.

Definition digit_val (c : ascii) : Z := Z.of_N (N_of_ascii c) - 48.

(** [s.lstrip()], [s.rstrip()], [s.strip()]. *)
Fixpoint lstrip (s : string) : string :=
  match s with
  | EmptyString => EmptyString
  | String c r => if is_space c then lstrip r else s
  end.

Fixpoint rstrip (s : string) : string :=
  match s with
  | EmptyString => EmptyString
  | String c r =>
      let r' := rstrip r in
      if is_space c && (r' =? "") then EmptyString else String c r'
  end.

Definition strip (s : string) : string := rstrip (lstrip s).

(** [line.rstrip('\n')]. *)
Fixpoint rstrip_nl (s : string) : string :=
  match s with
  | EmptyString => EmptyString
  | String c r =>
      let r' := rstrip_nl r in
      if Ascii.eqb c "010" && (r' =? "") then EmptyString else String c r'
  end.

(** [s.lower()]. *)
Definition lower_char (c : ascii) : ascii :=
  let n := N_of_ascii c in
  if ((65 <=? n) && (n <=? 90))%N then ascii_of_N (n + 32) else c.

Fixpoint lower (s : string) : string :=
  match s with
  | EmptyString => EmptyString
  | String c r => String (lower_char c) (lower r)
  end.

(** [s.upper()]. *)
Definition upper_char (c : ascii) : ascii :=
  let n := N_of_ascii c in
  if ((97 <=? n) && (n <=? 122))%N then ascii_of_N (n - 32) else c.

Fixpoint upper (s : string) : string :=
  match s with
  | EmptyString => EmptyString
  | String c r => String (upper_char c) (upper r)
  end.

(** [needle in hay]. *)
Fixpoint contains (needle hay : string) : bool :=
  prefix needle hay
  || match hay with
     | EmptyString => false
     | String _ r => contains needle r
     end.

(** [s.startswith(p)] and [s.endswith(p)]. *)
Definition startswith (p s : string) : bool := prefix p s.

Fixpoint endswith (p s : string) : bool :=
  (s =? p)
  || match s with
     | EmptyString => false
     | String _ r => endswith p r
     end.

(** [s.split(sep)] for a non-empty separator: the leftmost occurrences of
    [sep], not overlapping, cut the text.  [skip] counts the characters
    of a separator still to be dropped and [cur] is the piece being
    read. *)
Fixpoint split_go (sep s cur : string) (skip : nat) : list string :=
  match s with
  | EmptyString => [cur]
  | String c r =>
      match skip with
      | S k => split_go sep r cur k
      | O =>
          if prefix sep s
          then cur :: split_go sep r EmptyString (String.length sep - 1)
          else split_go sep r (cur ++ String c EmptyString) O
      end
  end.

Definition split (sep s : string) : list string :=
  split_go sep s EmptyString O.

(** [sep.join(parts)]. *)
Definition join (sep : string) (parts : list string) : string :=
  String.concat sep parts.

(** [s.splitlines()] on ASCII: a line ends at LF, CR, CR LF, VT, FF, FS,
    GS or RS, and a final line end opens no empty line. *)
Definition is_linebreak (c : ascii) : bool :=
  let n := N_of_ascii c in
  ((10 <=? n) && (n <=? 13) || (28 <=? n) && (n <=? 30))%N.

Fixpoint splitlines_go (s cur : string) (after_cr : bool) : list string :=
  match s with
  | EmptyString => if (cur =? "") then [] else [cur]
  | String c r =>
      if after_cr && Ascii.eqb c "010" then splitlines_go r cur false
      else if is_linebreak c
      then cur :: splitlines_go r EmptyString (Ascii.eqb c "013")
      else splitlines_go r (cur ++ String c EmptyString) false
  end.

Definition splitlines (s : string) : list string :=
  splitlines_go s EmptyString false.

(** [str(n)] for an [int]. *)
Definition str_of_Z (z : Z) : string :=
  NilZero.string_of_int (Z.to_int z).

(** [int(s)] in base ten: blanks around the numeral are dropped, one sign
    may lead, and single underscores may separate digits.  [None] stands
    for [ValueError]. *)
Inductive int_state := IntStart | IntDigit | IntUnderscore.

Fixpoint int_digits (s : string) (st : int_state) (acc : Z) : option Z :=
  match s with
  | EmptyString =>
      match st with IntDigit => Some acc | _ => None end
  | String c r =>
      if is_digit c then int_digits r IntDigit (10 * acc + digit_val c)
      else if Ascii.eqb c "_"
      then match st with
           | IntDigit => int_digits r IntUnderscore acc
           | _ => None
           end
      else None
  end.

Definition int (s : string) : option Z :=
  match strip s with
  | String "+" r => int_digits r IntStart 0
  | String "-" r => option_map Z.opp (int_digits r IntStart 0)
  | t => int_digits t IntStart 0
  end.

(** How a call ends: it raises, or it returns a value.  A function that
    may return [None] returns an [option]. *)
Inductive result (A : Type) : Type :=
| Raises
| Returns (value : A).

Arguments Raises {A}.
Arguments Returns {A} value.

(** [s[-1]]-style access used on lists: [parts[-2]]. *)
Definition second_to_last {A} (l : list A) : option A :=
  nth_error (rev l) 1.

End Py.

(* ================================================================== *)
(** * MD5 ([hashlib.md5]) *)
(* ================================================================== *)

Module MD5.

Open Scope Z_scope.

Definition mask32 : Z := 4294967295.

Definition add32 (a b : Z) : Z := Z.land (a + b) mask32.

Definition not32 (a : Z) : Z := Z.lxor a mask32.

Definition rotl32 (x s : Z) : Z :=
  Z.land (Z.lor (Z.shiftl x s) (Z.shiftr x (32 - s))) mask32.

(** The sine table [floor(2^32 * |sin(i + 1)|)] and the rotation
    amounts of the four rounds. *)
Definition K : list Z :=
  [
   3614090360; 3905402710; 606105819; 3250441966;
   4118548399; 1200080426; 2821735955; 4249261313;
   1770035416; 2336552879; 4294925233; 2304563134;
   1804603682; 4254626195; 2792965006; 1236535329;
   4129170786; 3225465664; 643717713; 3921069994;
   3593408605; 38016083; 3634488961; 3889429448;
   568446438; 3275163606; 4107603335; 1163531501;
   2850285829; 4243563512; 1735328473; 2368359562;
   4294588738; 2272392833; 1839030562; 4259657740;
   2763975236; 1272893353; 4139469664; 3200236656;
   681279174; 3936430074; 3572445317; 76029189;
   3654602809; 3873151461; 530742520; 3299628645;
   4096336452; 1126891415; 2878612391; 4237533241;
   1700485571; 2399980690; 4293915773; 2240044497;
   1873313359; 4264355552; 2734768916; 1309151649;
   4149444226; 3174756917; 718787259; 3951481745 ].

Definition shifts : list Z :=
  [ 7; 12; 17; 22; 7; 12; 17; 22; 7; 12; 17; 22; 7; 12; 17; 22;
    5; 9; 14; 20; 5; 9; 14; 20; 5; 9; 14; 20; 5; 9; 14; 20;
    4; 11; 16; 23; 4; 11; 16; 23; 4; 11; 16; 23; 4; 11; 16; 23;
    6; 10; 15; 21; 6; 10; 15; 21; 6; 10; 15; 21; 6; 10; 15; 21 ].

Definition bytes_of_string (s : string) : list Z :=
  map (fun c => Z.of_N (N_of_ascii c)) (list_ascii_of_string s).

(** The [n] low bytes of [x], least significant first. *)
Fixpoint le_bytes (n : nat) (x : Z) : list Z :=
  match n with
  | O => []
  | S k => Z.land x 255 :: le_bytes k (Z.shiftr x 8)
  end.

(** Padding: the bit [1], zeros up to 56 modulo 64 bytes, and the bit
    length on eight bytes. *)
Definition pad (msg : list Z) : list Z :=
  let len := Z.of_nat (length msg) in
  msg ++ [128] ++ repeat 0 (Z.to_nat ((55 - len) mod 64))
      ++ le_bytes 8 (8 * len).

Fixpoint words (bs : list Z) : list Z :=
  match bs with
  | a :: b :: c :: d :: r =>
      (a + 256 * b + 65536 * c + 16777216 * d) :: words r
  | _ => []
  end.

Fixpoint blocks (fuel : nat) (ws : list Z) : list (list Z) :=
  match fuel with
  | O => []
  | S f =>
      match ws with
      | [] => []
      | _ => firstn 16 ws :: blocks f (skipn 16 ws)
      end
  end.

Definition state : Type := (Z * Z * Z * Z)%type.

Definition step (m : list Z) (st : state) (i : nat) : state :=
  let '(a, b, c, d) := st in
  let zi := Z.of_nat i in
  let '(f, g) :=
    if zi <? 16 then (Z.lor (Z.land b c) (Z.land (not32 b) d), zi)
    else if zi <? 32
    then (Z.lor (Z.land d b) (Z.land (not32 d) c), (5 * zi + 1) mod 16)
    else if zi <? 48 then (Z.lxor b (Z.lxor c d), (3 * zi + 5) mod 16)
    else (Z.lxor c (Z.lor b (not32 d)), (7 * zi) mod 16) in
  let f' := add32 (add32 (add32 f a) (nth i K 0)) (nth (Z.to_nat g) m 0) in
  (d, add32 b (rotl32 f' (nth i shifts 0)), b, c).

Definition compress (st : state) (m : list Z) : state :=
  let '(a0, b0, c0, d0) := st in
  let '(a, b, c, d) := fold_left (step m) (seq 0 64) st in
  (add32 a0 a, add32 b0 b, add32 c0 c, add32 d0 d).

Definition init : state := (1732584193, 4023233417, 2562383102, 271733878).

Definition digest (msg : list Z) : list Z :=
  let ws := words (pad msg) in
  let '(a, b, c, d) := fold_left compress (blocks (length ws) ws) init in
  le_bytes 4 a ++ le_bytes 4 b ++ le_bytes 4 c ++ le_bytes 4 d.

Definition hex_digit (n : Z) : ascii :=
  if n <? 10 then ascii_of_N (Z.to_N (48 + n))
  else ascii_of_N (Z.to_N (87 + n)).

Fixpoint hex (bs : list Z) : string :=
  match bs with
  | [] => EmptyString
  | b :: r => String (hex_digit (b / 16)) (String (hex_digit (b mod 16)) (hex r))
  end.

(** [hashlib.md5(text.encode()).hexdigest()]. *)
Definition hexdigest (text : string) : string :=
  hex (digest (bytes_of_string text)).

End MD5.

(* ================================================================== *)
(** * Values loaded from YAML and JSON documents *)
(* ================================================================== *)

Module Yaml.

(** What [yaml.safe_load] and [json.loads] build: [None], booleans,
    integers, floats (kept as their printed text and whether they are
    non-zero), strings, lists and dictionaries.  A dictionary is the
    list of its items in insertion order; its keys are strings, as they
    are in compose manifests and in JSON. *)
Inductive yaml : Type :=
| YNull
| YBool (b : bool)
| YInt (z : Z)
| YFloat (text : string) (nonzero : bool)
| YStr (s : string)
| YSeq (items : list yaml)
| YMap (entries : list (string * yaml)).

(** Truth value of an object ([if x], [x or y]). *)
Definition truthy (y : yaml) : bool :=
  match y with
  | YNull => false
  | YBool b => b
  | YInt z => negb (z =? 0)%Z
  | YFloat _ nz => nz
  | YStr s => negb (s =? "")
  | YSeq l => match l with [] => false | _ => true end
  | YMap m => match m with [] => false | _ => true end
  end.

(** [x or d]. *)
Definition or_else (x d : yaml) : yaml := if truthy x then x else d.

(** Dictionary look-up in an item list. *)
Fixpoint lookup {A} (k : string) (m : list (string * A)) : option A :=
  match m with
  | [] => None
  | (k', v) :: r => if (k' =? k) then Some v else lookup k r
  end.

(** [d[k] = v]: the value of an existing key is replaced in place, a new
    key is added last. *)
Fixpoint dict_set {A} (k : string) (v : A) (m : list (string * A))
  : list (string * A) :=
  match m with
  | [] => [(k, v)]
  | (k', v') :: r =>
      if (k' =? k) then (k, v) :: r else (k', v') :: dict_set k v r
  end.

(** [x.get(k)]: [None] of the option is the [AttributeError] of an
    object that is no dictionary; a missing key gives Python's [None]. *)
Definition get (x : yaml) (k : string) : option yaml :=
  match x with
  | YMap m => Some match lookup k m with Some v => v | None => YNull end
  | _ => None
  end.

(** [x.get(k, d)]. *)
Definition get_default (x : yaml) (k : string) (d : yaml) : option yaml :=
  match x with
  | YMap m => Some match lookup k m with Some v => v | None => d end
  | _ => None
  end.

(** [iter(x)]: the elements a [for] loop visits; [None] is the
    [TypeError] of an object that is not iterable.  A string yields its
    characters, a dictionary its keys. *)
Fixpoint chars (s : string) : list yaml :=
  match s with
  | EmptyString => []
  | String c r => YStr (String c EmptyString) :: chars r
  end.

Definition iter (x : yaml) : option (list yaml) :=
  match x with
  | YSeq l => Some l
  | YStr s => Some (chars s)
  | YMap m => Some (map (fun kv => YStr (fst kv)) m)
  | _ => None
  end.

(** [repr(s)] of a string: single quotes unless the text holds a single
    quote and no double quote; backslash, the quote and control
    characters are escaped. *)
Definition dquote : ascii := "034".
Definition squote : ascii := "039".
Definition backslash : ascii := "092".

Fixpoint has_char (c : ascii) (s : string) : bool :=
  match s with
  | EmptyString => false
  | String c' r => Ascii.eqb c' c || has_char c r
  end.

Definition hex_digit (n : N) : ascii :=
  if (n <? 10)%N then ascii_of_N (48 + n) else ascii_of_N (87 + n).

Definition repr_char (q c : ascii) : string :=
  let n := N_of_ascii c in
  if Ascii.eqb c q || Ascii.eqb c backslash
  then String backslash (String c EmptyString)
  else if (n =? 9)%N then String backslash "t"
  else if (n =? 10)%N then String backslash "n"
  else if (n =? 13)%N then String backslash "r"
  else if ((n <? 32) || (n =? 127))%N
  then String backslash
         (String "x" (String (hex_digit (n / 16))
                        (String (hex_digit (n mod 16)) EmptyString)))
  else String c EmptyString.

Fixpoint repr_body (q : ascii) (s : string) : string :=
  match s with
  | EmptyString => EmptyString
  | String c r => (repr_char q c ++ repr_body q r)%string
  end.

Definition repr_str (s : string) : string :=
  let q := if has_char squote s && negb (has_char dquote s)
           then dquote else squote in
  String q (repr_body q s ++ String q EmptyString)%string.

(** [repr(x)] and [str(x)]. *)
Fixpoint repr (y : yaml) : string :=
  match y with
  | YNull => "None"
  | YBool true => "True"
  | YBool false => "False"
  | YInt z => Py.str_of_Z z
  | YFloat t _ => t
  | YStr s => repr_str s
  | YSeq l => ("[" ++ Py.join ", " (map repr l) ++ "]")%string
  | YMap m =>
      ("{" ++ Py.join ", "
                (map (fun kv => let '(k, v) := kv in
                                repr_str k ++ ": " ++ repr v) m) ++ "}")%string
  end.

Definition str (y : yaml) : string :=
  match y with
  | YStr s => s
  | _ => repr y
  end.

End Yaml.

(* ================================================================== *)
(** * Paths ([pathlib]) and the file system *)
(* ================================================================== *)

Module Pathlib.

(** An absolute POSIX path is the list of its components below [/]. *)
Definition path := list string.

(** The components [PurePosixPath(text)] keeps: empty pieces and [.] are
    dropped, [..] stays. *)
Definition keeps (seg : string) : bool :=
  negb ((seg =? "") || (seg =? ".")).

Definition parse (text : string) : list string :=
  filter keeps (Py.split "/" text).

Definition is_absolute (text : string) : bool := Py.startswith "/" text.

(** [base / text]: an absolute right operand replaces the base. *)
Definition joinpath (base : path) (text : string) : path :=
  if is_absolute text then parse text else base ++ parse text.

(** [str(p)] of an absolute path. *)
Definition to_text (p : path) : string :=
  String "/" (Py.join "/" p).

(** [a] is [b] or one of [b.parents]. *)
Fixpoint is_prefix (a b : path) : bool :=
  match a, b with
  | [], _ => true
  | _ :: _, [] => false
  | x :: a', y :: b' => (x =? y) && is_prefix a' b'
  end.

Definition path_eqb (a b : path) : bool :=
  is_prefix a b && (length a =? length b)%nat.

(** [a in b.parents]: a proper ancestor. *)
Definition in_parents (a b : path) : bool :=
  is_prefix a b && negb (length a =? length b)%nat.

(** What the operating system answers: [realpath] is
    [os.path.realpath] on an absolute path without NUL characters,
    [None] when it raises (a loop of symbolic links, before Python
    3.13); [exists_] is [Path.exists()]. *)
Record FS : Type := {
  realpath : path -> option path;
  exists_ : path -> bool
}.

(** [p.resolve()]: the real path; a NUL character in a component makes
    the system call raise [ValueError].  [None] is the exception. *)
Definition has_nul (seg : string) : bool :=
  existsb (Ascii.eqb "000") (list_ascii_of_string seg).

Definition resolve (fs : FS) (p : path) : option path :=
  if existsb has_nul p then None else realpath fs p.

(** [realpath] in a tree without symbolic links: [..] drops the
    component before it and stays at [/]. *)
Fixpoint normalize_go (done_rev : list string) (todo : list string)
  : path :=
  match todo with
  | [] => rev done_rev
  | seg :: r =>
      if (seg =? "..") then normalize_go (tl done_rev) r
      else if keeps seg then normalize_go (seg :: done_rev) r
      else normalize_go done_rev r
  end.

Definition normalize (p : path) : path := normalize_go [] p.

Definition mem_path (p : path) (l : list path) : bool :=
  existsb (path_eqb p) l.

(** A tree without symbolic links whose files and directories are
    [nodes]. *)
Definition plain_fs (nodes : list path) : FS :=
  {| realpath := fun p => Some (normalize p);
     exists_ := fun p => mem_path p nodes |}.

End Pathlib.

(* ================================================================== *)
(** * operations.py: the lifecycle driver *)
(* ================================================================== *)

Module Operations.

Import Pathlib.
Import Yaml.

Definition manifest_name : string := "docker-compose.yml".

(** What a server does with a GET request: nothing (refused, timed out,
    no HTTP spoken) or a response with a status code - the final one,
    after the redirections [urllib] follows by itself. *)
Inductive answer : Type :=
| NoAnswer
| Status (code : Z).

(** [urlopen(req, timeout=2)]: the response object comes back for a 2xx
    status only; for every other status [urllib]'s error processor
    raises [HTTPError], and a failed connection raises [URLError].
    [None] is the raised exception. *)
Definition urlopen (a : answer) : option Z :=
  match a with
  | NoAnswer => None
  | Status code =>
      if ((200 <=? code) && (code <? 300))%Z then Some code else None
  end.

(** One call of a subprocess: the argument vector and the working
    directory. *)
Definition invocation : Type := (list string * option path)%type.

(** The machine the driver runs on.
    - [VULHUB_PATH]: the resolved scan root.
    - [compose_cmd]: what [_detect_compose_cmd] found when the object
      was built.
    - [urlopen_loaded]: whether the import of [urllib] succeeded.
    - [run_result n args cwd]: what [_run] returns for the [n]-th
      subprocess of an operation (exit status zero, stdout, stderr; a
      command that cannot be launched gives [(false, "", message)]).
    - [json_lines out]: [json.loads] over the non-blank lines of [out],
      [None] when a line does not decode.
    - [read_text p]: the text of a file, [None] when reading raises.
    - [popen args cwd]: the lines a [Popen] child writes, [None] when
      the program is not found.
    - [http_get n scheme port]: what the server at
      [scheme://127.0.0.1:port] does during poll [n].
    - [work_ms n]: the milliseconds poll [n] spends outside its sleep. *)
Record Host : Type := {
  VULHUB_PATH : path;
  fs : FS;
  compose_cmd : list string;
  urlopen_loaded : bool;
  run_result : nat -> list string -> option path -> bool * string * string;
  json_lines : string -> option (list yaml);
  read_text : path -> option string;
  popen : list string -> path -> option (list string);
  http_get : nat -> string -> Z -> answer;
  work_ms : nat -> N
}.

(** An operation ends as a [result] and has started some subprocesses,
    in order. *)
Definition traced (A : Type) : Type :=
  (Py.result A * list invocation)%type.

Definition _cmd (h : Host) (args : list string) : list string :=
  compose_cmd h ++ args.

Definition _run (h : Host) (n : nat) (args : list string)
  (cwd : option path) : bool * string * string :=
  run_result h n args cwd.

(** [_env_dir]: the directory of an environment, [None] when the name is
    empty, leaves the root or has no manifest.  The call of [resolve()]
    stands before the [try] block, so its exception leaves the
    function. *)
Definition _env_dir (h : Host) (name : string) : Py.result (option path) :=
  if (name =? "") then Py.Returns None
  else
    match resolve (fs h) (joinpath (VULHUB_PATH h) name) with
    | None => Py.Raises
    | Some p =>
        if negb (in_parents (VULHUB_PATH h) p)
           && negb (path_eqb p (VULHUB_PATH h))
        then Py.Returns None
        else if negb (exists_ (fs h) p)
                || negb (exists_ (fs h) (p ++ [manifest_name]))
        then Py.Returns None
        else Py.Returns (Some p)
    end.

(** The second component of a lifecycle result: the keys [error] and
    [port_conflict] of the dictionary; [port_conflict] is either absent
    or [True]. *)
Record info : Type := {
  error : option string;
  port_conflict : bool
}.

Definition no_info : info := {| error := None; port_conflict := false |}.

(** [a or b] on strings. *)
Definition str_or (a b : string) : string :=
  if (a =? "") then b else a.

Definition msg_not_found : string := "找不到環境：".
Definition msg_start_failed : string := "啟動失敗".
Definition msg_stop_failed : string := "停止失敗".

Definition start (h : Host) (name : string) : traced (bool * info) :=
  match _env_dir h name with
  | Py.Raises => (Py.Raises, [])
  | Py.Returns None =>
      (Py.Returns
         (false, {| error := Some (msg_not_found ++ name)%string;
                    port_conflict := false |}), [])
  | Py.Returns (Some env_dir) =>
      let args := _cmd h ["up"; "-d"] in
      let '(ok, out, err) := _run h 0 args (Some env_dir) in
      if negb ok then
        (Py.Returns
           (false,
            {| error := Some (str_or (Py.strip err)
                                (str_or (Py.strip out) msg_start_failed));
               port_conflict :=
                 Py.contains "address already in use" (Py.lower err)
                 || Py.contains "port is already allocated" (Py.lower err) |}),
         [(args, Some env_dir)])
      else (Py.Returns (true, no_info), [(args, Some env_dir)])
  end.

Definition stop (h : Host) (name : string) : traced (bool * info) :=
  match _env_dir h name with
  | Py.Raises => (Py.Raises, [])
  | Py.Returns None =>
      (Py.Returns
         (false, {| error := Some (msg_not_found ++ name)%string;
                    port_conflict := false |}), [])
  | Py.Returns (Some env_dir) =>
      let args := _cmd h ["down"] in
      let '(ok, out, err) := _run h 0 args (Some env_dir) in
      if negb ok then
        (Py.Returns
           (false,
            {| error := Some (str_or (Py.strip err)
                                (str_or (Py.strip out) msg_stop_failed));
               port_conflict := false |}),
         [(args, Some env_dir)])
      else (Py.Returns (true, no_info), [(args, Some env_dir)])
  end.

(** [_fallback_parse_images]: the [image:] lines of the manifest, matched
    with [^\s*image\s*:\s*([^\s#]+)], first occurrences only. *)
Fixpoint drop (n : nat) (s : string) : string :=
  match n, s with
  | O, _ => s
  | S _, EmptyString => EmptyString
  | S k, String _ r => drop k r
  end.

Fixpoint take_while (f : ascii -> bool) (s : string) : string :=
  match s with
  | EmptyString => EmptyString
  | String c r => if f c then String c (take_while f r) else EmptyString
  end.

Fixpoint drop_while (f : ascii -> bool) (s : string) : string :=
  match s with
  | EmptyString => EmptyString
  | String c r => if f c then drop_while f r else s
  end.

Definition image_of_line (ln : string) : option string :=
  let a := Py.lstrip ln in
  if prefix "image" a then
    match Py.lstrip (drop 5 a) with
    | String ":" b =>
        let g := take_while (fun c => negb (Py.is_space c || Ascii.eqb c "#"))
                   (Py.lstrip b) in
        if (g =? "") then None else Some (Py.strip g)
    | _ => None
    end
  else None.

Fixpoint images_of_lines (lines : list string) : list string :=
  match lines with
  | [] => []
  | ln :: r =>
      match image_of_line ln with
      | Some img => img :: images_of_lines r
      | None => images_of_lines r
      end
  end.

Definition mem_string (x : string) (l : list string) : bool :=
  existsb (String.eqb x) l.

Fixpoint uniq_go (seen : list string) (l : list string) : list string :=
  match l with
  | [] => []
  | x :: r =>
      if mem_string x seen then uniq_go seen r
      else x :: uniq_go (x :: seen) r
  end.

Definition _fallback_parse_images (h : Host) (env_dir : path) : list string :=
  let images :=
    match read_text h (env_dir ++ [manifest_name]) with
    | Some text => images_of_lines (Py.splitlines text)
    | None => []
    end in
  uniq_go [] images.

(** The result of [check_images]: the keys [missing] and [warning]. *)
Record images_info : Type := {
  missing : list string;
  warning : option string
}.

Definition msg_skipped : string := "（略過檢查）".

(** The inspection loop of [check_images]; [n] numbers the
    subprocesses. *)
Fixpoint inspect_all (h : Host) (n : nat) (images : list string)
  : list string * list invocation :=
  match images with
  | [] => ([], [])
  | img :: r =>
      let args := ["docker"; "image"; "inspect"; img] in
      let '(ok2, _, _) := _run h n args None in
      let '(miss, tr) := inspect_all h (S n) r in
      (if negb ok2 then img :: miss else miss, (args, None) :: tr)
  end.

Definition check_images (h : Host) (name : string)
  : traced (bool * images_info) :=
  match _env_dir h name with
  | Py.Raises => (Py.Raises, [])
  | Py.Returns None =>
      (Py.Returns
         (true, {| missing := [];
                   warning := Some (msg_not_found ++ name ++ msg_skipped)%string |}),
       [])
  | Py.Returns (Some env_dir) =>
      let args := _cmd h ["config"; "--images"] in
      let '(ok, out, _) := _run h 0 args (Some env_dir) in
      let images :=
        if ok
        then filter (fun ln => negb (ln =? ""))
               (map Py.strip (Py.splitlines out))
        else _fallback_parse_images h env_dir in
      let '(miss, tr) := inspect_all h 1 images in
      (Py.Returns (true, {| missing := miss; warning := None |}),
       (args, Some env_dir) :: tr)
  end.

Definition msg_pull_not_found : string := "[Error] 找不到環境".
Definition msg_no_docker : string :=
  "[Error] 找不到 docker 指令，請確認已安裝 Docker 並在 PATH 中。".

(** [pull_images_stream]: the lines the generator yields. *)
Definition pull_images_stream (h : Host) (name : string)
  : traced (list string) :=
  match _env_dir h name with
  | Py.Raises => (Py.Raises, [])
  | Py.Returns None => (Py.Returns [msg_pull_not_found], [])
  | Py.Returns (Some env_dir) =>
      let cmd := _cmd h ["pull"] in
      match popen h cmd env_dir with
      | None => (Py.Returns [msg_no_docker], [(cmd, Some env_dir)])
      | Some lines =>
          (Py.Returns (map Py.rstrip_nl lines), [(cmd, Some env_dir)])
      end
  end.

(** [_parse_ports_string]: in every comma-separated part the leftmost
    match of [:(\d+)->\d+/(tcp|udp)] gives a host port. *)
Definition port_match_here (s : string) : option string :=
  match s with
  | String ":" r =>
      let d1 := take_while Py.is_digit r in
      if (d1 =? "") then None
      else
        match drop_while Py.is_digit r with
        | String "-" (String ">" r2) =>
            let d2 := take_while Py.is_digit r2 in
            if (d2 =? "") then None
            else
              let r3 := drop_while Py.is_digit r2 in
              if prefix "/tcp" r3 || prefix "/udp" r3 then Some d1 else None
        | _ => None
        end
  | _ => None
  end.

Fixpoint port_search (s : string) : option string :=
  match port_match_here s with
  | Some d => Some d
  | None =>
      match s with
      | EmptyString => None
      | String _ r => port_search r
      end
  end.

Fixpoint ports_of_parts (parts : list string) : list Z :=
  match parts with
  | [] => []
  | part :: r =>
      match port_search part with
      | Some d =>
          match Py.int d with
          | Some n => n :: ports_of_parts r
          | None => ports_of_parts r
          end
      | None => ports_of_parts r
      end
  end.

Definition _parse_ports_string (s : string) : list Z :=
  ports_of_parts (Py.split "," s).

(** [_pick_host_ports]: the host ports [ps --format json] reports, each
    once, in order.  An object that is no dictionary or a [Ports] value
    that is no string raises inside the [try]; the ports gathered so far
    are returned. *)
Fixpoint add_new (ports : list Z) (found : list Z) : list Z :=
  match found with
  | [] => ports
  | hp :: r =>
      if existsb (Z.eqb hp) ports then add_new ports r
      else add_new (ports ++ [hp]) r
  end.

Fixpoint ports_of_objects (objs : list yaml) (ports : list Z) : list Z :=
  match objs with
  | [] => ports
  | obj :: r =>
      match get obj "Ports" with
      | None => ports
      | Some v =>
          match or_else v (YStr "") with
          | YStr pstr => ports_of_objects r (add_new ports (_parse_ports_string pstr))
          | _ => ports
          end
      end
  end.

Definition _pick_host_ports (h : Host) (n : nat) (env_dir : path)
  : list Z * invocation :=
  let args := _cmd h ["ps"; "--format"; "json"] in
  let '(ok, out, _) := _run h n args (Some env_dir) in
  let ports :=
    if ok then
      match json_lines h out with
      | Some lines => ports_of_objects lines []
      | None => []
      end
    else [] in
  (ports, (args, Some env_dir)).

(** The payload of [wait_ready]: the keys [ready] and [port]. *)
Record ready_info : Type := {
  ready : bool;
  port : option Z
}.

(** The [for scheme in ('http', 'https')] loop: [Some] when a [urlopen]
    call returned a response, and then the value [wait_ready] returns;
    [None] when both raised. *)
Fixpoint probe_schemes (h : Host) (n : nat) (chosen_port : Z)
  (schemes : list string) : option (bool * ready_info) :=
  match schemes with
  | [] => None
  | scheme :: r =>
      match urlopen (http_get h n scheme chosen_port) with
      | Some status =>
          if ((200 <=? status) && (status <? 400))%Z
          then Some (true, {| ready := true; port := Some chosen_port |})
          else Some (true, {| ready := true; port := Some chosen_port |})
      | None => probe_schemes h n chosen_port r
      end
  end.

(** The statements after the loop. *)
Definition after_loop (chosen_port : option Z) : bool * ready_info :=
  match chosen_port with
  | Some p =>
      if negb (p =? 0)%Z
      then (true, {| ready := false; port := Some p |})
      else (true, {| ready := false; port := None |})
  | None => (true, {| ready := false; port := None |})
  end.

(** The [while time.time() < deadline] loop.  Times are milliseconds
    since the deadline was computed; poll [n] takes [work_ms n] and then
    sleeps one second.  [fuel] bounds the number of polls. *)
Fixpoint wait_loop (h : Host) (env_dir : path) (fuel n : nat)
  (now deadline : Z) (chosen_port : option Z)
  : (bool * ready_info) * list invocation :=
  match fuel with
  | O => (after_loop chosen_port, [])
  | S fuel' =>
      if (now <? deadline)%Z then
        let '(ports, inv) := _pick_host_ports h n env_dir in
        let later := (now + Z.of_N (work_ms h n) + 1000)%Z in
        match ports with
        | [] =>
            let '(res, tr) :=
              wait_loop h env_dir fuel' (S n) later deadline chosen_port in
            (res, inv :: tr)
        | p :: _ =>
            match probe_schemes h n p ["http"; "https"] with
            | Some res => (res, [inv])
            | None =>
                let '(res, tr) :=
                  wait_loop h env_dir fuel' (S n) later deadline (Some p) in
                (res, inv :: tr)
            end
        end
      else (after_loop chosen_port, [])
  end.

(** [wait_ready].  Every poll sleeps a second, so [max(1, timeout)] polls
    reach the deadline (lemma [wait_loop_fuel]). *)
Definition wait_ready (h : Host) (name : string) (timeout : Z)
  : traced (bool * ready_info) :=
  if negb (urlopen_loaded h)
  then (Py.Returns (true, {| ready := false; port := None |}), [])
  else
    match _env_dir h name with
    | Py.Raises => (Py.Raises, [])
    | Py.Returns None =>
        (Py.Returns (true, {| ready := false; port := None |}), [])
    | Py.Returns (Some env_dir) =>
        let seconds := Z.max 1 timeout in
        let '(res, tr) :=
          wait_loop h env_dir (Z.to_nat seconds) 0 0 (1000 * seconds)%Z None in
        (Py.Returns res, tr)
    end.

End Operations.

(* ================================================================== *)
(** * Files written with [open(path, 'w')] and [json.dump] *)
(* ================================================================== *)

Module Disk.

(** The content of a cache file, as [json.load] sees it:
    - [Absent]: there is no file;
    - [Holds doc]: the complete JSON document of [doc];
    - [Torn doc written]: the file was truncated by [open(.., 'w')] and
      only the first [written] pieces of the document of [doc] reached
      it - a proper prefix of a JSON document, which does not decode;
    - [Foreign]: any other content that does not decode to the
      structure the reader expects. *)
Inductive file (A : Type) : Type :=
| Absent
| Holds (doc : A)
| Torn (doc : A) (written : nat)
| Foreign.

Arguments Absent {A}.
Arguments Holds {A} doc.
Arguments Torn {A} doc written.
Arguments Foreign {A}.

(** What can go wrong while a file is written: nothing, [open] raises
    (the file is left as it was), or [json.dump] raises after [written]
    pieces and before the document is complete (an unserialisable
    value, a full disk). *)
Inductive fault : Type :=
| NoFault
| OpenFails
| DumpFails (written : nat).

(** [with open(path, 'w') as f: json.dump(doc, f)]: the file afterwards,
    and whether the statement raised. *)
Definition open_w_dump {A} (old : file A) (doc : A) (ft : fault)
  : file A * bool :=
  match ft with
  | NoFault => (Holds doc, false)
  | OpenFails => (old, true)
  | DumpFails written => (Torn doc written, true)
  end.

End Disk.

(* ================================================================== *)
(** * app.py: scanning, the persistent cache and the HTTP handlers *)
(* ================================================================== *)

Module App.

Import Pathlib.
Import Yaml.
Import Disk.

(** [CACHE_TTL_MS = 24 * 60 * 60 * 1000]. *)
Definition CACHE_TTL_MS : Z := 24 * 60 * 60 * 1000.

(** What [yaml.safe_load(_read_text(compose_path))] does: it raises or
    it returns a document. *)
Inductive load_result : Type :=
| LoadRaises
| Loaded (doc : yaml).

(** The tree below the scan root and the probes made on it.  A manifest
    is named by the components of its directory relative to the root.
    - [root_exists]: [VULHUB_PATH.exists()].
    - [rglob]: the directories of the manifests
      [VULHUB_PATH.rglob('docker-compose.yml')] finds, in the order of
      the traversal; [None] when the traversal raises.
    - [yaml_loaded]: whether PyYAML could be imported.
    - [manifest_exists d], [manifest_load d]: [compose_path.exists()]
      and the loading of the manifest of [d].
    - [readme d], [readme_zh_cn d], [readme_zh d]: the existence of
      [README.md], [README.zh-cn.md] and [README_zh.md].
    - [_has_exploit d], [_image_files d], [_check_docker_images_exist d]:
      the results of the probes of these names. *)
Record Tree : Type := {
  root_exists : bool;
  rglob : option (list (list string));
  yaml_loaded : bool;
  manifest_exists : list string -> bool;
  manifest_load : list string -> load_result;
  readme : list string -> bool;
  readme_zh_cn : list string -> bool;
  readme_zh : list string -> bool;
  _has_exploit : list string -> bool;
  _image_files : list string -> list string;
  _check_docker_images_exist : list string -> bool
}.

(** The same tree and probes with another traversal. *)
Definition with_rglob (t : Tree) (r : option (list (list string))) : Tree :=
  {| root_exists := root_exists t;
     rglob := r;
     yaml_loaded := yaml_loaded t;
     manifest_exists := manifest_exists t;
     manifest_load := manifest_load t;
     readme := readme t;
     readme_zh_cn := readme_zh_cn t;
     readme_zh := readme_zh t;
     _has_exploit := _has_exploit t;
     _image_files := _image_files t;
     _check_docker_images_exist := _check_docker_images_exist t |}.

(** ** [_compose_parse_services_ports] *)

(** The body of [for item in port_list]: what one item appends to
    [host_ports]. *)
Definition item_host_port (item : yaml) : option string :=
  match item with
  | YStr s =>
      let parts := Py.split ":" s in
      if (2 <=? length parts)%nat then
        match Py.second_to_last parts with
        | Some tok =>
            match Py.int tok with
            | Some n => Some (Py.str_of_Z n)
            | None => None
            end
        | None => None
        end
      else Some (hd EmptyString parts)
  | YMap _ =>
      match get item "published" with
      | Some hp => if truthy hp then Some (str hp) else None
      | None => None
      end
  | _ => None
  end.

Fixpoint host_ports_of (items : list yaml) : list string :=
  match items with
  | [] => []
  | item :: r =>
      match item_host_port item with
      | Some hp => hp :: host_ports_of r
      | None => host_ports_of r
      end
  end.

(** The host ports of one service; [None] when the body raises
    ([svc_cfg] is no dictionary, or [ports] cannot be iterated). *)
Definition service_host_ports (svc_cfg : yaml) : option (list string) :=
  match get svc_cfg "ports" with
  | None => None
  | Some v =>
      match iter (or_else v (YSeq [])) with
      | None => None
      | Some port_list => Some (host_ports_of port_list)
      end
  end.

(** The [for svc_name, svc_cfg in svcs.items()] loop on the two
    accumulators.  When the body raises, the handler around the loop
    leaves the accumulators as they are at that point. *)
Fixpoint parse_services (svcs : list (string * yaml))
  (services : list string) (ports_map : list (string * string))
  : list string * list (string * string) :=
  match svcs with
  | [] => (services, ports_map)
  | (svc_name, svc_cfg) :: r =>
      let services' := services ++ [svc_name] in
      match service_host_ports svc_cfg with
      | None => (services', ports_map)
      | Some host_ports =>
          parse_services r services'
            match host_ports with
            | hp :: _ => dict_set svc_name hp ports_map
            | [] => ports_map
            end
      end
  end.

Definition _compose_parse_services_ports (t : Tree) (d : list string)
  : list string * list (string * string) :=
  if negb (manifest_exists t d) then ([], [])
  else if yaml_loaded t then
    match manifest_load t d with
    | LoadRaises => ([], [])
    | Loaded doc =>
        match get (or_else doc (YMap [])) "services" with
        | None => ([], [])
        | Some v =>
            match or_else v (YMap []) with
            | YMap svcs => parse_services svcs [] []
            | _ => ([], [])
            end
        end
    end
  else ([], []).

(** ** [_scan_environments_fs] *)

(** One entry of the snapshot: the dictionary the scan builds. *)
Record environment : Type := {
  name : string;
  category : string;
  cve : string;
  status : string;
  ports : list (string * string);
  services : list string;
  has_exploit : bool;
  has_images : bool;
  has_readme : bool;
  has_readme_zh : bool;
  has_docker_images : bool
}.

(** [env_dir.relative_to(VULHUB_PATH).as_posix()]. *)
Definition as_posix (d : list string) : string :=
  match d with
  | [] => "."
  | _ => Py.join "/" d
  end.

(** The body of the scanning loop for the manifest in directory [d]. *)
Definition scan_entry (t : Tree) (d : list string) : environment :=
  let rel := as_posix d in
  let parts := Py.split "/" rel in
  let '(svcs, ports_map) := _compose_parse_services_ports t d in
  {| name := rel;
     category := hd "unknown" parts;
     cve := last parts "unknown";
     status := "unknown";
     ports := ports_map;
     services := svcs;
     has_exploit := _has_exploit t d;
     has_images := match _image_files t d with [] => false | _ => true end;
     has_readme := readme t d;
     has_readme_zh := readme_zh_cn t d || readme_zh t d;
     has_docker_images := _check_docker_images_exist t d |}.

(** [list.sort(key=...)] and [sorted]: a stable sort on string keys in
    the order of the character codes. *)
Fixpoint insert_by {A} (key : A -> string) (x : A) (l : list A) : list A :=
  match l with
  | [] => [x]
  | y :: r =>
      if String.leb (key x) (key y) then x :: l else y :: insert_by key x r
  end.

Fixpoint sort_by {A} (key : A -> string) (l : list A) : list A :=
  match l with
  | [] => []
  | x :: r => insert_by key x (sort_by key r)
  end.

Definition sorted (l : list string) : list string :=
  sort_by (fun s => s) l.

(** [_scan_environments_fs]; [None] is the exception of a missing root
    or of a failing traversal. *)
Definition _scan_environments_fs (t : Tree) : option (list environment) :=
  if negb (root_exists t) then None
  else
    match rglob t with
    | None => None
    | Some compose_dirs => Some (sort_by name (map (scan_entry t) compose_dirs))
    end.

(** ** The persistent cache *)

(** [_calculate_vulhub_hash]: the digest of the sorted relative manifest
    paths, joined without a separator; [None] when the traversal
    raises. *)
Definition manifest_rel (d : list string) : string :=
  Py.join "/" (d ++ [Operations.manifest_name]).

Definition paths_str (compose_dirs : list (list string)) : string :=
  Py.join "" (sorted (map manifest_rel compose_dirs)).

Definition _calculate_vulhub_hash (t : Tree) : option string :=
  match rglob t with
  | None => None
  | Some compose_dirs => Some (MD5.hexdigest (paths_str compose_dirs))
  end.

(** The dictionary stored in the cache file.  A key may be missing from
    a file found on disk; [vulhub_hash] is [None] also for JSON
    [null]. *)
Record envelope : Type := {
  environments : option (list environment);
  timestamp : option Z;
  vulhub_hash : option string;
  vulhub_path : option string
}.

Definition option_string_eqb (a b : option string) : bool :=
  match a, b with
  | None, None => true
  | Some x, Some y => (x =? y)
  | _, _ => false
  end.

Definition get_or {A} (o : option A) (d : A) : A :=
  match o with
  | Some x => x
  | None => d
  end.

(** [_load_persistent_cache] at time [now] (milliseconds); [None] is the
    [None] it returns. *)
Definition _load_persistent_cache (t : Tree) (now : Z)
  (cache_file : file envelope) : option (list environment) :=
  match cache_file with
  | Holds cache_data =>
      let cache_ts := get_or (timestamp cache_data) 0%Z in
      if (now - cache_ts >? CACHE_TTL_MS)%Z then None
      else
        let saved_hash := vulhub_hash cache_data in
        let current_hash := _calculate_vulhub_hash t in
        if negb (option_string_eqb saved_hash current_hash) then None
        else Some (get_or (environments cache_data) [])
  | Absent => None
  | Torn _ _ => None
  | Foreign => None
  end.

(** [_save_persistent_cache]: the cache file afterwards.  The handler
    around the body swallows every exception. *)
Definition _save_persistent_cache (h : Operations.Host) (t : Tree)
  (now : Z) (envs : list environment) (cache_file : file envelope)
  (ft : fault) : file envelope :=
  let cache_data :=
    {| environments := Some envs;
       timestamp := Some now;
       vulhub_hash := _calculate_vulhub_hash t;
       vulhub_path := Some (to_text (Operations.VULHUB_PATH h)) |} in
  fst (open_w_dump cache_file cache_data ft).

(** ** [_get_env_dir_by_name] *)

(** It returns a path or raises: the exception of [resolve()], or
    [FileNotFoundError] for a path that leaves the root. *)
Definition _get_env_dir_by_name (h : Operations.Host) (nm : string)
  : Py.result path :=
  match resolve (Operations.fs h)
          (joinpath (Operations.VULHUB_PATH h) nm) with
  | None => Py.Raises
  | Some p =>
      if negb (in_parents (Operations.VULHUB_PATH h) p)
         && negb (path_eqb p (Operations.VULHUB_PATH h))
      then Py.Raises
      else Py.Returns p
  end.

(** ** [api_start] and [api_stop] *)

(** The module-level [_env_cache]. *)
Record env_cache : Type := {
  data : option (list environment);
  ts : Z
}.

Definition with_status (e : environment) (st : string) : environment :=
  {| name := name e;
     category := category e;
     cve := cve e;
     status := st;
     ports := ports e;
     services := services e;
     has_exploit := has_exploit e;
     has_images := has_images e;
     has_readme := has_readme e;
     has_readme_zh := has_readme_zh e;
     has_docker_images := has_docker_images e |}.


Definition data_truthy (d : option (list environment)) : bool :=
  match d with
  | Some (_ :: _) => true
  | _ => false
  end.






End App.

(* ================================================================== *)
(** * vulhub_manager.py: the stand-alone scanner *)
(* ================================================================== *)

Module Manager.

Import Pathlib.
Import Yaml.
Import Disk.

(** The dataclass [VulhubEnvironment]. *)
Record VulhubEnvironment : Type := {
  name : string;
  path : string;
  category : string;
  cve : string;
  services : list string;
  ports : list (string * string);
  status : string;
  has_readme : bool;
  has_readme_zh : bool;
  has_images : bool;
  images : list string;
  has_exploit : bool;
  exploit_files : list string;
  compose_hash : string;
  last_checked : string
}.

(** What the [try] block that opens, reads and loads a manifest does. *)
Inductive compose_read : Type :=
| ReadRaises
| ReadOk (compose_content : string) (compose_config : yaml).

(** The tree the manager scans and the machine it runs on.
    - [root]: [self.root], an absolute path.
    - [rglob]: the directories of the manifests
      [self.root.rglob('docker-compose.yml')] finds, relative to the
      root, in the order of the traversal; [None] when it raises.
    - [read_compose d]: the reading of the manifest of [d].
    - [file_exists d f]: whether [env_dir / f] exists.
    - [glob d pattern]: the names [env_dir.glob(pattern)] yields.
    - [now_iso i]: [datetime.now().isoformat()] when the [i]-th manifest
      of the traversal is parsed.
    - [cache_age_ms]: the age of the cache file, from its modification
      time, in milliseconds.
    - [docker_ps_labels]: the standard output of
      [docker ps --format '{{.Labels}}'], [None] when the call raises. *)
Record World : Type := {
  root : Pathlib.path;
  rglob : option (list (list string));
  read_compose : list string -> compose_read;
  file_exists : list string -> string -> bool;
  glob : list string -> string -> list string;
  now_iso : nat -> string;
  cache_age_ms : Z;
  docker_ps_labels : option string
}.

(** The same world with another traversal, and at another time. *)
Definition with_rglob (w : World) (r : option (list (list string))) : World :=
  {| root := root w;
     rglob := r;
     read_compose := read_compose w;
     file_exists := file_exists w;
     glob := glob w;
     now_iso := now_iso w;
     cache_age_ms := cache_age_ms w;
     docker_ps_labels := docker_ps_labels w |}.

Definition with_clock (w : World) (clock : nat -> string) : World :=
  {| root := root w;
     rglob := rglob w;
     read_compose := read_compose w;
     file_exists := file_exists w;
     glob := glob w;
     now_iso := clock;
     cache_age_ms := cache_age_ms w;
     docker_ps_labels := docker_ps_labels w |}.

(** [cve_regex.match(seg)] for [(?i)^(CVE-\d{4}-\d{4,7})]: the matched
    text. *)
Definition all_digits (s : string) : bool :=
  (Operations.take_while Py.is_digit s =? s).

Definition min7 (n : nat) : nat := Nat.min 7 n.

Definition cve_match (seg : string) : option string :=
  if (Py.lower (substring 0 4 seg) =? "cve-")
     && (String.length (substring 4 4 seg) =? 4)%nat
     && all_digits (substring 4 4 seg)
     && (substring 8 1 seg =? "-")
  then
    let run := Operations.take_while Py.is_digit (Operations.drop 9 seg) in
    if (4 <=? String.length run)%nat
    then Some (substring 0 (9 + min7 (String.length run)) seg)
    else None
  else None.

(** The loop that looks for a CVE segment: its text in upper case and
    its index. *)
Fixpoint find_cve (parts : list string) (idx : nat) : option (string * nat) :=
  match parts with
  | [] => None
  | seg :: r =>
      match cve_match seg with
      | Some m => Some (Py.upper m, idx)
      | None => find_cve r (S idx)
      end
  end.

(** [s.replace('\\', '/')]. *)
Fixpoint replace_backslash (s : string) : string :=
  match s with
  | EmptyString => EmptyString
  | String c r =>
      String (if Ascii.eqb c backslash then "/"%char else c)
        (replace_backslash r)
  end.

(** ** [_extract_ports] *)

(** ['ports' in service]; [None] is the [TypeError] of an object that
    supports no membership test. *)
Definition is_str_ports (y : yaml) : bool :=
  match y with
  | YStr s => (s =? "ports")
  | _ => false
  end.

Definition has_ports (service : yaml) : option bool :=
  match service with
  | YMap m =>
      Some match lookup "ports" m with Some _ => true | None => false end
  | YStr s => Some (Py.contains "ports" s)
  | YSeq l => Some (existsb is_str_ports l)
  | _ => None
  end.

(** [service['ports']]; [None] is the [TypeError] of an index that is no
    key. *)
Definition item_ports (service : yaml) : option yaml :=
  match service with
  | YMap m => lookup "ports" m
  | _ => None
  end.

(** The [for port_mapping in service['ports']] loop up to its [break]:
    the host port it stores, if any. *)
Fixpoint first_host_port (mappings : list yaml) : option string :=
  match mappings with
  | [] => None
  | port_mapping :: r =>
      if Py.contains ":" (str port_mapping)
      then
        let parts := Py.split ":" (str port_mapping) in
        let host_port := hd EmptyString parts in
        Some host_port
      else first_host_port r
  end.

Fixpoint extract_services (svcs : list (string * yaml))
  (ports : list (string * string)) : option (list (string * string)) :=
  match svcs with
  | [] => Some ports
  | (service_name, service) :: r =>
      match has_ports service with
      | None => None
      | Some false => extract_services r ports
      | Some true =>
          match item_ports service with
          | None => None
          | Some v =>
              match iter v with
              | None => None
              | Some mappings =>
                  extract_services r
                    match first_host_port mappings with
                    | Some host_port => dict_set service_name host_port ports
                    | None => ports
                    end
              end
          end
      end
  end.

(** [_extract_ports]; [None] is an exception. *)
Definition _extract_ports (config : yaml) : option (list (string * string)) :=
  match get_default config "services" (YMap []) with
  | Some (YMap svcs) => extract_services svcs []
  | _ => None
  end.

(** ** [_parse_environment] *)

Definition nth_str (l : list string) (i : nat) : string :=
  nth i l EmptyString.

(** The image names gathered over the four patterns, three per
    pattern. *)
Definition image_names (w : World) (d : list string) : list string :=
  flat_map (fun pattern => firstn 3 (glob w d pattern))
    ["*.png"; "*.jpg"; "*.jpeg"; "*.gif"].

(** The Python files whose lower-case name holds a keyword. *)
Definition is_exploit_name (file_name : string) : bool :=
  let filename := Py.lower file_name in
  existsb (fun keyword => Py.contains keyword filename)
    ["exploit"; "poc"; "cve"; "exp"].

Definition exploit_names (w : World) (d : list string) : list string :=
  filter is_exploit_name (glob w d "*.py").

(** [_parse_environment] for the [i]-th manifest of the traversal, found
    in directory [d] (relative to the root). *)
Definition _parse_environment (w : World) (i : nat) (d : list string)
  : Py.result (option VulhubEnvironment) :=
  let parts := d in
  if (length parts =? 0)%nat then Py.Returns None
  else
    let '(category_, cve_) :=
      match find_cve parts 0 with
      | Some (m, cve_idx) =>
          (if (0 <? cve_idx)%nat then nth_str parts (cve_idx - 1)
           else nth_str parts 0, m)
      | None =>
          (if (2 <=? length parts)%nat then nth_str parts (length parts - 2)
           else nth_str parts 0,
           last parts "unknown")
      end in
    let name_ := replace_backslash (Py.join "/" parts) in
    match read_compose w d with
    | ReadRaises => Py.Returns None
    | ReadOk compose_content compose_config =>
        let images_ := image_names w d in
        let exploit_files_ := exploit_names w d in
        match get_default compose_config "services" (YMap []) with
        | Some (YMap svcs) =>
            match _extract_ports compose_config with
            | None => Py.Raises
            | Some ports_ =>
                Py.Returns (Some
                  {| name := name_;
                     path := to_text (root w ++ d);
                     category := category_;
                     cve := cve_;
                     services := map fst svcs;
                     ports := ports_;
                     status := "unknown";
                     has_readme := file_exists w d "README.md";
                     has_readme_zh := file_exists w d "README.zh-cn.md";
                     has_images := (0 <? length images_)%nat;
                     images := App.sorted images_;
                     has_exploit := (0 <? length exploit_files_)%nat;
                     exploit_files := App.sorted exploit_files_;
                     compose_hash := MD5.hexdigest compose_content;
                     last_checked := now_iso w i |})
            end
        | _ => Py.Raises
        end
    end.

(** ** The cache file and the status check on loading *)

Definition with_status (e : VulhubEnvironment) (st : string)
  : VulhubEnvironment :=
  {| name := name e;
     path := path e;
     category := category e;
     cve := cve e;
     services := services e;
     ports := ports e;
     status := st;
     has_readme := has_readme e;
     has_readme_zh := has_readme_zh e;
     has_images := has_images e;
     images := images e;
     has_exploit := has_exploit e;
     exploit_files := exploit_files e;
     compose_hash := compose_hash e;
     last_checked := last_checked e |}.

Definition with_last_checked (e : VulhubEnvironment) (stamp : string)
  : VulhubEnvironment :=
  {| name := name e;
     path := path e;
     category := category e;
     cve := cve e;
     services := services e;
     ports := ports e;
     status := status e;
     has_readme := has_readme e;
     has_readme_zh := has_readme_zh e;
     has_images := has_images e;
     images := images e;
     has_exploit := has_exploit e;
     exploit_files := exploit_files e;
     compose_hash := compose_hash e;
     last_checked := stamp |}.

Definition working_dir_label : string :=
  "com.docker.compose.project.working_dir=".

(** The working directories named by the label lines of [docker ps]. *)
Fixpoint running_projects (lines : list string) : list string :=
  match lines with
  | [] => []
  | line :: r =>
      if Py.contains working_dir_label line
      then
        let parts := Py.split working_dir_label line in
        if (1 <? length parts)%nat
        then hd EmptyString (Py.split "," (nth_str parts 1))
               :: running_projects r
        else running_projects r
      else running_projects r
  end.

(** [_batch_check_status] on [self.environments]. *)
Definition _batch_check_status (w : World) (envs : list VulhubEnvironment)
  : list VulhubEnvironment :=
  match docker_ps_labels w with
  | Some stdout =>
      let running := running_projects (Py.splitlines stdout) in
      map (fun e =>
             if Operations.mem_string (path e) running
             then with_status e "running"
             else with_status e "stopped") envs
  | None => map (fun e => with_status e "unknown") envs
  end.

(** [_load_from_cache]; [None] is the exception of a file that does not
    decode to a list of environments. *)
Definition _load_from_cache (w : World)
  (cache_file : file (list VulhubEnvironment))
  : option (list VulhubEnvironment) :=
  match cache_file with
  | Holds cache_data => Some (_batch_check_status w cache_data)
  | _ => None
  end.

(** [_save_to_cache]: the file afterwards and whether the call raised. *)
Definition _save_to_cache (envs : list VulhubEnvironment)
  (cache_file : file (list VulhubEnvironment)) (ft : fault)
  : file (list VulhubEnvironment) * bool :=
  open_w_dump cache_file envs ft.

Definition cache_exists {A} (f : file A) : bool :=
  match f with
  | Absent => false
  | _ => true
  end.

(** ** [scan] *)

(** The scanning loop: a manifest whose parsing raises or returns [None]
    adds nothing. *)
Fixpoint scan_loop (w : World) (i : nat) (compose_dirs : list (list string))
  : list VulhubEnvironment :=
  match compose_dirs with
  | [] => []
  | d :: r =>
      match _parse_environment w i d with
      | Py.Returns (Some env) => env :: scan_loop w (S i) r
      | _ => scan_loop w (S i) r
      end
  end.

(** [scan(use_cache)]: the list it returns ([None] when it raises) and
    the cache file afterwards. *)
Definition scan (w : World) (use_cache : bool)
  (cache_file : file (list VulhubEnvironment)) (ft : fault)
  : option (list VulhubEnvironment) * file (list VulhubEnvironment) :=
  if use_cache && cache_exists cache_file && (cache_age_ms w <? 3600 * 1000)%Z
  then (_load_from_cache w cache_file, cache_file)
  else
    match rglob w with
    | None => (None, cache_file)
    | Some compose_dirs =>
        let envs := scan_loop w 1 compose_dirs in
        let '(cache_file', raised) := _save_to_cache envs cache_file ft in
        (if raised then None else Some envs, cache_file')
    end.

End Manager.

(* ================================================================== *)
(** * Concrete machines and trees *)
(* ================================================================== *)

Module Examples.

Import Pathlib.
Import Yaml.

(** A scan root [/srv/vulhub] with the environment [nginx], a directory
    [docs] without manifest, and manifests outside the root. *)
Definition root0 : path := ["srv"; "vulhub"].

Definition nodes0 : list path :=
  [ ["srv"];
    ["srv"; "vulhub"];
    ["srv"; "vulhub"; "nginx"];
    ["srv"; "vulhub"; "nginx"; "docker-compose.yml"];
    ["srv"; "vulhub"; "docs"];
    ["srv"; "x"];
    ["srv"; "x"; "docker-compose.yml"];
    ["etc"];
    ["etc"; "docker-compose.yml"] ].

(** A machine on which every subprocess ends as [cli] says and every
    server answers as [web] says; [docker compose ps] output is decoded
    to one object whose [Ports] entry is the output itself. *)
Definition host (cli : bool * string * string) (web : Operations.answer)
  : Operations.Host :=
  {| Operations.VULHUB_PATH := root0;
     Operations.fs := plain_fs nodes0;
     Operations.compose_cmd := ["docker"; "compose"];
     Operations.urlopen_loaded := true;
     Operations.run_result := fun _ _ _ => cli;
     Operations.json_lines :=
       fun out => Some [YMap [("Ports", YStr out)]];
     Operations.read_text := fun _ => None;
     Operations.popen := fun _ _ => Some [];
     Operations.http_get := fun _ _ _ => web;
     Operations.work_ms := fun _ => 0%N |}.

(** A machine whose commands all succeed in silence and on which no
    server answers. *)
Definition idle : Operations.Host :=
  host (true, EmptyString, EmptyString) Operations.NoAnswer.

(** An identifier with a NUL character: [a], NUL, [b]. *)
Definition nul_name : string := String "a" (String "000" "b").

Definition published_8080 : bool * string * string :=
  (true, "0.0.0.0:8080->80/tcp, :::8080->80/tcp", "").

(** A manifest with one service that binds [127.0.0.1:8080], as loaded
    and as text. *)
Definition bound_manifest : yaml :=
  YMap [("services",
         YMap [("web", YMap [("image", YStr "nginx:1.25");
                             ("ports", YSeq [YStr "127.0.0.1:8080:80"])])])].

Definition bound_text : string :=
  "services:
  web:
    image: nginx:1.25
    ports:
      - 127.0.0.1:8080:80
".


(** A tree whose traversal finds [dirs] and whose manifests all load to
    [doc]. *)
Definition tree (dirs : list (list string)) (doc : App.load_result)
  : App.Tree :=
  {| App.root_exists := true;
     App.rglob := Some dirs;
     App.yaml_loaded := true;
     App.manifest_exists := fun _ => true;
     App.manifest_load := fun _ => doc;
     App.readme := fun _ => true;
     App.readme_zh_cn := fun _ => false;
     App.readme_zh := fun _ => false;
     App._has_exploit := fun _ => false;
     App._image_files := fun _ => [];
     App._check_docker_images_exist := fun _ => false |}.

(** The manager's view of a tree: the manifest of [broken] cannot be
    read, every other manifest loads to [bound_manifest]; the cache file
    is [age] milliseconds old and the clock shows [clock]. *)
Definition world (dirs : list (list string)) (broken : list string)
  (clock : string) (age : Z) : Manager.World :=
  {| Manager.root := root0;
     Manager.rglob := Some dirs;
     Manager.read_compose :=
       fun d => if path_eqb d broken then Manager.ReadRaises
                else Manager.ReadOk bound_text bound_manifest;
     Manager.file_exists := fun _ _ => false;
     Manager.glob := fun _ _ => [];
     Manager.now_iso := fun _ => clock;
     Manager.cache_age_ms := age;
     Manager.docker_ps_labels := Some "" |}.

Definition two_dirs : list (list string) := [["b"]; ["a"]].

(** A cached snapshot with one record per name, all of status
    [unknown]. *)
Definition record (nm : string) : App.environment :=
  {| App.name := nm;
     App.category := nm;
     App.cve := nm;
     App.status := "unknown";
     App.ports := [];
     App.services := [];
     App.has_exploit := false;
     App.has_images := false;
     App.has_readme := false;
     App.has_readme_zh := false;
     App.has_docker_images := false |}.

Definition records (names : list string) : list App.environment :=
  map record names.


Definition snapshot_a : list App.environment :=
  match App._scan_environments_fs (tree [["a"]] (App.Loaded bound_manifest)) with
  | Some envs => envs
  | None => []
  end.

End Examples.

(* ================================================================== *)
(** * app.py: the probes of an environment directory *)
(* ================================================================== *)

Module Probes.

(** What the operating system answers about one environment directory.
    - [child_exists sub], [child_is_dir sub]: [(env_dir / sub).exists()]
      and [.is_dir()].
    - [children sub]: the names [(env_dir / sub).iterdir()] yields, each
      with the answer of [is_file()]; [None] when the listing raises
      (the directory cannot be read).
    - [iterdir]: the same for [env_dir.iterdir()]; it raises also for a
      directory that does not exist.
    - [glob pattern]: the names [env_dir.glob(pattern)] yields, each
      with the answer of [is_file()].
    - [text_of rel]: [_read_text] of the file at [rel] below the
      directory, the empty text when reading raises. *)
Record Listing : Type := {
  child_exists : string -> bool;
  child_is_dir : string -> bool;
  children : string -> option (list (string * bool));
  iterdir : option (list (string * bool));
  glob : string -> list (string * bool);
  text_of : list string -> string
}.

Definition exploit_dirs : list string := ["exploit"; "exploits"; "poc"; "pocs"].

Definition exploit_patterns : list string :=
  ["*exploit*.py"; "*exploit*.sh"; "poc.py"; "poc.sh"; "exp.py"; "PoC.py"].

(** [_has_exploit]. *)
Definition _has_exploit (l : Listing) : bool :=
  existsb (child_exists l) exploit_dirs
  || existsb (fun pat => match glob l pat with [] => false | _ => true end)
       exploit_patterns.

(** [PurePath.suffix]: the name from its last dot on, when that dot is
    neither the first nor the last character. *)
Fixpoint rfind_dot (s : string) (i : nat) (found : option nat) : option nat :=
  match s with
  | EmptyString => found
  | String c r =>
      rfind_dot r (S i) (if Ascii.eqb c "." then Some i else found)
  end.

Definition suffix (name : string) : string :=
  match rfind_dot name 0 None with
  | Some i =>
      if (0 <? i)%nat && (i <? String.length name - 1)%nat
      then Operations.drop i name
      else EmptyString
  | None => EmptyString
  end.

Definition image_exts : list string :=
  [".png"; ".jpg"; ".jpeg"; ".gif"; ".webp"; ".bmp"; ".svg"].

Definition is_image (p : string * bool) : bool :=
  snd p && Operations.mem_string (Py.lower (suffix (fst p))) image_exts.

(** [_image_files]: the names of the files of the directory that carry
    an image suffix; it raises when the directory cannot be listed. *)
Definition _image_files (l : Listing) : Py.result (list string) :=
  match iterdir l with
  | None => Py.Raises
  | Some entries => Py.Returns (map fst (filter is_image entries))
  end.

Definition script_exts : list string :=
  [".py"; ".sh"; ".rb"; ".go"; ".c"; ".cpp"].

Definition is_script (p : string * bool) : bool :=
  snd p && Operations.mem_string (suffix (fst p)) script_exts.

(** The first loop of [_get_exploit_files]: the scripts in the exploit
    directories, as paths relative to the environment directory; it
    raises when one of them cannot be listed. *)
Fixpoint scripts_in (l : Listing) (subs : list string)
  : Py.result (list (list string)) :=
  match subs with
  | [] => Py.Returns []
  | sub :: r =>
      if child_exists l sub && child_is_dir l sub
      then
        match children l sub with
        | None => Py.Raises
        | Some entries =>
            match scripts_in l r with
            | Py.Raises => Py.Raises
            | Py.Returns more =>
                Py.Returns
                  (map (fun p => [sub; fst p]) (filter is_script entries)
                   ++ more)
            end
        end
      else scripts_in l r
  end.

(** The second loop: the files the patterns match. *)
Definition matches_of (l : Listing) (pattern : string) : list (list string) :=
  map (fun p => [fst p]) (filter snd (glob l pattern)).

(** [_get_exploit_files]. *)
Definition _get_exploit_files (l : Listing) : Py.result (list (list string)) :=
  match scripts_in l exploit_dirs with
  | Py.Raises => Py.Raises
  | Py.Returns found =>
      Py.Returns (found ++ flat_map (matches_of l) exploit_patterns)
  end.

(** One entry of the answer of [api_exploit]. *)
Record exploit : Type := {
  filename : string;
  path : string;
  content : string;
  size : nat;
  lines : nat;
  usage : string
}.

(** The first of the lines that names a usage or an example. *)
Definition is_usage (line : string) : bool :=
  Py.contains "usage:" (Py.lower line)
  || Py.contains "example:" (Py.lower line).

Fixpoint find_usage (lines : list string) : string :=
  match lines with
  | [] => EmptyString
  | line :: r => if is_usage line then line else find_usage r
  end.

Definition content_limit : nat := N.to_nat 10000.

(** The body of the loop of [api_exploit]; a file without text adds
    nothing. *)
Definition exploit_entry (l : Listing) (rel : list string) : option exploit :=
  let text := text_of l rel in
  if (text =? "") then None
  else
    let all_lines := Py.splitlines text in
    Some {| filename := last rel EmptyString;
            path := Py.join "/" rel;
            content := substring 0 content_limit text;
            size := String.length text;
            lines := length all_lines;
            usage := find_usage (firstn 20 all_lines) |}.

Fixpoint exploit_entries (l : Listing) (files : list (list string))
  : list exploit :=
  match files with
  | [] => []
  | rel :: r =>
      match exploit_entry l rel with
      | Some e => e :: exploit_entries l r
      | None => exploit_entries l r
      end
  end.

(** [api_exploit]: the JSON list and the status code, or the exception
    of a directory that cannot be listed.  [listing] gives the listing
    of a resolved directory. *)
Definition api_exploit (h : Operations.Host)
  (listing : Pathlib.path -> Listing) (name : string)
  : Py.result (list exploit * Z) :=
  match App._get_env_dir_by_name h name with
  | Py.Raises => Py.Returns ([], 404%Z)
  | Py.Returns env_dir =>
      match _get_exploit_files (listing env_dir) with
      | Py.Raises => Py.Raises
      | Py.Returns files =>
          Py.Returns (exploit_entries (listing env_dir) files, 200%Z)
      end
  end.

End Probes.

(* ================================================================== *)
(** * app.py: the remaining handlers *)
(* ================================================================== *)

Module Api.

Import Pathlib.
Import Disk.
Import App.

(** ** [api_scan] *)

(** [request.args.get('cache', 'true').lower() == 'true']. *)
Definition use_cache_of (cache_arg : option string) : bool :=
  (Py.lower (get_or cache_arg "true") =? "true").

(** The readings of [_now_ms()] during one request: in
    [_load_persistent_cache], when the memory cache is set, and in
    [_save_persistent_cache]. *)
Record instants : Type := {
  at_load : Z;
  at_cache : Z;
  at_save : Z
}.

(** The dictionary built from a dictionary of the scan. *)
Definition of_dict (e : environment) : environment :=
  {| name := name e;
     category := category e;
     cve := cve e;
     status := status e;
     ports := ports e;
     services := services e;
     has_exploit := has_exploit e;
     has_images := has_images e;
     has_readme := has_readme e;
     has_readme_zh := has_readme_zh e;
     has_docker_images := has_docker_images e |}.

(** The identifier of an object of the manager: its name, or its path
    when the name is empty; a text that starts with the root is
    resolved and made relative, which raises outside the root. *)
Definition rel_of_object (h : Operations.Host) (e : Manager.VulhubEnvironment)
  : Py.result string :=
  let name_ := Operations.str_or (Manager.name e) (Manager.path e) in
  if negb (name_ =? "")
     && Py.startswith (to_text (Operations.VULHUB_PATH h)) name_
  then
    match resolve (Operations.fs h) (parse name_) with
    | None => Py.Raises
    | Some p =>
        if is_prefix (Operations.VULHUB_PATH h) p
        then Py.Returns
               (as_posix (skipn (length (Operations.VULHUB_PATH h)) p))
        else Py.Raises
    end
  else Py.Returns name_.

(** The dictionary built from an object of the manager. *)
Definition of_object (h : Operations.Host) (e : Manager.VulhubEnvironment)
  : Py.result environment :=
  match rel_of_object h e with
  | Py.Raises => Py.Raises
  | Py.Returns rel =>
      let parts := Py.split "/" rel in
      let category_ :=
        if (Manager.category e =? "") then hd EmptyString parts
        else Manager.category e in
      let cve_ :=
        if (Manager.cve e =? "") then last parts EmptyString
        else Manager.cve e in
      Py.Returns
        {| name := rel;
           category := Operations.str_or category_ "unknown";
           cve := Operations.str_or cve_ "unknown";
           status := Operations.str_or (Manager.status e) "unknown";
           ports := Manager.ports e;
           services := Manager.services e;
           has_exploit := Manager.has_exploit e;
           has_images :=
             match Manager.images e with [] => false | _ => true end;
           has_readme := Manager.has_readme e;
           has_readme_zh := Manager.has_readme_zh e;
           has_docker_images := false |}
  end.

Fixpoint of_objects (h : Operations.Host)
  (envs : list Manager.VulhubEnvironment) : Py.result (list environment) :=
  match envs with
  | [] => Py.Returns []
  | e :: r =>
      match of_object h e with
      | Py.Raises => Py.Raises
      | Py.Returns x =>
          match of_objects h r with
          | Py.Raises => Py.Raises
          | Py.Returns out => Py.Returns (x :: out)
          end
      end
  end.

(** The list [out] of a full scan: from the objects of the manager when
    it holds some, from the scan of the tree otherwise.
    [manager_environments] is [None] without a manager. *)
Definition full_scan (h : Operations.Host) (t : Tree)
  (manager_environments : option (list Manager.VulhubEnvironment))
  : Py.result (list environment) :=
  match manager_environments with
  | Some (e :: r) => of_objects h (e :: r)
  | _ =>
      match _scan_environments_fs t with
      | None => Py.Raises
      | Some envs => Py.Returns (map of_dict envs)
      end
  end.

(** The memory cache and the cache file, which a request reads and
    leaves behind. *)
Record store : Type := {
  memory : env_cache;
  disk : file envelope
}.

(** [api_scan]: the JSON list, or an exception, and the store
    afterwards. *)
Definition api_scan (h : Operations.Host) (t : Tree)
  (manager_environments : option (list Manager.VulhubEnvironment))
  (ck : instants) (ft : fault) (cache_arg : option string) (s : store)
  : Py.result (list environment) * store :=
  let use_cache := use_cache_of cache_arg in
  if use_cache && data_truthy (data (memory s))
  then (Py.Returns (get_or (data (memory s)) []), s)
  else
    match
      (if use_cache then _load_persistent_cache t (at_load ck) (disk s)
       else None)
    with
    | Some (x :: r) =>
        (Py.Returns (x :: r),
         {| memory := {| data := Some (x :: r); ts := at_cache ck |};
            disk := disk s |})
    | _ =>
        match full_scan h t manager_environments with
        | Py.Raises => (Py.Raises, s)
        | Py.Returns out =>
            (Py.Returns out,
             {| memory := {| data := Some out; ts := at_cache ck |};
                disk := _save_persistent_cache h t (at_save ck) out
                          (disk s) ft |})
        end
    end.

(** ** [api_stats] *)

Record stats : Type := {
  total : nat;
  running : nat;
  with_exploit : nat;
  with_images : nat;
  categories : list (string * nat)
}.

(** [cats[x["category"]] = cats.get(x["category"], 0) + 1] over the
    snapshot. *)
Fixpoint tally (l : list environment) (cats : list (string * nat))
  : list (string * nat) :=
  match l with
  | [] => cats
  | x :: r =>
      tally r
        (Yaml.dict_set (category x)
           (get_or (Yaml.lookup (category x) cats) 0 + 1) cats)
  end.

Definition count (f : environment -> bool) (l : list environment) : nat :=
  length (filter f l).

Definition api_stats (c : env_cache) : stats :=
  let l := match data c with
           | Some (x :: r) => x :: r
           | _ => []
           end in
  {| total := length l;
     running := count (fun x => (status x =? "running")) l;
     with_exploit := count has_exploit l;
     with_images := count has_docker_images l;
     categories := tally l [] |}.

(** ** [api_check_images], [api_pull_stream], [api_wait_ready] *)

(** [request.args.get('name', '')]. *)
Definition name_of (name_arg : option string) : string :=
  get_or name_arg EmptyString.

Definition api_check_images (h : Operations.Host) (name_arg : option string)
  : Operations.traced (bool * Operations.images_info) :=
  Operations.check_images h (name_of name_arg).

(** The events of the stream: one [log] event per line of the pull and
    a final [done] event.  When the generator of the driver raises, the
    stream breaks off. *)
Definition log_event (line : string) : string :=
  ("event: log" ++ String "010" "data: " ++ line
   ++ String "010" (String "010" ""))%string.

Definition done_event : string :=
  ("event: done" ++ String "010" "data: ok"
   ++ String "010" (String "010" ""))%string.

Definition api_pull_stream (h : Operations.Host) (name_arg : option string)
  : Operations.traced (list string) :=
  match Operations.pull_images_stream h (name_of name_arg) with
  | (Py.Raises, tr) => (Py.Raises, tr)
  | (Py.Returns lines_, tr) =>
      (Py.Returns (map log_event lines_ ++ [done_event]), tr)
  end.

(** [int(request.args.get('timeout', '20'))] raises on a text that is
    no numeral. *)
Definition api_wait_ready (h : Operations.Host)
  (name_arg timeout_arg : option string)
  : Operations.traced (bool * Operations.ready_info) :=
  match Py.int (get_or timeout_arg "20") with
  | None => (Py.Raises, [])
  | Some timeout => Operations.wait_ready h (name_of name_arg) timeout
  end.

End Api.

(* ================================================================== *)
(** * vulhub_manager.py: the status of one environment *)
(* ================================================================== *)

Module Status.

Import Manager.

(** [get_environment]: the first environment of that name. *)
Definition get_environment (envs : list VulhubEnvironment) (name_ : string)
  : option VulhubEnvironment :=
  find (fun env => (name env =? name_)) envs.

(** [_check_status]; [ps_q env_path] is the standard output of
    [compose ps -q] run in [env_path], [None] when the call raises. *)
Definition _check_status (ps_q : string -> option string) (env_path : string)
  : string :=
  match ps_q env_path with
  | Some stdout => if (Py.strip stdout =? "") then "stopped" else "running"
  | None => "unknown"
  end.

(** The assignment [env.status = status] on the object
    [get_environment] returned, seen in the list that holds it. *)
Fixpoint set_first (name_ st : string) (envs : list VulhubEnvironment)
  : list VulhubEnvironment :=
  match envs with
  | [] => []
  | env :: r =>
      if (name env =? name_) then with_status env st :: r
      else env :: set_first name_ st r
  end.

(** [check_single_status]: the status it returns and
    [self.environments] afterwards. *)
Definition check_single_status (ps_q : string -> option string)
  (envs : list VulhubEnvironment) (env_name : string)
  : string * list VulhubEnvironment :=
  match get_environment envs env_name with
  | Some env =>
      let st := _check_status ps_q (path env) in
      (st, set_first env_name st envs)
  | None => ("unknown", envs)
  end.

End Status.

(* ================================================================== *)
(** * The detection of the compose command *)
(* ================================================================== *)

Module Detect.

(** How a [version] command ends: it cannot be launched, it exits with
    a code after some milliseconds, or it never ends. *)
Inductive outcome : Type :=
| NotLaunched
| Exits (code : Z) (ms : Z)
| Hangs.

Definition plugin : list string := ["docker"; "compose"].
Definition standalone : list string := ["docker-compose"].

(** [VulhubOperations._run(args)[0]], which waits for the command
    however long it takes: [None] when it never ends. *)
Definition run_ok (run : list string -> outcome) (args : list string)
  : option bool :=
  match run args with
  | Exits code _ => Some (code =? 0)%Z
  | NotLaunched => Some false
  | Hangs => None
  end.

(** [VulhubOperations._detect_compose_cmd]; [None] when it does not
    return. *)
Definition _detect_compose_cmd (run : list string -> outcome)
  : option (list string) :=
  match run_ok run (plugin ++ ["version"]) with
  | None => None
  | Some true => Some plugin
  | Some false =>
      match run_ok run (standalone ++ ["version"]) with
      | None => None
      | Some true => Some standalone
      | Some false => Some plugin
      end
  end.

(** [subprocess.run(args, timeout=5)] in the manager: [None] is an
    exception, which a command that cannot be launched and a command
    still running after five seconds raise. *)
Definition run_timeout (run : list string -> outcome) (args : list string)
  : option Z :=
  match run args with
  | Exits code ms => if (5000 <? ms)%Z then None else Some code
  | NotLaunched => None
  | Hangs => None
  end.

(** [VulhubManager._detect_docker_compose]. *)
Fixpoint first_working (run : list string -> outcome)
  (commands : list (list string)) : option (list string) :=
  match commands with
  | [] => None
  | cmd :: r =>
      match run_timeout run (cmd ++ ["version"]) with
      | Some returncode =>
          if (returncode =? 0)%Z then Some cmd else first_working run r
      | None => first_working run r
      end
  end.

Definition _detect_docker_compose (run : list string -> outcome)
  : list string :=
  match first_working run [plugin; standalone] with
  | Some cmd => cmd
  | None => plugin
  end.

End Detect.

(* ================================================================== *)
(** * More machines and directories *)
(* ================================================================== *)

Module Samples.

Import Pathlib.
Import Yaml.

(** A manifest that names one image three times, once in a comment
    position and once with other indentation. *)
Definition repeated_text : string :=
  "services:
  web:
    image: nginx:1.25 # the web server
  proxy:
      image : nginx:1.25
  db:
    image: redis:7#cache
".

(** A machine like [Examples.host] whose first subprocess ends as
    [first] says and whose later subprocesses end as [later] says, and
    on which every manifest reads as [repeated_text]; a pull writes two
    lines. *)
Definition machine (first later : bool * string * string)
  (web : Operations.answer) : Operations.Host :=
  {| Operations.VULHUB_PATH := Examples.root0;
     Operations.fs := plain_fs Examples.nodes0;
     Operations.compose_cmd := ["docker"; "compose"];
     Operations.urlopen_loaded := true;
     Operations.run_result :=
       fun n _ _ => match n with O => first | S _ => later end;
     Operations.json_lines :=
       fun out => Some [YMap [("Ports", YStr out)]];
     Operations.read_text := fun _ => Some repeated_text;
     Operations.popen :=
       fun _ _ => Some ["Pulling web
"; "done"];
     Operations.http_get := fun _ _ _ => web;
     Operations.work_ms := fun _ => 0%N |}.

(** A manifest with three services: one binds a port on an address,
    one declares no port, one uses the long form after a declaration
    that gives no host port. *)
Definition three_list : list (string * yaml) :=
  [("web", YMap [("image", YStr "nginx:1.25");
                 ("ports", YSeq [YStr "127.0.0.1:8080:80"; YStr "8443:443"])]);
   ("db", YMap [("image", YStr "mysql:8")]);
   ("cache", YMap [("ports",
                    YSeq [YMap [("target", YInt 6379)];
                          YMap [("target", YInt 6379);
                                ("published", YInt 6379)]])])].

Definition three_bodies : yaml := YMap three_list.

Definition three_services : yaml :=
  YMap [("version", YStr "3"); ("services", three_bodies)].

(** The listing command names two images, none of which is there. *)
Definition lacking : Operations.Host :=
  machine (true, "nginx:1.25

  redis:7
", "") (false, "", "Error: No such image") Operations.NoAnswer.

(** The compose CLI is broken, so the images are read from the
    manifest. *)
Definition broken_cli : Operations.Host :=
  machine (false, "", "compose: unknown command")
    (false, "", "Error: No such image") Operations.NoAnswer.

(** A directory with an [exploit] directory that holds a script, a
    text file and a directory, and with a [poc.py] without text. *)
Definition run_text : string :=
  "#!/usr/bin/env python
# Usage: run.py HOST
print(1)
".

Definition listing : Probes.Listing :=
  {| Probes.child_exists := fun sub => (sub =? "exploit");
     Probes.child_is_dir := fun sub => (sub =? "exploit");
     Probes.children :=
       fun sub =>
         if (sub =? "exploit")
         then Some [("run.py", true); ("notes.txt", true); ("lib.py", false)]
         else None;
     Probes.iterdir :=
       Some [("exploit", false); ("poc.py", true); ("1.PNG", true)];
     Probes.glob := fun pat => if (pat =? "poc.py") then [("poc.py", true)] else [];
     Probes.text_of :=
       fun rel => if Pathlib.path_eqb rel ["exploit"; "run.py"]
                  then run_text else EmptyString |}.

(** The manager's view of a tree in which every directory holds five
    pictures of every kind and three Python files. *)
Definition gallery : Manager.World :=
  {| Manager.root := Examples.root0;
     Manager.rglob := Some [["a"]];
     Manager.read_compose :=
       fun _ => Manager.ReadOk Examples.bound_text Examples.bound_manifest;
     Manager.file_exists := fun _ _ => true;
     Manager.glob :=
       fun _ pattern =>
         if (pattern =? "*.py") then ["setup.py"; "PoC.py"; "exp_rce.py"]
         else ["5"; "4"; "3"; "2"; "1"];
     Manager.now_iso := fun _ => "2024-01-01T00:00:00";
     Manager.cache_age_ms := 0%Z;
     Manager.docker_ps_labels :=
       Some "com.docker.compose.project=a,com.docker.compose.project.working_dir=/srv/vulhub/a,x=y
maintainer=nobody
" |}.

Definition parsed (d : list string) : Manager.VulhubEnvironment :=
  match Manager._parse_environment gallery 1 d with
  | Py.Returns (Some e) => e
  | _ =>
      {| Manager.name := ""; Manager.path := ""; Manager.category := "";
         Manager.cve := ""; Manager.services := []; Manager.ports := [];
         Manager.status := ""; Manager.has_readme := false;
         Manager.has_readme_zh := false; Manager.has_images := false;
         Manager.images := []; Manager.has_exploit := false;
         Manager.exploit_files := []; Manager.compose_hash := "";
         Manager.last_checked := "" |}
  end.

Definition parsed_a : Manager.VulhubEnvironment := parsed ["a"].

(** A machine on which only the standalone [docker-compose] works. *)
Definition old_docker (args : list string) : Detect.outcome :=
  match args with
  | [_; _] => Detect.Exits 0 120
  | _ => Detect.Exits 125 300
  end.

(** A cache document written long ago for another tree. *)
Definition stale : App.envelope :=
  {| App.environments := Some (Examples.records ["old"]);
     App.timestamp := Some 0%Z;
     App.vulhub_hash := Some "0";
     App.vulhub_path := Some "/srv/vulhub" |}.


Definition at_ms (now : Z) : Api.instants :=
  {| Api.at_load := now; Api.at_cache := now; Api.at_save := now |}.

End Samples.

(* ================================================================== *)
(** * Notions used by the properties *)
(* ================================================================== *)

(** [p] is [root] or lies below it. *)
Definition within (root p : Pathlib.path) : Prop :=
  exists rest, p = root ++ rest.

(** The order of [sort_by]: keys ascending. *)
Definition key_le {A : Type} (key : A -> string) (x y : A) : Prop :=
  String.leb (key x) (key y) = true.

(** A path component: it is not empty, it is not [.] and it holds no
    slash. *)
Definition component (seg : string) : Prop :=
  seg <> "" /\ seg <> "." /\ Yaml.has_char "/" seg = false.



(** The two phrases [start] looks for, read without case. *)
Definition bind_phrase (text : string) : bool :=
  Py.contains "address already in use" (Py.lower text)
  || Py.contains "port is already allocated" (Py.lower text).


(** The sum of the lengths of some texts. *)
Definition total_length (l : list string) : nat :=
  fold_right (fun s n => String.length s + n) 0 l.

(** A subprocess that runs in [d] with a command of the compose CLI, or
    without a working directory. *)
Definition compose_in (h : Operations.Host) (d : Pathlib.path)
  (inv : Operations.invocation) : Prop :=
  snd inv = Some d /\ exists args, fst inv = Operations._cmd h args.

Definition is_inspect (inv : Operations.invocation) : Prop :=
  snd inv = None /\ exists img, fst inv = ["docker"; "image"; "inspect"; img].

(** The characters of an image reference as the pattern of
    [_fallback_parse_images] captures them: no blank and no [#]. *)
Definition image_char (c : ascii) : bool :=
  negb (Py.is_space c || Ascii.eqb c "#").

Definition image_token (s : string) : bool :=
  negb (s =? "") && forallb image_char (list_ascii_of_string s).

(** A line as the iteration over a text stream yields it: a body without
    line feed, with or without a line feed after it. *)
Definition stream_line (s : string) : Prop :=
  exists body,
    Yaml.has_char "010" body = false
    /\ (s = body \/ s = (body ++ String "010" "")%string).

(** The port [_compose_parse_services_ports] keeps for a service: the
    first host port its declarations give. *)
Definition first_port (svc_cfg : Yaml.yaml) : option string :=
  match App.service_host_ports svc_cfg with
  | Some (hp :: _) => Some hp
  | _ => None
  end.

(** The number of records of a category. *)
Definition in_category (k : string) (l : list App.environment) : nat :=
  Api.count (fun x => (App.category x =? k)) l.

(** The three values a status takes. *)
Definition is_status (st : string) : Prop :=
  st = "running" \/ st = "stopped" \/ st = "unknown".

(** Two lists of environments that differ in the statuses only. *)
Definition same_but_status (l l' : list Manager.VulhubEnvironment) : Prop :=
  map (fun e => Manager.with_status e "") l
  = map (fun e => Manager.with_status e "") l'.

(** A non-empty text of digits. *)
Definition numeral (s : string) : bool :=
  negb (s =? "") && forallb Py.is_digit (list_ascii_of_string s).

(** An address as [docker compose ps] prints it before a published
    port: no comma, and no colon with a digit after it. *)
Fixpoint address (s : string) : bool :=
  match s with
  | EmptyString => true
  | String c r =>
      negb (Ascii.eqb c ",")
      && match r with
         | String c' _ => negb (Ascii.eqb c ":" && Py.is_digit c')
         | EmptyString => true
         end
      && address r
  end.

(* ================================================================== *)
(** * Facts about the built-ins *)
(* ================================================================== *)

Section StringOrder.

Lemma ascii_compare_trans (a b c : ascii) :
  Ascii.compare a b = Lt -> Ascii.compare b c = Lt -> Ascii.compare a c = Lt.
Proof.
  unfold Ascii.compare. rewrite !N.compare_lt_iff. lia.
Qed.

Lemma string_compare_trans :
  forall a b c : string,
    String.compare a b = Lt -> String.compare b c = Lt ->
    String.compare a c = Lt.
Proof.
  induction a as [|x a IH]; intros [|y b] [|z c]; simpl; try congruence.
  destruct (Ascii.compare x y) eqn:Exy; try discriminate;
    destruct (Ascii.compare y z) eqn:Eyz; try discriminate; intros Hab Hbc.
  - apply Ascii.compare_eq_iff in Exy, Eyz. subst.
    assert (Ascii.compare z z = Eq) as -> by (unfold Ascii.compare; apply N.compare_refl).
    eauto.
  - apply Ascii.compare_eq_iff in Exy. subst. now rewrite Eyz.
  - apply Ascii.compare_eq_iff in Eyz. subst. now rewrite Exy.
  - now rewrite (ascii_compare_trans _ _ _ Exy Eyz).
Qed.

Lemma string_compare_refl (a : string) : String.compare a a = Eq.
Proof.
  induction a as [|x a IH]; simpl; auto.
  assert (Ascii.compare x x = Eq) as -> by (unfold Ascii.compare; apply N.compare_refl).
  exact IH.
Qed.

Lemma leb_refl (a : string) : String.leb a a = true.
Proof. unfold String.leb. now rewrite string_compare_refl. Qed.

Lemma leb_trans (a b c : string) :
  String.leb a b = true -> String.leb b c = true -> String.leb a c = true.
Proof.
  unfold String.leb.
  destruct (String.compare a b) eqn:Eab; try discriminate;
    destruct (String.compare b c) eqn:Ebc; try discriminate; intros _ _.
  - apply String.compare_eq_iff in Eab, Ebc. subst. now rewrite string_compare_refl.
  - apply String.compare_eq_iff in Eab. subst. now rewrite Ebc.
  - apply String.compare_eq_iff in Ebc. subst. now rewrite Eab.
  - now rewrite (string_compare_trans _ _ _ Eab Ebc).
Qed.

End StringOrder.

Section Sorting.

Context {A : Type} (key : A -> string).

Lemma insert_by_perm (x : A) (l : list A) :
  Permutation (App.insert_by key x l) (x :: l).
Proof.
  induction l as [|y l IH]; simpl; auto.
  destruct (String.leb (key x) (key y)); auto.
  rewrite IH. apply perm_swap.
Qed.

Lemma sort_by_perm (l : list A) : Permutation (App.sort_by key l) l.
Proof.
  induction l as [|x l IH]; simpl; auto.
  rewrite insert_by_perm. now constructor.
Qed.

Lemma insert_by_sorted (x : A) (l : list A) :
  Sorted (key_le key) l -> Sorted (key_le key) (App.insert_by key x l).
Proof.
  induction 1 as [|y l Hs IH Hd]; simpl.
  - repeat constructor.
  - destruct (String.leb (key x) (key y)) eqn:E.
    + constructor; [now constructor | now constructor].
    + constructor; auto.
      assert (Hyx : key_le key y x).
      { destruct (String.leb_total (key x) (key y)); [congruence | assumption]. }
      destruct Hd as [|z l' Hz]; simpl.
      * now constructor.
      * destruct (String.leb (key x) (key z)); now constructor.
Qed.

Lemma sort_by_sorted (l : list A) : Sorted (key_le key) (App.sort_by key l).
Proof.
  induction l as [|x l IH]; simpl; [constructor | now apply insert_by_sorted].
Qed.

Lemma key_le_trans : Relations_1.Transitive (key_le key).
Proof. intros x y z. unfold key_le. apply leb_trans. Qed.

(** Two ascending lists with the same elements and no repeated key are
    the same list. *)
Lemma sorted_unique (l1 : list A) :
  forall l2,
    Sorted (key_le key) l1 -> Sorted (key_le key) l2 ->
    NoDup (map key l1) -> Permutation l1 l2 -> l1 = l2.
Proof.
  induction l1 as [|a l1 IH]; intros l2 S1 S2 N P.
  - now apply Permutation_nil in P.
  - destruct l2 as [|b l2].
    { apply Permutation_sym, Permutation_nil in P. discriminate. }
    assert (a = b) as <-.
    { assert (Ia : In a (b :: l2)) by (eapply Permutation_in; [exact P | now left]).
      assert (Ib : In b (a :: l1))
        by (eapply Permutation_in; [apply Permutation_sym; exact P | now left]).
      destruct Ia as [-> | Ia]; auto.
      destruct Ib as [-> | Ib]; auto.
      exfalso.
      apply Sorted_StronglySorted in S1, S2; try apply key_le_trans.
      inversion S1 as [|? ? _ F1]; inversion S2 as [|? ? _ F2]; subst.
      rewrite Forall_forall in F1, F2.
      pose proof (String.leb_antisym _ _ (F1 _ Ib) (F2 _ Ia)) as E.
      inversion N as [|? ? Hn _]; subst. apply Hn. rewrite E.
      now apply in_map. }
    f_equal. apply IH.
    + now inversion S1.
    + now inversion S2.
    + now inversion N.
    + eapply Permutation_cons_inv; exact P.
Qed.

(** The outcome of [sort_by] does not depend on the order of its input
    when no key is repeated. *)
Lemma sort_by_order_independent (l l' : list A) :
  NoDup (map key l) -> Permutation l l' ->
  App.sort_by key l = App.sort_by key l'.
Proof.
  intros N P. apply sorted_unique.
  - apply sort_by_sorted.
  - apply sort_by_sorted.
  - eapply Permutation_NoDup; [|exact N].
    apply Permutation_map, Permutation_sym, sort_by_perm.
  - rewrite sort_by_perm, P. apply Permutation_sym, sort_by_perm.
Qed.

End Sorting.

Section SplitJoin.

Lemma append_nil_r (s : string) : (s ++ "")%string = s.
Proof. induction s; simpl; congruence. Qed.

Lemma append_assoc (a b c : string) :
  ((a ++ b) ++ c)%string = (a ++ (b ++ c))%string.
Proof. induction a; simpl; congruence. Qed.

Lemma prefix_char (a c : ascii) (r : string) :
  prefix (String a "") (String c r) = Ascii.eqb a c.
Proof.
  cbn [prefix]. destruct (ascii_dec a c) as [->|N].
  - rewrite Ascii.eqb_refl. now destruct r.
  - symmetry. now apply Ascii.eqb_neq.
Qed.

Lemma split_go_slash (c : ascii) (r cur : string) :
  Py.split_go "/" (String c r) cur 0
  = if Ascii.eqb "/" c then cur :: Py.split_go "/" r "" 0
    else Py.split_go "/" r (cur ++ String c "") 0.
Proof. cbn [Py.split_go]. now rewrite prefix_char. Qed.

Lemma split_go_piece (seg : string) :
  forall rest cur,
    Yaml.has_char "/" seg = false ->
    Py.split_go "/" (seg ++ rest) cur 0 = Py.split_go "/" rest (cur ++ seg) 0.
Proof.
  induction seg as [|c seg IH]; intros rest cur H.
  - now rewrite append_nil_r.
  - cbn [Yaml.has_char] in H. apply orb_false_iff in H as [Hc Hs].
    cbn [append]. rewrite split_go_slash, Ascii.eqb_sym, Hc.
    rewrite IH by assumption. now rewrite append_assoc.
Qed.

Lemma split_go_join (l : list string) :
  forall cur,
    l <> [] -> Forall (fun seg => Yaml.has_char "/" seg = false) l ->
    Py.split_go "/" (Py.join "/" l) cur 0
    = (cur ++ hd "" l)%string :: tl l.
Proof.
  induction l as [|x l IH]; intros cur Hne F; [congruence|].
  inversion F as [|? ? Hx Fl]; subst.
  destruct l as [|y l].
  - cbn [Py.join String.concat hd tl].
    rewrite <- (append_nil_r x) at 1. rewrite split_go_piece by assumption.
    reflexivity.
  - change (Py.join "/" (x :: y :: l))
      with (x ++ String "/" (Py.join "/" (y :: l)))%string.
    rewrite split_go_piece by assumption.
    rewrite split_go_slash. cbn [Ascii.eqb Bool.eqb].
    rewrite IH by (congruence || assumption). reflexivity.
Qed.

(** [text.split('/')] gives back the components that were joined. *)
Lemma split_join (l : list string) :
  l <> [] -> Forall (fun seg => Yaml.has_char "/" seg = false) l ->
  Py.split "/" (Py.join "/" l) = l.
Proof.
  intros Hne F. unfold Py.split. rewrite split_go_join by assumption.
  destruct l; [congruence | reflexivity].
Qed.

Lemma component_no_slash (l : list string) :
  Forall component l -> Forall (fun seg => Yaml.has_char "/" seg = false) l.
Proof. apply Forall_impl. intros seg (_ & _ & H). exact H. Qed.

Lemma split_as_posix (d : list string) :
  Forall component d ->
  Py.split "/" (App.as_posix d) = match d with [] => ["."] | _ => d end.
Proof.
  intros F. destruct d as [|x d]; [reflexivity|].
  apply split_join; [congruence | now apply component_no_slash].
Qed.

(** Different directories have different identifiers. *)
Lemma as_posix_inj (d d' : list string) :
  Forall component d -> Forall component d' ->
  App.as_posix d = App.as_posix d' -> d = d'.
Proof.
  intros F F' E.
  pose proof (split_as_posix d F) as S. rewrite E, (split_as_posix d' F') in S.
  destruct d as [|x d], d' as [|y d']; auto.
  - inversion S; subst. inversion F' as [|? ? (_ & Hdot & _) _]. congruence.
  - inversion S; subst. inversion F as [|? ? (_ & Hdot & _) _]. congruence.
Qed.

End SplitJoin.

Section AppScan.

Lemma scan_entry_name (t : App.Tree) (d : list string) :
  App.name (App.scan_entry t d) = App.as_posix d.
Proof.
  unfold App.scan_entry.
  destruct (App._compose_parse_services_ports t d). reflexivity.
Qed.

Lemma scan_entry_with_rglob (t : App.Tree) r (d : list string) :
  App.scan_entry (App.with_rglob t r) d = App.scan_entry t d.
Proof. reflexivity. Qed.

Lemma map_scan_entry_names (t : App.Tree) (dirs : list (list string)) :
  map App.name (map (App.scan_entry t) dirs) = map App.as_posix dirs.
Proof.
  rewrite map_map. apply map_ext. intros d. apply scan_entry_name.
Qed.

Lemma NoDup_as_posix (dirs : list (list string)) :
  NoDup dirs -> Forall (Forall component) dirs ->
  NoDup (map App.as_posix dirs).
Proof.
  induction 1 as [|d dirs Hn N IH]; intros F; simpl; constructor;
    inversion F as [|? ? Fd Fr]; subst.
  - rewrite in_map_iff. intros (d' & E & I). apply Hn.
    rewrite Forall_forall in Fr.
    rewrite (as_posix_inj d d'); auto.
  - auto.
Qed.

End AppScan.

(* ================================================================== *)
(** * C1: resolution of identifiers *)
(* ================================================================== *)

Section Resolution.

Import Pathlib.
Import Operations.

Lemma is_prefix_within (a b : path) : is_prefix a b = true <-> within a b.
Proof.
  revert b. induction a as [|x a IH]; intros b; simpl.
  - split; [intros _; now exists b | reflexivity].
  - destruct b as [|y b].
    + split; [discriminate | intros [r H]; discriminate].
    + rewrite andb_true_iff, String.eqb_eq, IH. split.
      * intros [-> [r ->]]. now exists r.
      * intros [r H]. inversion H; subst. split; [reflexivity | now exists r].
Qed.

Lemma is_prefix_refl (a : path) : is_prefix a a = true.
Proof. apply is_prefix_within. exists []. now rewrite app_nil_r. Qed.

Lemma is_prefix_same_length (a b : path) :
  is_prefix a b = true -> length a = length b -> a = b.
Proof.
  intros H L. apply is_prefix_within in H as [r ->].
  rewrite length_app in L. destruct r; [now rewrite app_nil_r | simpl in L; lia].
Qed.

(** The containment test of both resolvers is the prefix test. *)
Lemma escape_test (root p : path) :
  negb (in_parents root p) && negb (path_eqb p root)
  = negb (is_prefix root p).
Proof.
  unfold in_parents, path_eqb.
  destruct (is_prefix root p) eqn:E; simpl.
  - destruct (Nat.eqb_spec (length root) (length p)) as [L|L]; simpl.
    + rewrite (is_prefix_same_length _ _ E L), is_prefix_refl, Nat.eqb_refl.
      reflexivity.
    + reflexivity.
  - destruct (is_prefix p root) eqn:E'; simpl; [|reflexivity].
    destruct (Nat.eqb_spec (length p) (length root)) as [L|L]; simpl; [|reflexivity].
    rewrite (is_prefix_same_length _ _ E' L), is_prefix_refl in E. discriminate.
Qed.

Lemma _env_dir_spec (h : Host) (name : string) :
  _env_dir h name =
  if (name =? "") then Py.Returns None
  else
    match resolve (fs h) (joinpath (VULHUB_PATH h) name) with
    | None => Py.Raises
    | Some p =>
        if negb (is_prefix (VULHUB_PATH h) p) then Py.Returns None
        else if negb (exists_ (fs h) p)
                || negb (exists_ (fs h) (p ++ [manifest_name]))
        then Py.Returns None else Py.Returns (Some p)
    end.
Proof.
  unfold _env_dir. destruct (name =? ""); [reflexivity|].
  destruct (resolve _ _) as [p|]; [|reflexivity]. now rewrite escape_test.
Qed.

Lemma _get_env_dir_by_name_spec (h : Host) (name : string) :
  App._get_env_dir_by_name h name =
  match resolve (fs h) (joinpath (VULHUB_PATH h) name) with
  | None => Py.Raises
  | Some p =>
      if negb (is_prefix (VULHUB_PATH h) p) then Py.Raises else Py.Returns p
  end.
Proof.
  unfold App._get_env_dir_by_name.
  destruct (resolve _ _) as [p|]; [|reflexivity]. now rewrite escape_test.
Qed.

(** An identifier for which [_env_dir] returns no directory starts no
    subprocess. *)
Lemma rejected_runs_nothing (h : Host) (name : string) (timeout : Z) :
  (forall q, _env_dir h name <> Py.Returns (Some q)) ->
  snd (start h name) = []
  /\ snd (stop h name) = []
  /\ snd (check_images h name) = []
  /\ snd (pull_images_stream h name) = []
  /\ snd (wait_ready h name timeout) = [].
Proof.
  intros E. unfold start, stop, check_images, pull_images_stream, wait_ready.
  destruct (_env_dir h name) as [|[q|]].
  - repeat split; try reflexivity. now destruct (urlopen_loaded h).
  - now elim (E q).
  - repeat split; try reflexivity. now destruct (urlopen_loaded h).
Qed.

End Resolution.




(* ================================================================== *)
(** * C2: host ports of a port declaration *)
(* ================================================================== *)

Section Numerals.

Lemma int_digits_acc (d : Decimal.uint) :
  forall acc : positive,
    Py.int_digits (NilEmpty.string_of_uint d) Py.IntDigit (Zpos acc)
    = Some (Zpos (Pos.of_uint_acc d acc)).
Proof.
  induction d; intros acc; cbn [NilEmpty.string_of_uint Py.int_digits Pos.of_uint_acc];
    [reflexivity | ..];
    (match goal with
     | |- context [Py.is_digit ?c] => change (Py.is_digit c) with true
     end; cbv iota;
     match goal with
     | |- context [Py.digit_val ?c] =>
         let v := eval vm_compute in (Py.digit_val c) in
         change (Py.digit_val c) with v
     end;
     match goal with
     | |- Py.int_digits _ _ ?z = Some (Zpos (Pos.of_uint_acc _ ?p)) =>
         replace z with (Zpos p) by lia
     end; apply IHd).
Qed.

Lemma int_digits_zero (d : Decimal.uint) :
  forall st,
    d <> Decimal.Nil \/ st = Py.IntDigit ->
    Py.int_digits (NilEmpty.string_of_uint d) st 0
    = Some (Z.of_N (Pos.of_uint d)).
Proof.
  induction d; intros st H;
    cbn [NilEmpty.string_of_uint Py.int_digits Pos.of_uint].
  - destruct H as [H| ->]; [congruence | reflexivity].
  - change (Py.is_digit "0") with true. cbv iota.
    change (10 * 0 + Py.digit_val "0")%Z with 0%Z. apply IHd. now right.
  - change (Py.is_digit "1") with true. cbv iota. apply (int_digits_acc d 1).
  - change (Py.is_digit "2") with true. cbv iota. apply (int_digits_acc d 2).
  - change (Py.is_digit "3") with true. cbv iota. apply (int_digits_acc d 3).
  - change (Py.is_digit "4") with true. cbv iota. apply (int_digits_acc d 4).
  - change (Py.is_digit "5") with true. cbv iota. apply (int_digits_acc d 5).
  - change (Py.is_digit "6") with true. cbv iota. apply (int_digits_acc d 6).
  - change (Py.is_digit "7") with true. cbv iota. apply (int_digits_acc d 7).
  - change (Py.is_digit "8") with true. cbv iota. apply (int_digits_acc d 8).
  - change (Py.is_digit "9") with true. cbv iota. apply (int_digits_acc d 9).
Qed.

Lemma rstrip_digits (d : Decimal.uint) :
  Py.rstrip (NilEmpty.string_of_uint d) = NilEmpty.string_of_uint d.
Proof.
  induction d; cbn [NilEmpty.string_of_uint Py.rstrip]; [reflexivity | ..];
    rewrite IHd;
    match goal with
    | |- context [Py.is_space ?c] => change (Py.is_space c) with false
    end; reflexivity.
Qed.

(** [int] reads back what [str] prints. *)
Lemma int_str_of_Z (n : Z) : (0 <= n)%Z -> Py.int (Py.str_of_Z n) = Some n.
Proof.
  intros H. destruct n as [|p|p]; [reflexivity | | lia].
  unfold Py.str_of_Z, Z.to_int, NilZero.string_of_int, NilZero.string_of_uint.
  pose proof (Unsigned.to_uint_nonnil p) as NN.
  pose proof (Unsigned.of_to p) as OT.
  pose proof (int_digits_zero (Pos.to_uint p) Py.IntStart (or_introl NN)) as D.
  pose proof (rstrip_digits (Pos.to_uint p)) as R.
  rewrite OT in D.
  destruct (Pos.to_uint p) eqn:E; [congruence | ..];
    unfold Py.int, Py.strip;
    cbn [NilEmpty.string_of_uint Py.lstrip] in *;
    match goal with
    | |- context [Py.is_space ?c] => change (Py.is_space c) with false
    end; cbv iota; rewrite R; exact D.
Qed.

End Numerals.

Section Ports.

Import Yaml.

Lemma second_to_last_app {A} (pre : list A) (x y : A) :
  Py.second_to_last (pre ++ [x; y]) = Some x.
Proof.
  unfold Py.second_to_last. rewrite rev_app_distr. reflexivity.
Qed.

(** [app.py] reads the token before the last colon and keeps it as the
    decimal text of its integer value; a token that is no integer gives
    no port. *)
Lemma app_string_port (s : string) (pre : list string) (tok lst : string) :
  Py.split ":" s = pre ++ [tok; lst] ->
  App.item_host_port (YStr s) = option_map Py.str_of_Z (Py.int tok).
Proof.
  intros E. unfold App.item_host_port. rewrite E, second_to_last_app.
  rewrite length_app. simpl length.
  replace (2 <=? length pre + 2)%nat with true
    by (symmetry; apply Nat.leb_le; lia).
  now destruct (Py.int tok).
Qed.

(** When that token is the decimal text of a port number, the host port
    is the token itself. *)
Lemma app_canonical_port (s : string) (pre : list string) (n : Z)
  (lst : string) :
  (0 <= n)%Z ->
  Py.split ":" s = pre ++ [Py.str_of_Z n; lst] ->
  App.item_host_port (YStr s) = Some (Py.str_of_Z n).
Proof.
  intros H E. rewrite (app_string_port _ _ _ _ E), int_str_of_Z by assumption.
  reflexivity.
Qed.

(** A structured mapping gives its [published] value when that is
    true. *)
Lemma app_published_port (m : list (string * yaml)) (hp : yaml) :
  lookup "published" m = Some hp -> truthy hp = true ->
  App.item_host_port (YMap m) = Some (str hp).
Proof.
  intros L T. unfold App.item_host_port, get. now rewrite L, T.
Qed.

(** Only the first recoverable host port of a service is kept. *)
Lemma app_first_port_kept (svc_name : string) (svc_cfg : yaml)
  (hp : string) (more : list string) :
  App.service_host_ports svc_cfg = Some (hp :: more) ->
  App.parse_services [(svc_name, svc_cfg)] [] []
  = ([svc_name], [(svc_name, hp)]).
Proof. intros E. simpl. now rewrite E. Qed.

(** [vulhub_manager.py] stores the text before the first colon of the
    first mapping that holds a colon, whatever follows. *)
Lemma manager_first_token (s : string) (more : list yaml) :
  Py.contains ":" s = true ->
  Manager.first_host_port (YStr s :: more)
  = Some (hd "" (Py.split ":" s)).
Proof. intros C. simpl. now rewrite C. Qed.

End Ports.

(** C2.  [VulhubManager._extract_ports] on the declaration
    ["127.0.0.1:8080:80"] stores the bind address [127.0.0.1] as the
    host port of the service, where the specification (and
    [_compose_parse_services_ports] on the same manifest) gives [8080];
    on a structured mapping it stores a piece of the printed
    dictionary. *)
Theorem C2_extract_ports_first_token :
  Manager._extract_ports Examples.bound_manifest
  = Some [("web", "127.0.0.1")]
  /\ snd (App._compose_parse_services_ports
            (Examples.tree [["a"]] (App.Loaded Examples.bound_manifest)) ["a"])
     = [("web", "8080")]
  /\ Manager._extract_ports
       (Yaml.YMap
          [("services",
            Yaml.YMap
              [("web",
                Yaml.YMap
                  [("ports",
                    Yaml.YSeq
                      [Yaml.YMap [("target", Yaml.YInt 80);
                                  ("published", Yaml.YInt 8080)]])])])])
     = Some [("web", "{'target'")].
Proof. repeat split; vm_compute; reflexivity. Qed.

(* ================================================================== *)
(** * C4 and C10: waiting for readiness *)
(* ================================================================== *)

Section Readiness.

Import Operations.

Variable h : Host.
Variable env_dir : Pathlib.path.

(** The polling loop ends by itself: once the fuel covers the seconds
    left to the deadline, more fuel changes nothing. *)
Lemma wait_loop_fuel (fuel : nat) :
  forall extra n now deadline chosen,
    (deadline - now <= 1000 * Z.of_nat fuel)%Z ->
    wait_loop h env_dir (fuel + extra) n now deadline chosen
    = wait_loop h env_dir fuel n now deadline chosen.
Proof.
  induction fuel as [|fuel IH]; intros extra n now deadline chosen B.
  - destruct extra as [|extra]; [reflexivity|].
    cbn [Nat.add wait_loop].
    replace (now <? deadline)%Z with false
      by (symmetry; apply Z.ltb_ge; lia).
    reflexivity.
  - cbn [Nat.add wait_loop].
    destruct (now <? deadline)%Z; [|reflexivity].
    destruct (_pick_host_ports h n env_dir) as [ports inv].
    assert (B' : (deadline - (now + Z.of_N (work_ms h n) + 1000)
                  <= 1000 * Z.of_nat fuel)%Z) by lia.
    destruct ports as [|p ports].
    + now rewrite IH.
    + destruct (probe_schemes h n p ["http"; "https"]); [reflexivity|].
      now rewrite IH.
Qed.

Lemma after_loop_true (chosen : option Z) : fst (after_loop chosen) = true.
Proof.
  destruct chosen as [p|]; [|reflexivity].
  unfold after_loop. now destruct (negb (p =? 0)%Z).
Qed.

Lemma after_loop_not_ready (chosen : option Z) :
  ready (snd (after_loop chosen)) = false.
Proof.
  destruct chosen as [p|]; [|reflexivity].
  unfold after_loop. now destruct (negb (p =? 0)%Z).
Qed.

Lemma probe_schemes_true (n : nat) (p : Z) (schemes : list string)
  (res : bool * ready_info) :
  probe_schemes h n p schemes = Some res ->
  res = (true, {| ready := true; port := Some p |}).
Proof.
  induction schemes as [|scheme r IH]; simpl; [discriminate|].
  destruct (urlopen (http_get h n scheme p)) as [status|]; [|exact IH].
  destruct ((200 <=? status) && (status <? 400))%Z; congruence.
Qed.

(** Whatever the machine does, the first component is [True]. *)
Lemma wait_loop_true (fuel : nat) :
  forall n now deadline chosen,
    fst (fst (wait_loop h env_dir fuel n now deadline chosen)) = true.
Proof.
  induction fuel as [|fuel IH]; intros n now deadline chosen;
    cbn [wait_loop]; [apply after_loop_true|].
  destruct (now <? deadline)%Z; [|apply after_loop_true].
  destruct (_pick_host_ports h n env_dir) as [ports inv].
  destruct ports as [|p ports].
  - specialize (IH (S n) (now + Z.of_N (work_ms h n) + 1000)%Z deadline chosen).
    now destruct (wait_loop h env_dir fuel _ _ _ _).
  - destruct (probe_schemes h n p ["http"; "https"]) as [res|] eqn:P.
    + now rewrite (probe_schemes_true _ _ _ _ P).
    + specialize (IH (S n) (now + Z.of_N (work_ms h n) + 1000)%Z deadline (Some p)).
      now destruct (wait_loop h env_dir fuel _ _ _ _).
Qed.

(** A response whose status is not 2xx reaches [wait_ready] as an
    exception, like no response at all. *)
Lemma urlopen_error_status (code : Z) :
  (code < 200 \/ 300 <= code)%Z -> urlopen (Status code) = None.
Proof.
  intros H. unfold urlopen.
  replace ((200 <=? code) && (code <? 300))%Z with false; [reflexivity|].
  symmetry. apply andb_false_iff.
  destruct H; [left; apply Z.leb_gt | right; apply Z.ltb_ge]; lia.
Qed.

(** When no [urlopen] call ever returns, the loop reports not ready. *)
Lemma wait_loop_silent (fuel : nat) :
  (forall n scheme p, urlopen (http_get h n scheme p) = None) ->
  forall n now deadline chosen,
    ready (snd (fst (wait_loop h env_dir fuel n now deadline chosen))) = false.
Proof.
  intros Q. induction fuel as [|fuel IH]; intros n now deadline chosen;
    cbn [wait_loop]; [apply after_loop_not_ready|].
  destruct (now <? deadline)%Z; [|apply after_loop_not_ready].
  destruct (_pick_host_ports h n env_dir) as [ports inv].
  destruct ports as [|p ports].
  - specialize (IH (S n) (now + Z.of_N (work_ms h n) + 1000)%Z deadline chosen).
    now destruct (wait_loop h env_dir fuel _ _ _ _).
  - assert (P : probe_schemes h n p ["http"; "https"] = None)
      by (simpl; now rewrite !Q).
    rewrite P.
    specialize (IH (S n) (now + Z.of_N (work_ms h n) + 1000)%Z deadline (Some p)).
    now destruct (wait_loop h env_dir fuel _ _ _ _).
Qed.

(** When no poll finds a host port, the loop reports not ready and no
    port. *)
Lemma wait_loop_no_port (fuel : nat) :
  (forall n, fst (_pick_host_ports h n env_dir) = []) ->
  forall n now deadline,
    fst (wait_loop h env_dir fuel n now deadline None)
    = (true, {| ready := false; port := None |}).
Proof.
  intros Q. induction fuel as [|fuel IH]; intros n now deadline;
    cbn [wait_loop]; [reflexivity|].
  destruct (now <? deadline)%Z; [|reflexivity].
  specialize (Q n). destruct (_pick_host_ports h n env_dir) as [ports inv].
  simpl in Q. subst ports.
  specialize (IH (S n) (now + Z.of_N (work_ms h n) + 1000)%Z deadline).
  now destruct (wait_loop h env_dir fuel _ _ _ _).
Qed.

(** When every poll finds the host port [p] first and no [urlopen] call
    returns, the loop reports not ready with [p] attached. *)
Lemma wait_loop_port_silent (fuel : nat) (p : Z) :
  p <> 0%Z ->
  (forall n, hd_error (fst (_pick_host_ports h n env_dir)) = Some p) ->
  (forall n scheme, urlopen (http_get h n scheme p) = None) ->
  forall n now deadline chosen,
    chosen = Some p \/ (fuel <> O /\ (now < deadline)%Z) ->
    fst (wait_loop h env_dir fuel n now deadline chosen)
    = (true, {| ready := false; port := Some p |}).
Proof.
  intros Hp Q U.
  assert (A : after_loop (Some p) = (true, {| ready := false; port := Some p |})).
  { unfold after_loop. destruct (Z.eqb_spec p 0); [contradiction|reflexivity]. }
  induction fuel as [|fuel IH]; intros n now deadline chosen C; cbn [wait_loop].
  - destruct C as [->|[C _]]; [exact A | contradiction].
  - destruct (now <? deadline)%Z eqn:T.
    + specialize (Q n). destruct (_pick_host_ports h n env_dir) as [ports inv].
      simpl in Q. destruct ports as [|p' ports]; [discriminate|].
      inversion Q; subst p'.
      assert (P : probe_schemes h n p ["http"; "https"] = None)
        by (simpl; now rewrite !U).
      rewrite P.
      specialize (IH (S n) (now + Z.of_N (work_ms h n) + 1000)%Z deadline
                    (Some p) (or_introl eq_refl)).
      destruct (wait_loop h env_dir fuel _ _ _ _). simpl in IH. now subst.
    + destruct C as [->|[_ C]]; [exact A|].
      apply Z.ltb_ge in T. lia.
Qed.

(** When the first poll finds the host port [p] first and the server
    answers with a 2xx status, the loop reports ready with [p]. *)
Lemma wait_loop_ready (fuel n : nat) (now deadline : Z) (chosen : option Z)
  (p code : Z) :
  (now < deadline)%Z ->
  hd_error (fst (_pick_host_ports h n env_dir)) = Some p ->
  http_get h n "http" p = Status code ->
  (200 <= code < 300)%Z ->
  fst (wait_loop h env_dir (S fuel) n now deadline chosen)
  = (true, {| ready := true; port := Some p |}).
Proof.
  intros T Q G C. cbn [wait_loop].
  apply Z.ltb_lt in T. rewrite T.
  destruct (_pick_host_ports h n env_dir) as [ports inv]. simpl in Q.
  destruct ports as [|p' ports]; [discriminate|]. inversion Q; subst p'.
  cbn [probe_schemes]. rewrite G. unfold urlopen.
  replace ((200 <=? code) && (code <? 300))%Z with true.
  - now destruct ((200 <=? code) && (code <? 400))%Z.
  - symmetry. apply andb_true_iff. split; [apply Z.leb_le | apply Z.ltb_lt]; lia.
Qed.

End Readiness.

(** Whatever statuses outside 2xx the servers answer with,
    [wait_ready] never reports ready. *)
Lemma wait_ready_error_statuses (h : Operations.Host) (name : string)
  (timeout : Z) (res : bool * Operations.ready_info) :
  (forall n scheme p code,
     Operations.http_get h n scheme p = Operations.Status code ->
     (code < 200 \/ 300 <= code)%Z) ->
  fst (Operations.wait_ready h name timeout) = Py.Returns res ->
  Operations.ready (snd res) = false.
Proof.
  intros Q. unfold Operations.wait_ready.
  destruct (Operations.urlopen_loaded h); cbn [negb fst];
    [|intros E; now inversion E].
  destruct (Operations._env_dir h name) as [|[env_dir|]]; cbn [fst];
    [discriminate | | intros E; now inversion E].
  pose proof (wait_loop_silent h env_dir
                (Z.to_nat (Z.max 1 timeout))) as S.
  destruct (Operations.wait_loop h env_dir _ 0 0 _ None) as [r tr] eqn:W.
  cbn [fst]. intros E. inversion E; subst r.
  assert (U : forall n scheme p,
             Operations.urlopen (Operations.http_get h n scheme p) = None).
  { intros n scheme p.
    destruct (Operations.http_get h n scheme p) as [|code] eqn:G; [reflexivity|].
    apply urlopen_error_status. eapply Q. exact G. }
  specialize (S U 0 0%Z (1000 * Z.max 1 timeout)%Z None).
  now rewrite W in S.
Qed.

(** Whenever [wait_ready] returns, the first component is [True]; and it
    returns unless the resolution of the identifier raises. *)
Lemma wait_ready_returns_true (h : Operations.Host) (name : string)
  (timeout : Z) :
  (forall res, fst (Operations.wait_ready h name timeout) = Py.Returns res ->
               fst res = true)
  /\ (Operations._env_dir h name <> Py.Raises ->
      exists res, fst (Operations.wait_ready h name timeout) = Py.Returns res).
Proof.
  unfold Operations.wait_ready.
  destruct (Operations.urlopen_loaded h); cbn [negb].
  - destruct (Operations._env_dir h name) as [|[env_dir|]].
    + split; [discriminate | congruence].
    + pose proof (wait_loop_true h env_dir (Z.to_nat (Z.max 1 timeout))
                    0 0%Z (1000 * Z.max 1 timeout)%Z None) as T.
      destruct (Operations.wait_loop h env_dir _ 0 0 _ None) as [r tr].
      cbn [fst] in *. split.
      * intros res E. inversion E; subst res. exact T.
      * intros _. eexists. reflexivity.
    + split; [intros res E; now inversion E | intros _; eexists; reflexivity].
  - split; [intros res E; now inversion E | intros _; eexists; reflexivity].
Qed.

(** C4.  Against an environment whose published port 8080 answers every
    request with status 404, or with status 500, [wait_ready] with
    [timeout=2] returns [ready=False] with port 8080, where the
    specification says [ready=True]: the response reaches the loop as an
    [HTTPError] and is dropped.  The same server answering 200 is
    reported ready. *)
Theorem C4_error_response_not_ready :
  fst (Operations.wait_ready
         (Examples.host Examples.published_8080 (Operations.Status 404))
         "nginx" 2)
  = Py.Returns
      (true, {| Operations.ready := false; Operations.port := Some 8080%Z |})
  /\ fst (Operations.wait_ready
            (Examples.host Examples.published_8080 (Operations.Status 500))
            "nginx" 2)
     = Py.Returns
         (true, {| Operations.ready := false; Operations.port := Some 8080%Z |})
  /\ fst (Operations.wait_ready
            (Examples.host Examples.published_8080 (Operations.Status 200))
            "nginx" 2)
     = Py.Returns
         (true, {| Operations.ready := true; Operations.port := Some 8080%Z |}).
Proof. repeat split; vm_compute; reflexivity. Qed.

(** C10.  For the identifier made of [a], a NUL character and [b],
    [wait_ready] returns nothing: [Path.resolve()] raises [ValueError]
    before the [try] block of [_env_dir], and the exception leaves
    [wait_ready], where the specification says it returns with [True]
    as first component.  No subprocess was started. *)
Theorem C10_wait_ready_raises :
  Operations.wait_ready Examples.idle Examples.nul_name 20
  = (Py.Raises, []).
Proof. reflexivity. Qed.

(* ================================================================== *)
(** * C7: what a failed start reports *)
(* ================================================================== *)

Section Diagnostics.

Import Operations.

Lemma prefix_nil (s : string) : prefix "" s = true.
Proof. now destruct s. Qed.

Lemma prefix_cons (a c : ascii) (n s : string) :
  prefix (String a n) (String c s) = Ascii.eqb a c && prefix n s.
Proof.
  cbn [prefix]. destruct (ascii_dec a c) as [->|N].
  - now rewrite Ascii.eqb_refl.
  - apply Ascii.eqb_neq in N. now rewrite N.
Qed.











Lemma bind_phrase_nonempty (text : string) :
  bind_phrase text = true -> text <> "".
Proof. intros H ->. discriminate. Qed.

End Diagnostics.




(* ================================================================== *)
(** * C8: the status change in the cached snapshot *)
(* ================================================================== *)

Section StatusFrame.

Import App.




End StatusFrame.



(* ================================================================== *)
(** * C3: the order of a snapshot *)
(* ================================================================== *)

Section ManagerClock.

Import Manager.

Variable w : World.
Variable clock : nat -> string.

Lemma parse_environment_clock (i : nat) (d : list string) :
  _parse_environment (with_clock w clock) i d
  = match _parse_environment w i d with
    | Py.Returns (Some e) => Py.Returns (Some (with_last_checked e (clock i)))
    | other => other
    end.
Proof.
  unfold _parse_environment. cbn [with_clock root read_compose file_exists now_iso].
  destruct (length d =? 0)%nat; [reflexivity|].
  destruct (find_cve d 0) as [[m idx]|];
    (destruct (read_compose w d) as [|content config]; [reflexivity|];
     destruct (Yaml.get_default config "services" (Yaml.YMap [])) as [[| | | | | |svcs]|];
     try reflexivity;
     destruct (_extract_ports config); reflexivity).
Qed.

(** Two fresh scans of one tree differ in [last_checked] at most. *)
Lemma scan_loop_clock (dirs : list (list string)) :
  forall i,
    map (fun e => with_last_checked e "") (scan_loop (with_clock w clock) i dirs)
    = map (fun e => with_last_checked e "") (scan_loop w i dirs).
Proof.
  induction dirs as [|d dirs IH]; intros i; [reflexivity|].
  cbn [scan_loop]. rewrite parse_environment_clock.
  destruct (_parse_environment w i d) as [|[e|]]; try apply IH.
  cbn [map]. now rewrite IH.
Qed.

End ManagerClock.

(** C3, corrected.  [_scan_environments_fs] returns one record per
    manifest directory, in ascending order of the identifiers and with
    no identifier twice, and the same list for every order in which the
    traversal yields the manifests, provided the probes answer alike.
    A fresh [VulhubManager.scan] of the same tree at another time gives
    the same records up to [last_checked], which holds the time of the
    scan. *)
Theorem C3_scan_sorted_unique (t : App.Tree) (dirs dirs' : list (list string))
  (w : Manager.World) (clock : nat -> string) :
  App.root_exists t = true ->
  App.rglob t = Some dirs ->
  NoDup dirs ->
  Forall (Forall component) dirs ->
  Permutation dirs dirs' ->
  (exists envs,
      App._scan_environments_fs t = Some envs
      /\ Sorted (key_le App.name) envs
      /\ NoDup (map App.name envs)
      /\ Permutation (map App.name envs) (map App.as_posix dirs)
      /\ App._scan_environments_fs (App.with_rglob t (Some dirs')) = Some envs)
  /\ (forall f ft,
        option_map (map (fun e => Manager.with_last_checked e ""))
          (fst (Manager.scan (Manager.with_clock w clock) false f ft))
        = option_map (map (fun e => Manager.with_last_checked e ""))
            (fst (Manager.scan w false f ft))).
Proof.
  intros R G N C P. split.
  2:{ intros f ft. unfold Manager.scan.
      cbn [andb Manager.with_clock Manager.rglob].
      destruct (Manager.rglob w) as [compose_dirs|]; [|reflexivity].
      unfold Manager._save_to_cache.
      destruct ft; cbn [Disk.open_w_dump fst option_map]; try reflexivity.
      now rewrite scan_loop_clock. }
  exists (App.sort_by App.name (map (App.scan_entry t) dirs)).
  assert (Names : Permutation
                    (map App.name (App.sort_by App.name (map (App.scan_entry t) dirs)))
                    (map App.as_posix dirs)).
  { rewrite <- map_scan_entry_names with (t := t).
    apply Permutation_map, sort_by_perm. }
  repeat split.
  - unfold App._scan_environments_fs. now rewrite R, G.
  - apply sort_by_sorted.
  - eapply Permutation_NoDup; [apply Permutation_sym; exact Names|].
    now apply NoDup_as_posix.
  - exact Names.
  - unfold App._scan_environments_fs. cbn [App.with_rglob App.root_exists App.rglob].
    rewrite R. cbn [negb]. f_equal. symmetry.
    apply sort_by_order_independent.
    + rewrite map_scan_entry_names. now apply NoDup_as_posix.
    + now apply Permutation_map.
Qed.

(** The theorem at work on a tree whose traversal yields [b] before
    [a]. *)
Lemma C3_witness :
  exists envs,
    App._scan_environments_fs
      (Examples.tree Examples.two_dirs (App.Loaded Examples.bound_manifest))
    = Some envs
    /\ map App.name envs = ["a"; "b"]
    /\ App._scan_environments_fs
         (App.with_rglob
            (Examples.tree Examples.two_dirs (App.Loaded Examples.bound_manifest))
            (Some [["a"]; ["b"]]))
       = Some envs.
Proof.
  assert (C : Forall (Forall component) Examples.two_dirs).
  { repeat constructor; discriminate. }
  assert (N : NoDup Examples.two_dirs).
  { repeat constructor; simpl; intuition discriminate. }
  destruct (C3_scan_sorted_unique
              (Examples.tree Examples.two_dirs (App.Loaded Examples.bound_manifest))
              Examples.two_dirs [["a"]; ["b"]]
              (Examples.world Examples.two_dirs [] "" 0%Z) (fun _ => "")
              eq_refl eq_refl N C (perm_swap _ _ _))
    as [(envs & E & _ & _ & _ & E') _].
  exists envs. repeat split; auto.
  vm_compute in E. inversion E. reflexivity.
Defined.

(** C3, as stated, fails on [VulhubManager.scan]: it returns [b] before
    [a] when the traversal does, and scanning the same tree five
    minutes later gives another snapshot. *)
Lemma C3_counterexample :
  option_map (map Manager.name)
    (fst (Manager.scan
            (Examples.world Examples.two_dirs [] "2024-01-01T00:00:00" 0%Z)
            false Disk.Absent Disk.NoFault))
  = Some ["b"; "a"]
  /\ String.leb "b" "a" = false
  /\ fst (Manager.scan
            (Examples.world Examples.two_dirs [] "2024-01-01T00:00:00" 0%Z)
            false Disk.Absent Disk.NoFault)
     <> fst (Manager.scan
               (Examples.world Examples.two_dirs [] "2024-01-01T00:05:00" 0%Z)
               false Disk.Absent Disk.NoFault).
Proof.
  split; [reflexivity | split; [reflexivity|]].
  vm_compute. intros H. inversion H.
Qed.

(* ================================================================== *)
(** * C5: when the persistent cache is rejected *)
(* ================================================================== *)

Section Fingerprint.

Lemma length_append (a b : string) :
  String.length (a ++ b) = String.length a + String.length b.
Proof. induction a; simpl; congruence. Qed.

Lemma length_join_empty (l : list string) :
  String.length (Py.join "" l) = total_length l.
Proof.
  induction l as [|x l IH]; [reflexivity|].
  destruct l as [|y l].
  - simpl. lia.
  - change (Py.join "" (x :: y :: l)) with (x ++ "" ++ Py.join "" (y :: l))%string.
    rewrite length_append. cbn [append]. rewrite IH. reflexivity.
Qed.

Lemma total_length_perm (l l' : list string) :
  Permutation l l' -> total_length l = total_length l'.
Proof. induction 1; simpl in *; lia. Qed.

Lemma length_paths_str (dirs : list (list string)) :
  String.length (App.paths_str dirs)
  = total_length (map App.manifest_rel dirs).
Proof.
  unfold App.paths_str, App.sorted. rewrite length_join_empty.
  apply total_length_perm, sort_by_perm.
Qed.

Lemma manifest_rel_nonempty (d : list string) :
  0 < String.length (App.manifest_rel d).
Proof.
  unfold App.manifest_rel. induction d as [|x d IH]; [simpl; lia|].
  destruct d as [|y d].
  - change (Py.join "/" ([x] ++ [Operations.manifest_name]))
      with (x ++ "/" ++ Operations.manifest_name)%string.
    rewrite length_append. simpl. lia.
  - change (Py.join "/" ((x :: y :: d) ++ [Operations.manifest_name]))
      with (x ++ "/" ++ Py.join "/" ((y :: d) ++ [Operations.manifest_name]))%string.
    rewrite length_append. simpl. lia.
Qed.

(** Adding a manifest to a tree, or removing one from it, changes the
    text that is digested. *)
Lemma paths_str_changes (dirs dirs' : list (list string)) (d : list string) :
  Permutation dirs' (d :: dirs) \/ Permutation dirs (d :: dirs') ->
  App.paths_str dirs <> App.paths_str dirs'.
Proof.
  intros P E. apply (f_equal String.length) in E.
  rewrite !length_paths_str in E.
  pose proof (manifest_rel_nonempty d) as L.
  destruct P as [P|P];
    apply (Permutation_map App.manifest_rel) in P;
    apply total_length_perm in P; simpl in P; lia.
Qed.

Lemma option_string_eqb_eq (a b : option string) :
  App.option_string_eqb a b = true <-> a = b.
Proof.
  destruct a as [x|], b as [y|]; simpl; try (split; congruence).
  rewrite String.eqb_eq. split; congruence.
Qed.

End Fingerprint.

(** C5, corrected.  [_load_persistent_cache] returns [None] when more
    than [CACHE_TTL_MS], twenty-four hours, passed since the stored
    time stamp, and when the stored fingerprint is not the MD5 digest
    of the sorted relative manifest paths now found under the root; so
    a load that follows a store reports absence once a manifest was
    added or removed, as long as MD5 tells the two path texts apart.
    [VulhubManager.scan] keeps no fingerprint: whatever manifests the
    traversal would find, it answers from its cache file whenever that
    file exists and is less than an hour old. *)
Theorem C5_cache_rejection (h : Operations.Host) (t t' : App.Tree)
  (dirs dirs' : list (list string)) (d : list string) (now now' : Z)
  (envs : list App.environment) (old : Disk.file App.envelope)
  (w : Manager.World) :
  App.rglob t = Some dirs ->
  App.rglob t' = Some dirs' ->
  Permutation dirs' (d :: dirs) \/ Permutation dirs (d :: dirs') ->
  (App.paths_str dirs <> App.paths_str dirs' ->
   MD5.hexdigest (App.paths_str dirs) <> MD5.hexdigest (App.paths_str dirs')) ->
  App.CACHE_TTL_MS = (24 * 3600 * 1000)%Z
  /\ (forall e,
        (now' - App.get_or (App.timestamp e) 0 > App.CACHE_TTL_MS)%Z ->
        App._load_persistent_cache t' now' (Disk.Holds e) = None)
  /\ (forall e,
        App.vulhub_hash e <> Some (MD5.hexdigest (App.paths_str dirs')) ->
        App._load_persistent_cache t' now' (Disk.Holds e) = None)
  /\ App._load_persistent_cache t' now'
       (App._save_persistent_cache h t now envs old Disk.NoFault) = None
  /\ (forall r f ft,
        Manager.cache_exists f = true ->
        (Manager.cache_age_ms w < 3600 * 1000)%Z ->
        Manager.scan (Manager.with_rglob w r) true f ft
        = (Manager._load_from_cache w f, f)).
Proof.
  intros G G' P M.
  assert (Hash : forall e,
             App.vulhub_hash e <> Some (MD5.hexdigest (App.paths_str dirs')) ->
             App._load_persistent_cache t' now' (Disk.Holds e) = None).
  { intros e D. unfold App._load_persistent_cache.
    destruct (_ >? _)%Z; [reflexivity|].
    unfold App._calculate_vulhub_hash. rewrite G'.
    destruct (App.option_string_eqb _ _) eqn:Q; [|reflexivity].
    apply option_string_eqb_eq in Q. contradiction. }
  split; [reflexivity|]. split; [|split; [exact Hash|split]].
  - intros e T. unfold App._load_persistent_cache.
    replace (_ >? _)%Z with true; [reflexivity|].
    symmetry. apply Z.gtb_lt. lia.
  - unfold App._save_persistent_cache. cbn [Disk.open_w_dump fst].
    apply Hash. cbn [App.vulhub_hash]. unfold App._calculate_vulhub_hash.
    rewrite G. intros Q. inversion Q as [Q'].
    apply (M (paths_str_changes dirs dirs' d P)). exact Q'.
  - intros r f ft X A. unfold Manager.scan.
    cbn [Manager.with_rglob Manager.cache_age_ms].
    apply Z.ltb_lt in A. rewrite X, A. reflexivity.
Qed.

(** The theorem at work: a cache stored for the tree [a] is rejected
    once the tree also holds [b]. *)
Lemma C5_witness :
  App._load_persistent_cache
    (Examples.tree [["a"]; ["b"]] (App.Loaded Examples.bound_manifest)) 60000
    (App._save_persistent_cache Examples.idle
       (Examples.tree [["a"]] (App.Loaded Examples.bound_manifest))
       0 Examples.snapshot_a Disk.Absent Disk.NoFault)
  = None.
Proof.
  refine (proj1 (proj2 (proj2 (proj2
            (C5_cache_rejection Examples.idle
               (Examples.tree [["a"]] (App.Loaded Examples.bound_manifest))
               (Examples.tree [["a"]; ["b"]] (App.Loaded Examples.bound_manifest))
               [["a"]] [["a"]; ["b"]] ["b"] 0 60000 Examples.snapshot_a
               Disk.Absent (Examples.world [] [] "" 0)
               eq_refl eq_refl _ _))))).
  - left. apply perm_swap.
  - intros _. vm_compute. discriminate.
Defined.

(** C5, as stated, fails on [VulhubManager.scan]: ten minutes after a
    scan stored the tree [a], and after the manifest [b] was added, a
    scan with the cache still answers with [a] alone. *)
Lemma C5_counterexample :
  option_map (map Manager.name)
    (fst (Manager.scan
            (Examples.world [["a"]; ["b"]] [] "2024-01-01T00:10:00" 600000)
            true
            (snd (Manager.scan
                    (Examples.world [["a"]] [] "2024-01-01T00:00:00" 0)
                    false Disk.Absent Disk.NoFault))
            Disk.NoFault))
  = Some ["a"]
  /\ option_map (map Manager.name)
       (fst (Manager.scan
               (Examples.world [["a"]; ["b"]] [] "2024-01-01T00:10:00" 600000)
               false Disk.Absent Disk.NoFault))
     = Some ["a"; "b"].
Proof. split; reflexivity. Qed.

(* ================================================================== *)
(** * C6: how the cache file is written *)
(* ================================================================== *)

(** C6, corrected.  Both stores open the cache file for writing, which
    empties it, and write the document in place.  When that succeeds the
    file holds the new document, and [_load_persistent_cache] returns
    the stored environments on the same tree within the time to live.
    When opening fails the file is left as it was.  When writing fails
    after the file was opened, the file holds a piece of the new
    document only: the former content is gone and a later load finds no
    usable cache.  [_save_persistent_cache] swallows the failure,
    [_save_to_cache] lets it rise. *)
Theorem C6_store_in_place (h : Operations.Host) (t : App.Tree) (now : Z)
  (envs : list App.environment) (old : Disk.file App.envelope)
  (menvs : list Manager.VulhubEnvironment)
  (mold : Disk.file (list Manager.VulhubEnvironment))
  (w : Manager.World) (ft : Disk.fault) :
  let doc :=
    {| App.environments := Some envs;
       App.timestamp := Some now;
       App.vulhub_hash := App._calculate_vulhub_hash t;
       App.vulhub_path := Some (Pathlib.to_text (Operations.VULHUB_PATH h)) |} in
  let after := App._save_persistent_cache h t now envs old ft in
  let mafter := Manager._save_to_cache menvs mold ft in
  match ft with
  | Disk.NoFault =>
      after = Disk.Holds doc
      /\ (forall now', (now' - now <= App.CACHE_TTL_MS)%Z ->
            App._load_persistent_cache t now' after = Some envs)
      /\ mafter = (Disk.Holds menvs, false)
  | Disk.OpenFails =>
      after = old /\ mafter = (mold, true)
  | Disk.DumpFails written =>
      after = Disk.Torn doc written
      /\ (forall t' now', App._load_persistent_cache t' now' after = None)
      /\ mafter = (Disk.Torn menvs written, true)
      /\ Manager._load_from_cache w (fst mafter) = None
  end.
Proof.
  destruct ft as [| |written]; cbv zeta;
    unfold App._save_persistent_cache, Manager._save_to_cache;
    cbn [Disk.open_w_dump fst]; repeat split.
  intros now' T. unfold App._load_persistent_cache.
  cbn [App.timestamp App.get_or App.vulhub_hash App.environments].
  replace (now' - now >? App.CACHE_TTL_MS)%Z with false
    by (symmetry; rewrite Z.gtb_ltb; apply Z.ltb_ge; lia).
  replace (App.option_string_eqb _ _) with true
    by (symmetry; now apply option_string_eqb_eq).
  reflexivity.
Qed.

(** C6, as stated, fails: a store that breaks off after three pieces
    leaves a file that is neither the former cache, which a load
    accepted, nor the new one, and which a load rejects; the same holds
    for the manager's store. *)
Lemma C6_counterexample :
  let t := Examples.tree [["a"]] (App.Loaded Examples.bound_manifest) in
  let old := App._save_persistent_cache Examples.idle t 0
               Examples.snapshot_a Disk.Absent Disk.NoFault in
  let after := App._save_persistent_cache Examples.idle t 1000
                 Examples.snapshot_a old (Disk.DumpFails 3) in
  App._load_persistent_cache t 2000 old = Some Examples.snapshot_a
  /\ after <> old
  /\ App._load_persistent_cache t 2000 after = None
  /\ fst (Manager._save_to_cache [] (Disk.Holds []) (Disk.DumpFails 3))
     <> Disk.Holds [].
Proof.
  cbv zeta. split; [vm_compute; reflexivity|].
  split; [vm_compute; discriminate|].
  split; [reflexivity | vm_compute; discriminate].
Qed.

(** The theorem at work on a store that breaks off. *)
Lemma C6_witness :
  App._load_persistent_cache
    (Examples.tree [["a"]] (App.Loaded Examples.bound_manifest)) 2000
    (App._save_persistent_cache Examples.idle
       (Examples.tree [["a"]] (App.Loaded Examples.bound_manifest)) 1000
       Examples.snapshot_a Disk.Absent (Disk.DumpFails 3))
  = None.
Proof.
  exact (proj1 (proj2
           (C6_store_in_place Examples.idle
              (Examples.tree [["a"]] (App.Loaded Examples.bound_manifest)) 1000
              Examples.snapshot_a Disk.Absent [] Disk.Absent
              (Examples.world [] [] "" 0) (Disk.DumpFails 3)))
           (Examples.tree [["a"]] (App.Loaded Examples.bound_manifest)) 2000%Z).
Defined.

(* ================================================================== *)
(** * C9: manifests that do not parse *)
(* ================================================================== *)

Section BestEffort.

Import Yaml.




End BestEffort.




(* ================================================================== *)
(** * Further properties of the code *)
(* ================================================================== *)

(* ================================================================== *)
(** * The subprocesses of the driver *)
(* ================================================================== *)

Section Subprocesses.

Import Operations.

Variable h : Host.

Lemma inspect_all_trace (images : list string) :
  forall n, Forall is_inspect (snd (inspect_all h n images)).
Proof.
  induction images as [|img r IH]; intros n; simpl.
  - constructor.
  - destruct (_run h n _ None) as [[ok2 o] e].
    specialize (IH (S n)).
    destruct (inspect_all h (S n) r) as [miss tr]. simpl in *.
    constructor; [|exact IH].
    split; [reflexivity | exists img; reflexivity].
Qed.

Lemma _pick_host_ports_inv (n : nat) (env_dir : Pathlib.path) :
  snd (_pick_host_ports h n env_dir)
  = (_cmd h ["ps"; "--format"; "json"], Some env_dir).
Proof.
  unfold _pick_host_ports.
  now destruct (_run h n _ (Some env_dir)) as [[ok out] err].
Qed.

Lemma wait_loop_trace (env_dir : Pathlib.path) (fuel : nat) :
  forall n now deadline chosen,
    Forall (fun inv => inv = (_cmd h ["ps"; "--format"; "json"], Some env_dir))
      (snd (wait_loop h env_dir fuel n now deadline chosen)).
Proof.
  induction fuel as [|fuel IH]; intros n now deadline chosen;
    cbn [wait_loop]; [constructor|].
  destruct (now <? deadline)%Z; [|constructor].
  pose proof (_pick_host_ports_inv n env_dir) as PK.
  destruct (_pick_host_ports h n env_dir) as [ports inv]. simpl in PK.
  destruct ports as [|p ports].
  - specialize (IH (S n) (now + Z.of_N (work_ms h n) + 1000)%Z deadline chosen).
    destruct (wait_loop h env_dir fuel _ _ _ _). simpl in *.
    now constructor.
  - destruct (probe_schemes h n p ["http"; "https"]) as [res|].
    + simpl. now repeat constructor.
    + specialize (IH (S n) (now + Z.of_N (work_ms h n) + 1000)%Z deadline (Some p)).
      destruct (wait_loop h env_dir fuel _ _ _ _). simpl in *.
      now constructor.
Qed.

(** The polls are a second apart: poll number [k] of a loop that starts
    at [now] runs at [now + 1000 * k] or later, and before the
    deadline. *)
Lemma wait_loop_polls (env_dir : Pathlib.path) (fuel : nat) :
  forall n now deadline chosen,
    let polls := length (snd (wait_loop h env_dir fuel n now deadline chosen)) in
    polls = 0%nat \/ (now + 1000 * (Z.of_nat polls - 1) < deadline)%Z.
Proof.
  induction fuel as [|fuel IH]; intros n now deadline chosen;
    cbn [wait_loop]; [now left|].
  destruct (now <? deadline)%Z eqn:T; [|now left].
  apply Z.ltb_lt in T. right.
  destruct (_pick_host_ports h n env_dir) as [ports inv].
  assert (W : forall c,
             (now + 1000 * (Z.of_nat (length (inv :: snd (wait_loop h env_dir fuel (S n)
                  (now + Z.of_N (work_ms h n) + 1000) deadline c))) - 1)
              < deadline)%Z).
  { intros c.
    specialize (IH (S n) (now + Z.of_N (work_ms h n) + 1000)%Z deadline c).
    cbv zeta in IH. cbn [length].
    destruct IH as [-> | IH]; [simpl; lia|]. lia. }
  destruct ports as [|p ports].
  - specialize (W chosen). destruct (wait_loop h env_dir fuel _ _ _ _).
    exact W.
  - destruct (probe_schemes h n p ["http"; "https"]) as [res|].
    + simpl. lia.
    + specialize (W (Some p)). destruct (wait_loop h env_dir fuel _ _ _ _).
      exact W.
Qed.

(** A loop that reports ready received a response with a 2xx status
    from the port it reports, which the listing of that poll names
    first. *)
Lemma wait_loop_ready_sound (env_dir : Pathlib.path) (fuel : nat) :
  forall n now deadline chosen,
    ready (snd (fst (wait_loop h env_dir fuel n now deadline chosen))) = true ->
    exists k p scheme code,
      hd_error (fst (_pick_host_ports h k env_dir)) = Some p
      /\ (scheme = "http" \/ scheme = "https")
      /\ http_get h k scheme p = Status code
      /\ (200 <= code < 300)%Z
      /\ port (snd (fst (wait_loop h env_dir fuel n now deadline chosen)))
         = Some p.
Proof.
  induction fuel as [|fuel IH]; intros n now deadline chosen;
    cbn [wait_loop].
  - cbn [fst]. rewrite after_loop_not_ready. discriminate.
  - destruct (now <? deadline)%Z;
      [|cbn [fst]; rewrite after_loop_not_ready; discriminate].
    destruct (_pick_host_ports h n env_dir) as [ports inv] eqn:PK.
    destruct ports as [|p ports].
    + specialize (IH (S n) (now + Z.of_N (work_ms h n) + 1000)%Z deadline chosen).
      destruct (wait_loop h env_dir fuel _ _ _ _). exact IH.
    + destruct (probe_schemes h n p ["http"; "https"]) as [res|] eqn:P.
      * intros _. rewrite (probe_schemes_true _ _ _ _ _ P). simpl.
        cbn [probe_schemes] in P.
        assert (U : forall a, urlopen a <> None ->
                              exists code, a = Status code /\ (200 <= code < 300)%Z).
        { intros [|code] Q; simpl in Q; [contradiction|].
          exists code. split; [reflexivity|].
          destruct ((200 <=? code) && (code <? 300))%Z eqn:B; [|contradiction].
          apply andb_true_iff in B. destruct B as [B1 B2].
          apply Z.leb_le in B1. apply Z.ltb_lt in B2. lia. }
        destruct (urlopen (http_get h n "http" p)) eqn:U1.
        -- destruct (U (http_get h n "http" p)) as [code [G C]];
             [congruence|].
           exists n, p, "http", code. rewrite PK. simpl. tauto.
        -- destruct (urlopen (http_get h n "https" p)) eqn:U2; [|discriminate].
           destruct (U (http_get h n "https" p)) as [code [G C]];
             [congruence|].
           exists n, p, "https", code. rewrite PK. simpl. tauto.
      * specialize (IH (S n) (now + Z.of_N (work_ms h n) + 1000)%Z deadline (Some p)).
        destruct (wait_loop h env_dir fuel _ _ _ _). exact IH.
Qed.

End Subprocesses.

Lemma _env_dir_returns (h : Operations.Host) (name : string)
  (d : Pathlib.path) :
  Operations._env_dir h name = Py.Returns (Some d) ->
  within (Operations.VULHUB_PATH h) d
  /\ Pathlib.exists_ (Operations.fs h) (d ++ [Operations.manifest_name]) = true.
Proof.
  rewrite _env_dir_spec. destruct (name =? ""); [discriminate|].
  destruct (Pathlib.resolve _ _) as [p|]; [|discriminate].
  destruct (Pathlib.is_prefix _ p) eqn:P; [|discriminate]. simpl.
  destruct (Pathlib.exists_ (Operations.fs h) p); [|discriminate]. simpl.
  destruct (Pathlib.exists_ (Operations.fs h) (p ++ _)) eqn:M; [|discriminate].
  simpl. intros E. inversion E; subst d.
  split; [now apply is_prefix_within | exact M].
Qed.

(** X1.  Whatever the identifier, a subprocess that [start], [stop],
    [check_images], [pull_images_stream] or [wait_ready] launches is
    either [docker image inspect] without a working directory, or a
    command of the compose CLI whose working directory is the directory
    [_env_dir] returned: the root or a directory below it that holds a
    manifest. *)
Theorem X1_subprocesses_confined (h : Operations.Host) (name : string)
  (timeout : Z) (tr : list Operations.invocation)
  (inv : Operations.invocation) :
  In tr [snd (Operations.start h name); snd (Operations.stop h name);
         snd (Operations.check_images h name);
         snd (Operations.pull_images_stream h name);
         snd (Operations.wait_ready h name timeout)] ->
  In inv tr ->
  is_inspect inv
  \/ exists d,
       Operations._env_dir h name = Py.Returns (Some d)
       /\ within (Operations.VULHUB_PATH h) d
       /\ Pathlib.exists_ (Operations.fs h)
            (d ++ [Operations.manifest_name]) = true
       /\ compose_in h d inv.
Proof.
  intros T I.
  destruct (Operations._env_dir h name) as [|[d|]] eqn:E.
  - exfalso.
    destruct (rejected_runs_nothing h name timeout) as (A & B & C & D & F).
    { intros q. congruence. }
    simpl in T. rewrite A, B, C, D, F in T.
    destruct T as [<-|[<-|[<-|[<-|[<-|[]]]]]]; exact I.
  - destruct (_env_dir_returns h name d E) as [W M].
    assert (G : is_inspect inv \/ compose_in h d inv).
    { simpl in T.
      unfold Operations.start, Operations.stop, Operations.check_images,
        Operations.pull_images_stream, Operations.wait_ready in T.
      rewrite E in T.
      destruct T as [<-|[<-|[<-|[<-|[<-|[]]]]]].
      - right. destruct (Operations._run h 0 _ (Some d)) as [[ok out] err].
        destruct (negb ok); simpl in I; destruct I as [<-|[]];
          (split; [reflexivity | eexists; reflexivity]).
      - right. destruct (Operations._run h 0 _ (Some d)) as [[ok out] err].
        destruct (negb ok); simpl in I; destruct I as [<-|[]];
          (split; [reflexivity | eexists; reflexivity]).
      - destruct (Operations._run h 0 _ (Some d)) as [[ok out] err].
        match type of I with
        | context [Operations.inspect_all h 1 ?imgs] =>
            pose proof (inspect_all_trace h imgs 1) as Q;
            destruct (Operations.inspect_all h 1 imgs) as [miss tr']
        end.
        simpl in I, Q. destruct I as [<-|I].
        + right. split; [reflexivity | eexists; reflexivity].
        + left. rewrite Forall_forall in Q. now apply Q.
      - right. destruct (Operations.popen h _ d); simpl in I;
          destruct I as [<-|[]];
          (split; [reflexivity | eexists; reflexivity]).
      - right. destruct (negb (Operations.urlopen_loaded h));
          [destruct I|].
        pose proof (wait_loop_trace h d (Z.to_nat (Z.max 1 timeout)) 0 0
                      (1000 * Z.max 1 timeout)%Z None) as Q.
        destruct (Operations.wait_loop h d _ 0 0 _ None) as [res tr'].
        simpl in I, Q. rewrite Forall_forall in Q.
        rewrite (Q inv I). split; [reflexivity | eexists; reflexivity]. }
    destruct G as [G|G]; [now left | right].
    exists d. tauto.
  - exfalso.
    destruct (rejected_runs_nothing h name timeout) as (A & B & C & D & F).
    { intros q. congruence. }
    simpl in T. rewrite A, B, C, D, F in T.
    destruct T as [<-|[<-|[<-|[<-|[<-|[]]]]]]; exact I.
Qed.

Lemma X1_witness :
  is_inspect (Operations._cmd Examples.idle ["up"; "-d"],
              Some ["srv"; "vulhub"; "nginx"])
  \/ exists d,
       Operations._env_dir Examples.idle "nginx" = Py.Returns (Some d)
       /\ within Examples.root0 d
       /\ Pathlib.exists_ (Operations.fs Examples.idle)
            (d ++ [Operations.manifest_name]) = true
       /\ compose_in Examples.idle d
            (Operations._cmd Examples.idle ["up"; "-d"],
             Some ["srv"; "vulhub"; "nginx"]).
Proof.
  apply (X1_subprocesses_confined Examples.idle "nginx" 20
           (snd (Operations.start Examples.idle "nginx"))).
  - simpl. left. reflexivity.
  - vm_compute. left. reflexivity.
Defined.

(** X2.  The polls of [wait_ready] are at least a second apart and end
    at the deadline, so a call makes at most [max(1, timeout)] polls -
    one for a timeout of zero or less - and launches nothing but
    [ps --format json] in the directory of the environment.
    [api_wait_ready] raises on a [timeout] parameter that is no numeral,
    before anything is launched. *)
Theorem X2_wait_ready_polls (h : Operations.Host) (name : string) :
  (forall env_dir fuel n now deadline chosen,
     let polls :=
       length (snd (Operations.wait_loop h env_dir fuel n now deadline chosen)) in
     polls = 0%nat \/ (now + 1000 * (Z.of_nat polls - 1) < deadline)%Z)
  /\ (forall timeout,
        (Z.of_nat (length (snd (Operations.wait_ready h name timeout)))
         <= Z.max 1 timeout)%Z
        /\ forall inv, In inv (snd (Operations.wait_ready h name timeout)) ->
             fst inv = Operations._cmd h ["ps"; "--format"; "json"])
  /\ (forall text,
        Py.int text = None ->
        Api.api_wait_ready h (Some name) (Some text) = (Py.Raises, []))
  /\ (forall text timeout,
        Py.int text = Some timeout ->
        Api.api_wait_ready h (Some name) (Some text)
        = Operations.wait_ready h name timeout).
Proof.
  split; [|split; [|split]].
  - intros env_dir fuel n now deadline chosen. apply wait_loop_polls.
  - intros timeout. unfold Operations.wait_ready.
    destruct (negb (Operations.urlopen_loaded h)); [simpl; split; [lia|tauto]|].
    destruct (Operations._env_dir h name) as [|[d|]];
      try (simpl; split; [lia|tauto]).
    pose proof (wait_loop_polls h d (Z.to_nat (Z.max 1 timeout)) 0 0
                  (1000 * Z.max 1 timeout)%Z None) as P.
    pose proof (wait_loop_trace h d (Z.to_nat (Z.max 1 timeout)) 0 0
                  (1000 * Z.max 1 timeout)%Z None) as Q.
    cbv zeta in P.
    destruct (Operations.wait_loop h d _ 0 0 _ None) as [res tr].
    cbn [snd] in *. split.
    + destruct P as [P | P]; [rewrite P; simpl|]; lia.
    + intros inv I. rewrite Forall_forall in Q. now rewrite (Q inv I).
  - intros text E. unfold Api.api_wait_ready. simpl. now rewrite E.
  - intros text timeout E. unfold Api.api_wait_ready. simpl. now rewrite E.
Qed.

Lemma X2_witness :
  (Z.of_nat (length (snd (Operations.wait_ready
                            (Examples.host Examples.published_8080
                               (Operations.Status 503)) "nginx" (-3))))
   <= Z.max 1 (-3))%Z
  /\ Api.api_wait_ready Examples.idle (Some "nginx") (Some "soon")
     = (Py.Raises, []).
Proof.
  split.
  - destruct (X2_wait_ready_polls
                (Examples.host Examples.published_8080 (Operations.Status 503))
                "nginx") as (_ & B & _).
    exact (proj1 (B (-3)%Z)).
  - destruct (X2_wait_ready_polls Examples.idle "nginx") as (_ & _ & C & _).
    exact (C "soon" eq_refl).
Defined.

(** X3.  [wait_ready] reports [ready] only after a server answered a
    GET request with a 2xx status: the port it reports is the first
    host port of the listing of some poll, and the server behind that
    port answered over [http] or [https] during that poll. *)
Theorem X3_ready_is_sound (h : Operations.Host) (name : string)
  (timeout : Z) (ok : bool) (info : Operations.ready_info) :
  fst (Operations.wait_ready h name timeout) = Py.Returns (ok, info) ->
  Operations.ready info = true ->
  exists env_dir k p scheme code,
    Operations._env_dir h name = Py.Returns (Some env_dir)
    /\ hd_error (fst (Operations._pick_host_ports h k env_dir)) = Some p
    /\ (scheme = "http" \/ scheme = "https")
    /\ Operations.http_get h k scheme p = Operations.Status code
    /\ (200 <= code < 300)%Z
    /\ Operations.port info = Some p.
Proof.
  unfold Operations.wait_ready.
  destruct (negb (Operations.urlopen_loaded h)).
  { simpl. intros E. inversion E; subst. discriminate. }
  destruct (Operations._env_dir h name) as [|[d|]].
  - discriminate.
  - pose proof (wait_loop_ready_sound h d (Z.to_nat (Z.max 1 timeout)) 0 0
                  (1000 * Z.max 1 timeout)%Z None) as S.
    destruct (Operations.wait_loop h d _ 0 0 _ None) as [res tr].
    simpl in *. intros E R. inversion E; subst res. simpl in S.
    destruct (S R) as (k & p & scheme & code & A).
    exists d, k, p, scheme, code. tauto.
  - simpl. intros E. inversion E; subst. discriminate.
Qed.

Lemma X3_witness :
  exists env_dir k p scheme code,
    Operations._env_dir
      (Examples.host Examples.published_8080 (Operations.Status 204)) "nginx"
    = Py.Returns (Some env_dir)
    /\ hd_error (fst (Operations._pick_host_ports
                        (Examples.host Examples.published_8080
                           (Operations.Status 204)) k env_dir)) = Some p
    /\ (scheme = "http" \/ scheme = "https")
    /\ Operations.http_get
         (Examples.host Examples.published_8080 (Operations.Status 204))
         k scheme p = Operations.Status code
    /\ (200 <= code < 300)%Z
    /\ Operations.port {| Operations.ready := true;
                          Operations.port := Some 8080%Z |} = Some p.
Proof.
  apply (X3_ready_is_sound
           (Examples.host Examples.published_8080 (Operations.Status 204))
           "nginx" 5 true).
  - vm_compute. reflexivity.
  - reflexivity.
Defined.

(* ================================================================== *)
(** * Images and ports *)
(* ================================================================== *)

Section Images.

Import Operations.

Variable h : Host.




End Images.

Section Tokens.

Import Operations.

Lemma mem_string_In (x : string) (l : list string) :
  mem_string x l = true <-> In x l.
Proof.
  unfold mem_string. rewrite existsb_exists. split.
  - intros [y [I E]]. apply String.eqb_eq in E. now subst.
  - intros I. exists x. split; [exact I | apply String.eqb_refl].
Qed.

Lemma uniq_go_spec (l : list string) :
  forall seen,
    NoDup (uniq_go seen l)
    /\ forall x, In x (uniq_go seen l) <-> In x l /\ ~ In x seen.
Proof.
  induction l as [|y r IH]; intros seen; simpl.
  - split; [constructor | tauto].
  - destruct (mem_string y seen) eqn:M.
    + apply mem_string_In in M. destruct (IH seen) as [N I].
      split; [exact N|]. intros x. rewrite I. split; [tauto|].
      intros [[<-|A] B]; tauto.
    + assert (M' : ~ In y seen).
      { intros A. apply mem_string_In in A. congruence. }
      destruct (IH (y :: seen)) as [N I]. split.
      * constructor; [|exact N]. rewrite I. simpl. tauto.
      * intros x. simpl. rewrite I. simpl.
        destruct (String.eqb_spec y x) as [->|D]; tauto.
Qed.

Lemma lstrip_solid (c : ascii) (r : string) :
  Py.is_space c = false -> Py.lstrip (String c r) = String c r.
Proof. intros S. simpl. now rewrite S. Qed.

Lemma rstrip_solid (s : string) :
  forallb (fun c => negb (Py.is_space c)) (list_ascii_of_string s) = true ->
  Py.rstrip s = s.
Proof.
  induction s as [|c r IH]; simpl; [reflexivity|].
  intros F. apply andb_true_iff in F. destruct F as [C F].
  apply negb_true_iff in C. rewrite C. simpl. now rewrite IH.
Qed.

Lemma strip_solid (s : string) :
  forallb (fun c => negb (Py.is_space c)) (list_ascii_of_string s) = true ->
  Py.strip s = s.
Proof.
  intros F. unfold Py.strip.
  destruct s as [|c r]; [reflexivity|].
  assert (C : Py.is_space c = false).
  { simpl in F. apply andb_true_iff in F. destruct F as [C _].
    now apply negb_true_iff in C. }
  rewrite (lstrip_solid c r C). now apply rstrip_solid.
Qed.

Lemma take_while_all (f : ascii -> bool) (s : string) :
  forallb f (list_ascii_of_string (take_while f s)) = true.
Proof.
  induction s as [|c r IH]; simpl; [reflexivity|].
  destruct (f c) eqn:F; simpl; [|reflexivity]. now rewrite F, IH.
Qed.

Lemma image_of_line_token (ln img : string) :
  image_of_line ln = Some img -> image_token img = true.
Proof.
  unfold image_of_line.
  destruct (prefix "image" (Py.lstrip ln)); [|discriminate].
  destruct (Py.lstrip (drop 5 (Py.lstrip ln))) as [|c b]; [discriminate|].
  destruct (Ascii.eqb_spec c ":") as [->|D].
  2:{ destruct c as [[] [] [] [] [] [] [] []]; try discriminate.
      now elim D. }
  set (g := take_while _ (Py.lstrip b)).
  destruct (String.eqb_spec g ""); [discriminate|].
  intros E. inversion E; subst img. clear E.
  pose proof (take_while_all
                (fun c => negb (Py.is_space c || Ascii.eqb c "#"))
                (Py.lstrip b)) as A.
  fold g in A.
  assert (S : Py.strip g = g).
  { apply strip_solid. rewrite forallb_forall in *. intros c I.
    specialize (A c I). apply negb_true_iff in A.
    apply orb_false_iff in A. destruct A as [A _]. now rewrite A. }
  rewrite S. unfold image_token.
  apply andb_true_iff. split; [|exact A].
  apply negb_true_iff. now apply String.eqb_neq.
Qed.

Lemma take_while_app (f : ascii -> bool) (tok rest : string) :
  forallb f (list_ascii_of_string tok) = true ->
  match rest with
  | EmptyString => True
  | String c _ => f c = false
  end ->
  Operations.take_while f (tok ++ rest) = tok.
Proof.
  induction tok as [|c r IH]; simpl.
  - intros _. destruct rest as [|c r]; [reflexivity|].
    simpl. now intros ->.
  - intros F R. apply andb_true_iff in F. destruct F as [C F].
    rewrite C. now rewrite IH.
Qed.

Lemma drop_while_app (f : ascii -> bool) (tok rest : string) :
  forallb f (list_ascii_of_string tok) = true ->
  match rest with
  | EmptyString => True
  | String c _ => f c = false
  end ->
  Operations.drop_while f (tok ++ rest) = rest.
Proof.
  induction tok as [|c r IH]; simpl.
  - intros _. destruct rest as [|c r]; [reflexivity|].
    simpl. now intros ->.
  - intros F R. apply andb_true_iff in F. destruct F as [C F].
    rewrite C. now apply IH.
Qed.

Lemma images_of_lines_In (lines : list string) (img : string) :
  In img (images_of_lines lines) ->
  exists ln, In ln lines /\ image_of_line ln = Some img.
Proof.
  induction lines as [|ln r IH]; simpl; [tauto|].
  destruct (image_of_line ln) as [x|] eqn:E.
  - intros [<-|I].
    + exists ln. tauto.
    + destruct (IH I) as [l [A B]]. exists l. tauto.
  - intros I. destruct (IH I) as [l [A B]]. exists l. tauto.
Qed.

Lemma images_of_lines_found (lines : list string) (ln img : string) :
  In ln lines -> image_of_line ln = Some img ->
  In img (images_of_lines lines).
Proof.
  intros B C. induction lines as [|l r IH]; simpl; [destruct B|].
  destruct B as [->|B].
  - rewrite C. now left.
  - destruct (image_of_line l); [right|]; now apply IH.
Qed.

End Tokens.



Lemma lstrip_blanks (indent rest : string) :
  forallb Py.is_space (list_ascii_of_string indent) = true ->
  Py.lstrip (indent ++ rest) = Py.lstrip rest.
Proof.
  induction indent as [|c r IH]; simpl; [reflexivity|].
  intros F. apply andb_true_iff in F. destruct F as [C F].
  rewrite C. now apply IH.
Qed.

(** A line of the form [image: token], indented or not, with blanks
    around the colon and with or without a comment after the token,
    gives the token. *)
Lemma image_of_line_shape (indent gap1 gap2 tok rest : string) :
  forallb Py.is_space (list_ascii_of_string indent) = true ->
  forallb Py.is_space (list_ascii_of_string gap1) = true ->
  forallb Py.is_space (list_ascii_of_string gap2) = true ->
  image_token tok = true ->
  match rest with
  | EmptyString => True
  | String c _ => image_char c = false
  end ->
  Operations.image_of_line
    (indent ++ "image" ++ gap1 ++ ":" ++ gap2 ++ tok ++ rest)%string
  = Some tok.
Proof.
  intros I G1 G2 T R. unfold Operations.image_of_line.
  apply andb_true_iff in T. destruct T as [N T].
  apply negb_true_iff in N.
  destruct tok as [|c tok']; [discriminate|].
  assert (C : Py.is_space c = false).
  { simpl in T. apply andb_true_iff in T. destruct T as [C _].
    unfold image_char in C. apply negb_true_iff in C.
    now apply orb_false_iff in C. }
  rewrite (lstrip_blanks indent _ I).
  change (Py.lstrip ("image" ++ gap1 ++ ":" ++ gap2 ++ String c tok' ++ rest))
    with ("image" ++ gap1 ++ ":" ++ gap2 ++ String c tok' ++ rest)%string.
  change (prefix "image" ("image" ++ ?x)) with (prefix "" x).
  rewrite prefix_nil.
  change (Operations.drop 5 ("image" ++ gap1 ++ ":" ++ gap2 ++ String c tok' ++ rest))
    with (gap1 ++ ":" ++ gap2 ++ String c tok' ++ rest)%string.
  rewrite (lstrip_blanks gap1 _ G1).
  change (Py.lstrip (":" ++ gap2 ++ String c tok' ++ rest))
    with (":" ++ gap2 ++ String c tok' ++ rest)%string.
  change (":" ++ gap2 ++ String c tok' ++ rest)%string
    with (String ":" (gap2 ++ String c tok' ++ rest)).
  cbv iota beta.
  rewrite (lstrip_blanks gap2 _ G2).
  change (String c tok' ++ rest)%string with (String c (tok' ++ rest)).
  rewrite (lstrip_solid c _ C).
  change (String c (tok' ++ rest)) with (String c tok' ++ rest)%string.
  change (fun c0 : ascii => negb (Py.is_space c0 || Ascii.eqb c0 "#"))
    with image_char.
  rewrite (take_while_app image_char (String c tok') rest T R).
  simpl String.eqb.
  rewrite strip_solid; [reflexivity|].
  rewrite forallb_forall in *. intros x X. specialize (T x X).
  unfold image_char in T. apply negb_true_iff in T.
  apply orb_false_iff in T. destruct T as [T _]. now rewrite T.
Qed.

(** X5.  [_fallback_parse_images] returns every image reference once:
    the list has no duplicates, it holds exactly the references the
    [image:] lines of the manifest give, each a non-empty text without
    blank and without [#]; a manifest that cannot be read gives the
    empty list.  A line [image: token] - indented or not, with blanks
    around the colon, with or without a comment - gives its token. *)
Theorem X5_fallback_images (h : Operations.Host) (env_dir : Pathlib.path) :
  let images := Operations._fallback_parse_images h env_dir in
  NoDup images
  /\ Forall (fun img => image_token img = true) images
  /\ (forall img,
        In img images <->
        exists text ln,
          Operations.read_text h (env_dir ++ [Operations.manifest_name])
          = Some text
          /\ In ln (Py.splitlines text)
          /\ Operations.image_of_line ln = Some img)
  /\ (Operations.read_text h (env_dir ++ [Operations.manifest_name]) = None ->
      images = [])
  /\ (forall indent gap1 gap2 tok rest,
        forallb Py.is_space (list_ascii_of_string indent) = true ->
        forallb Py.is_space (list_ascii_of_string gap1) = true ->
        forallb Py.is_space (list_ascii_of_string gap2) = true ->
        image_token tok = true ->
        match rest with
        | EmptyString => True
        | String c _ => image_char c = false
        end ->
        Operations.image_of_line
          (indent ++ "image" ++ gap1 ++ ":" ++ gap2 ++ tok ++ rest)%string
        = Some tok).
Proof.
  cbv zeta. unfold Operations._fallback_parse_images.
  set (images := match Operations.read_text h _ with
                 | Some text => _
                 | None => []
                 end).
  destruct (uniq_go_spec images []) as [N I].
  assert (J : forall img,
             In img images <->
             exists text ln,
               Operations.read_text h (env_dir ++ [Operations.manifest_name])
               = Some text
               /\ In ln (Py.splitlines text)
               /\ Operations.image_of_line ln = Some img).
  { intros img. unfold images.
    destruct (Operations.read_text h _) as [text|].
    - split.
      + intros A. destruct (images_of_lines_In _ _ A) as [ln [B C]].
        exists text, ln. tauto.
      + intros (text' & ln & E & B & C). inversion E; subst text'.
        now apply (images_of_lines_found _ ln).
    - split; [intros []|]. intros (text' & ln & E & _). discriminate. }
  split; [exact N|]. split; [|split; [|split]].
  - apply Forall_forall. intros img A. apply I in A. destruct A as [A _].
    apply J in A. destruct A as (text & ln & _ & _ & A).
    now apply image_of_line_token in A.
  - intros img. rewrite I. rewrite <- J. simpl. tauto.
  - intros E. unfold images. rewrite E. reflexivity.
  - intros. now apply image_of_line_shape.
Qed.

Lemma X5_witness :
  Operations._fallback_parse_images Samples.broken_cli ["srv"; "vulhub"; "nginx"]
  = ["nginx:1.25"; "redis:7"]
  /\ Operations.image_of_line "    image : nginx:1.25 # the web server"
     = Some "nginx:1.25".
Proof.
  split; [reflexivity|].
  destruct (X5_fallback_images Samples.broken_cli ["srv"; "vulhub"; "nginx"])
    as (_ & _ & _ & _ & S).
  exact (S "    " " " " " "nginx:1.25" " # the web server"
           eq_refl eq_refl eq_refl eq_refl eq_refl).
Defined.

Section HostPorts.

Import Operations.

Lemma digit_val_range (c : ascii) :
  Py.is_digit c = true -> (0 <= Py.digit_val c <= 9)%Z.
Proof.
  unfold Py.is_digit, Py.digit_val. intros D.
  apply andb_true_iff in D. destruct D as [A B].
  apply N.leb_le in A. apply N.leb_le in B. lia.
Qed.

Lemma int_digits_nonneg (s : string) :
  forall st acc n,
    (0 <= acc)%Z -> Py.int_digits s st acc = Some n -> (0 <= n)%Z.
Proof.
  induction s as [|c r IH]; intros st acc n A; cbn [Py.int_digits].
  - destruct st; try discriminate. intros E. inversion E. lia.
  - destruct (Py.is_digit c) eqn:D.
    + apply IH. pose proof (digit_val_range c D). lia.
    + destruct (Ascii.eqb c "_"); [|discriminate].
      destruct st; try discriminate. now apply IH.
Qed.

Lemma is_digit_not_space (c : ascii) :
  Py.is_digit c = true -> Py.is_space c = false.
Proof.
  unfold Py.is_digit, Py.is_space. intros D.
  apply andb_true_iff in D. destruct D as [A B].
  apply N.leb_le in A. apply N.leb_le in B.
  repeat (apply orb_false_iff; split);
    try (apply andb_false_iff; right; apply N.leb_gt; lia).
  apply N.eqb_neq. lia.
Qed.

(** A numeral that starts with a digit is no negative number. *)
Lemma int_of_digits_nonneg (c : ascii) (r : string) (n : Z) :
  Py.is_digit c = true -> Py.int (String c r) = Some n -> (0 <= n)%Z.
Proof.
  intros D. unfold Py.int, Py.strip.
  pose proof (is_digit_not_space c D) as S.
  rewrite (lstrip_solid c r S).
  cbn [Py.rstrip]. rewrite S. cbn [andb].
  assert (P : c <> "+"%char /\ c <> "-"%char).
  { split; intros ->; discriminate. }
  destruct P as [P1 P2].
  destruct c as [[] [] [] [] [] [] [] []];
    try (now apply int_digits_nonneg);
    try (now elim P1); try (now elim P2).
Qed.

Lemma take_while_head (f : ascii -> bool) (s : string) :
  take_while f s <> "" ->
  exists c r, take_while f s = String c r /\ f c = true.
Proof.
  destruct s as [|c r]; simpl; [congruence|].
  destruct (f c) eqn:F; [|congruence]. intros _. now exists c, (take_while f r).
Qed.

Lemma port_match_here_digits (s d : string) :
  port_match_here s = Some d ->
  exists c r, d = String c r /\ Py.is_digit c = true.
Proof.
  unfold port_match_here. destruct s as [|c0 r]; [discriminate|].
  destruct (Ascii.eqb_spec c0 ":") as [->|D].
  2:{ destruct c0 as [[] [] [] [] [] [] [] []]; try discriminate.
      now elim D. }
  destruct (String.eqb_spec (take_while Py.is_digit r) "") as [|N];
    [discriminate|].
  intros E.
  assert (d = take_while Py.is_digit r).
  { destruct (drop_while Py.is_digit r) as [|a [|b r2]]; try discriminate.
    - destruct a as [[] [] [] [] [] [] [] []]; discriminate.
    - destruct (Ascii.eqb_spec a "-") as [->|Da].
      2:{ destruct a as [[] [] [] [] [] [] [] []]; try discriminate.
          now elim Da. }
      destruct (Ascii.eqb_spec b ">") as [->|Db].
      2:{ destruct b as [[] [] [] [] [] [] [] []]; try discriminate.
          now elim Db. }
      destruct (take_while Py.is_digit r2 =? ""); [discriminate|].
      destruct (prefix "/tcp" _ || prefix "/udp" _); [|discriminate].
      now inversion E. }
  subst d. destruct (take_while_head _ _ N) as (c & r' & A & B).
  now exists c, r'.
Qed.

Lemma port_search_digits (s d : string) :
  port_search s = Some d ->
  exists c r, d = String c r /\ Py.is_digit c = true.
Proof.
  induction s as [|c0 r IH]; cbn [port_search].
  - destruct (port_match_here "") eqn:M; [|discriminate].
    intros E. inversion E; subst. now apply (port_match_here_digits "").
  - destruct (port_match_here (String c0 r)) eqn:M.
    + intros E. inversion E; subst. now apply (port_match_here_digits _ _ M).
    + exact IH.
Qed.

Lemma ports_of_parts_nonneg (parts : list string) :
  Forall (fun p => 0 <= p)%Z (ports_of_parts parts).
Proof.
  induction parts as [|part r IH]; simpl; [constructor|].
  destruct (port_search part) as [d|] eqn:S; [|exact IH].
  destruct (Py.int d) as [n|] eqn:E; [|exact IH].
  constructor; [|exact IH].
  destruct (port_search_digits _ _ S) as (c & r' & -> & D).
  now apply (int_of_digits_nonneg c r').
Qed.

Lemma add_new_spec (found : list Z) :
  forall ports,
    NoDup ports ->
    NoDup (add_new ports found)
    /\ forall p, In p (add_new ports found) <-> In p ports \/ In p found.
Proof.
  induction found as [|hp r IH]; intros ports N; simpl.
  - split; [exact N | tauto].
  - destruct (existsb (Z.eqb hp) ports) eqn:X.
    + apply existsb_exists in X. destruct X as [y [I E]].
      apply Z.eqb_eq in E. subst y.
      destruct (IH ports N) as [N' I']. split; [exact N'|].
      intros p. rewrite I'. split; [tauto|]. intros [A|[<-|A]]; tauto.
    + assert (Y : ~ In hp ports).
      { intros I. assert (existsb (Z.eqb hp) ports = true); [|congruence].
        apply existsb_exists. exists hp. split; [exact I | apply Z.eqb_refl]. }
      assert (N2 : NoDup (ports ++ [hp])).
      { apply NoDup_app; [exact N | repeat constructor; tauto|].
        intros x A [<-|[]]. contradiction. }
      destruct (IH (ports ++ [hp]) N2) as [N' I']. split; [exact N'|].
      intros p. rewrite I', in_app_iff. simpl. tauto.
Qed.

Lemma ports_of_objects_spec (objs : list Yaml.yaml) :
  forall ports,
    NoDup ports -> Forall (fun p => 0 <= p)%Z ports ->
    NoDup (ports_of_objects objs ports)
    /\ Forall (fun p => 0 <= p)%Z (ports_of_objects objs ports).
Proof.
  induction objs as [|obj r IH]; intros ports N F; simpl; [tauto|].
  destruct (Yaml.get obj "Ports") as [v|]; [|tauto].
  destruct (Yaml.or_else v (Yaml.YStr "")); try tauto.
  destruct (add_new_spec (_parse_ports_string s) ports N) as [N' I'].
  apply IH; [exact N'|].
  apply Forall_forall. intros p A. apply I' in A.
  destruct A as [A|A].
  - rewrite Forall_forall in F. now apply F.
  - pose proof (ports_of_parts_nonneg (Py.split "," s)) as Q.
    rewrite Forall_forall in Q. now apply Q.
Qed.

End HostPorts.

(** X6.  The host ports [_pick_host_ports] returns are natural numbers
    and no port is listed twice; a [ps] command that fails, or whose
    output does not decode, gives no port. *)
Theorem X6_host_ports_distinct (h : Operations.Host) (n : nat)
  (env_dir : Pathlib.path) :
  let ports := fst (Operations._pick_host_ports h n env_dir) in
  let answer :=
    Operations.run_result h n (Operations._cmd h ["ps"; "--format"; "json"])
      (Some env_dir) in
  NoDup ports
  /\ Forall (fun p => 0 <= p)%Z ports
  /\ (fst (fst answer) = false -> ports = [])
  /\ (Operations.json_lines h (snd (fst answer)) = None -> ports = []).
Proof.
  cbv zeta. unfold Operations._pick_host_ports, Operations._run.
  destruct (Operations.run_result h n _ (Some env_dir)) as [[ok out] err].
  simpl. destruct ok.
  - destruct (Operations.json_lines h out) as [lines|].
    + destruct (ports_of_objects_spec lines [] (NoDup_nil _) (Forall_nil _))
        as [A B].
      repeat split; try assumption; discriminate.
    + repeat split; try constructor.
  - repeat split; try constructor.
Qed.

Lemma X6_witness :
  NoDup (fst (Operations._pick_host_ports
                (Examples.host Examples.published_8080 Operations.NoAnswer)
                0 ["srv"; "vulhub"; "nginx"]))
  /\ fst (Operations._pick_host_ports
            (Examples.host Examples.published_8080 Operations.NoAnswer)
            0 ["srv"; "vulhub"; "nginx"]) = [8080%Z].
Proof.
  split; [|reflexivity].
  exact (proj1 (X6_host_ports_distinct
                  (Examples.host Examples.published_8080 Operations.NoAnswer)
                  0 ["srv"; "vulhub"; "nginx"])).
Defined.

Section Lifecycle.

Import Operations.

Lemma str_or_nonempty (a b : string) : b <> "" -> str_or a b <> "".
Proof.
  intros B. unfold str_or. destruct (String.eqb_spec a ""); congruence.
Qed.

Lemma rstrip_nl_clean (body : string) :
  Yaml.has_char "010" body = false -> Py.rstrip_nl body = body.
Proof.
  induction body as [|c r IH]; simpl; [reflexivity|].
  intros H. apply orb_false_iff in H. destruct H as [C H].
  rewrite C. simpl. now rewrite IH.
Qed.

Lemma rstrip_nl_line (body : string) :
  Yaml.has_char "010" body = false ->
  Py.rstrip_nl (body ++ String "010" "") = body.
Proof.
  induction body as [|c r IH]; simpl; [reflexivity|].
  intros H. apply orb_false_iff in H. destruct H as [C H].
  rewrite C. simpl. now rewrite IH.
Qed.

Lemma rstrip_nl_stream_line (s : string) :
  stream_line s -> Yaml.has_char "010" (Py.rstrip_nl s) = false.
Proof.
  intros [body [H [->| ->]]].
  - now rewrite rstrip_nl_clean.
  - now rewrite rstrip_nl_line.
Qed.

End Lifecycle.

(** X7.  A lifecycle command that fails always carries a message:
    whenever [start] or [stop] answers [False] the [error] entry is
    present and not empty, and whenever it answers [True] the
    dictionary is empty and exactly one compose command was launched.
    [stop] never sets [port_conflict], whatever the CLI printed. *)
Theorem X7_lifecycle_reports (h : Operations.Host) (name : string)
  (ok : bool) (info : Operations.info) :
  fst (Operations.start h name) = Py.Returns (ok, info)
  \/ fst (Operations.stop h name) = Py.Returns (ok, info) ->
  (ok = false ->
   exists msg, Operations.error info = Some msg /\ msg <> "")
  /\ (ok = true ->
      info = Operations.no_info
      /\ exists d,
           Operations._env_dir h name = Py.Returns (Some d)
           /\ (snd (Operations.start h name)
               = [(Operations._cmd h ["up"; "-d"], Some d)])
           /\ snd (Operations.stop h name)
              = [(Operations._cmd h ["down"], Some d)])
  /\ (fst (Operations.stop h name) = Py.Returns (ok, info) ->
      Operations.port_conflict info = false).
Proof.
  unfold Operations.start, Operations.stop.
  destruct (Operations._env_dir h name) as [|[d|]].
  - intros [E|E]; discriminate.
  - destruct (Operations._run h 0 (Operations._cmd h ["up"; "-d"]) (Some d))
      as [[ok1 out1] err1].
    destruct (Operations._run h 0 (Operations._cmd h ["down"]) (Some d))
      as [[ok2 out2] err2].
    assert (M1 : Operations.msg_start_failed <> "") by discriminate.
    assert (M2 : Operations.msg_stop_failed <> "") by discriminate.
    intros [E|E].
    + destruct ok1; simpl in E; inversion E; subst ok info; simpl.
      * split; [discriminate|]. split.
        -- intros _. split; [reflexivity|]. exists d.
           now destruct ok2.
        -- destruct ok2; simpl; intros Q; now inversion Q.
      * split.
        -- intros _. eexists. split; [reflexivity|].
           now apply str_or_nonempty, str_or_nonempty.
        -- split; [discriminate|].
           destruct ok2; simpl; intros Q; now inversion Q.
    + destruct ok2; simpl in E; inversion E; subst ok info; simpl.
      * split; [discriminate|]. split; [|reflexivity].
        intros _. split; [reflexivity|]. exists d.
        now destruct ok1.
      * split.
        -- intros _. eexists. split; [reflexivity|].
           now apply str_or_nonempty, str_or_nonempty.
        -- split; [discriminate | reflexivity].
  - simpl. intros [E|E]; inversion E; subst ok info; simpl.
    + split; [|split; [discriminate | reflexivity]].
      intros _. eexists. split; [reflexivity | discriminate].
    + split; [|split; [discriminate | reflexivity]].
      intros _. eexists. split; [reflexivity | discriminate].
Qed.

Lemma X7_witness :
  (false = false ->
   exists msg,
     Operations.error
       {| Operations.error := Some "port is already allocated";
          Operations.port_conflict := false |} = Some msg
     /\ msg <> "")
  /\ Operations.port_conflict
       {| Operations.error := Some "port is already allocated";
          Operations.port_conflict := false |} = false.
Proof.
  destruct (X7_lifecycle_reports
              (Examples.host (false, "", "port is already allocated")
                 Operations.NoAnswer)
              "nginx" false
              {| Operations.error := Some "port is already allocated";
                 Operations.port_conflict := false |}
              (or_intror eq_refl)) as (A & _ & C).
  split; [exact A | exact (C eq_refl)].
Defined.

(** X8.  The event stream of [api_pull_stream], when the driver does
    not raise, is one [log] event per line followed by a single final
    [done] event.  When every line the child writes ends at its first
    line feed, no line handed to an event holds a line feed, so no
    event is cut in two; and at most one subprocess is launched. *)
Theorem X8_pull_stream_events (h : Operations.Host)
  (name_arg : option string) (events : list string) :
  (forall cmd d written,
     Operations.popen h cmd d = Some written -> Forall stream_line written) ->
  fst (Api.api_pull_stream h name_arg) = Py.Returns events ->
  exists lines,
    events = map Api.log_event lines ++ [Api.done_event]
    /\ fst (Operations.pull_images_stream h (Api.name_of name_arg))
       = Py.Returns lines
    /\ Forall (fun line => Yaml.has_char "010" line = false) lines
    /\ (length (snd (Api.api_pull_stream h name_arg)) <= 1)%nat.
Proof.
  intros W. unfold Api.api_pull_stream, Operations.pull_images_stream.
  destruct (Operations._env_dir h (Api.name_of name_arg)) as [|[d|]].
  - discriminate.
  - destruct (Operations.popen h _ d) as [written|] eqn:P;
      cbn [fst snd]; intros E; inversion E; subst events.
    + exists (map Py.rstrip_nl written).
      split; [reflexivity|]. split; [reflexivity|]. split; [|simpl; lia].
      apply Forall_forall. intros line I. apply in_map_iff in I.
      destruct I as [s [<- I]]. apply rstrip_nl_stream_line.
      specialize (W _ _ _ P). rewrite Forall_forall in W. now apply W.
    + exists [Operations.msg_no_docker].
      split; [reflexivity|]. split; [reflexivity|]. split; [|simpl; lia].
      repeat constructor.
  - cbn [fst snd]. intros E. inversion E; subst events.
    exists [Operations.msg_pull_not_found].
    split; [reflexivity|]. split; [reflexivity|]. split; [|simpl; lia].
    repeat constructor.
Qed.

Lemma X8_witness :
  exists lines,
    [Api.log_event "Pulling web"; Api.log_event "done"; Api.done_event]
    = map Api.log_event lines ++ [Api.done_event]
    /\ fst (Operations.pull_images_stream Samples.lacking
              (Api.name_of (Some "nginx")))
       = Py.Returns lines
    /\ Forall (fun line => Yaml.has_char "010" line = false) lines
    /\ (length (snd (Api.api_pull_stream Samples.lacking (Some "nginx"))) <= 1)%nat.
Proof.
  apply (X8_pull_stream_events Samples.lacking (Some "nginx")).
  - intros cmd d written E. simpl in E. inversion E; subst written.
    constructor; [|constructor; [|constructor]].
    + exists "Pulling web". split; [reflexivity | now right].
    + exists "done". split; [reflexivity | now left].
  - reflexivity.
Defined.

(* ================================================================== *)
(** * The records of the scan and the manifest parser *)
(* ================================================================== *)

Section Dictionaries.

Import Yaml.

Context {A : Type}.

Lemma lookup_dict_set_same (k : string) (v : A) (m : list (string * A)) :
  lookup k (dict_set k v m) = Some v.
Proof.
  induction m as [|[k' v'] r IH]; simpl.
  - now rewrite String.eqb_refl.
  - destruct (String.eqb_spec k' k) as [->|D]; simpl.
    + now rewrite String.eqb_refl.
    + destruct (String.eqb_spec k' k); [contradiction | exact IH].
Qed.

Lemma lookup_dict_set_other (k k0 : string) (v : A) (m : list (string * A)) :
  k0 <> k -> lookup k0 (dict_set k v m) = lookup k0 m.
Proof.
  intros D. induction m as [|[k' v'] r IH]; simpl.
  - destruct (String.eqb_spec k k0); congruence.
  - destruct (String.eqb_spec k' k) as [->|D']; simpl.
    + destruct (String.eqb_spec k k0); congruence.
    + destruct (String.eqb_spec k' k0); congruence.
Qed.

Lemma dict_set_keys (k : string) (v : A) (m : list (string * A)) :
  NoDup (map fst m) ->
  NoDup (map fst (dict_set k v m))
  /\ forall x, In x (map fst (dict_set k v m)) <-> x = k \/ In x (map fst m).
Proof.
  induction m as [|[k' v'] r IH]; simpl; intros N.
  - split; [repeat constructor; intros [] | intros x; split; intuition].
  - inversion N as [|? ? N1 N2]; subst.
    destruct (String.eqb_spec k' k) as [->|D]; simpl.
    + split; [exact N | intros x; intuition (subst; auto)].
    + destruct (IH N2) as [N' I']. split.
      * constructor; [|exact N']. rewrite I'. intros [E|E]; congruence.
      * intros x. rewrite I'. intuition (subst; auto).
Qed.

Lemma lookup_none (k : string) (m : list (string * A)) :
  ~ In k (map fst m) -> lookup k m = None.
Proof.
  induction m as [|[k' v'] r IH]; simpl; [reflexivity|].
  intros N. destruct (String.eqb_spec k' k); [tauto|]. apply IH. tauto.
Qed.

Lemma lookup_in (k : string) (v : A) (m : list (string * A)) :
  NoDup (map fst m) -> In (k, v) m -> lookup k m = Some v.
Proof.
  induction m as [|[k' v'] r IH]; simpl; [tauto|].
  intros N [E|I].
  - inversion E; subst. now rewrite String.eqb_refl.
  - inversion N as [|? ? N1 N2]; subst.
    destruct (String.eqb_spec k' k) as [->|D]; [|now apply IH].
    elim N1. apply in_map_iff. now exists (k, v).
Qed.

End Dictionaries.

Section WellFormed.

Import Yaml.

Lemma parse_services_wellformed (svcs : list (string * yaml)) :
  forall services ports_map,
    NoDup (map fst svcs) ->
    Forall (fun kv => App.service_host_ports (snd kv) <> None) svcs ->
    fst (App.parse_services svcs services ports_map)
    = services ++ map fst svcs
    /\ forall k,
         lookup k (snd (App.parse_services svcs services ports_map))
         = match lookup k svcs with
           | Some svc_cfg =>
               match first_port svc_cfg with
               | Some hp => Some hp
               | None => lookup k ports_map
               end
           | None => lookup k ports_map
           end.
Proof.
  induction svcs as [|[svc_name svc_cfg] r IH]; intros services ports_map N F.
  - simpl. split; [now rewrite app_nil_r | reflexivity].
  - inversion N as [|? ? N1 N2]; subst. inversion F as [|? ? F1 F2]; subst.
    cbn [App.parse_services]. simpl in F1.
    unfold first_port in *.
    destruct (App.service_host_ports svc_cfg) as [host_ports|] eqn:S;
      [|congruence].
    destruct (IH (services ++ [svc_name])
                match host_ports with
                | hp :: _ => dict_set svc_name hp ports_map
                | [] => ports_map
                end N2 F2) as [A B].
    split.
    + rewrite A, <- app_assoc. reflexivity.
    + intros k. rewrite B. cbn [lookup].
      destruct (String.eqb_spec svc_name k) as [->|D].
      * rewrite (lookup_none k r N1). rewrite S.
        destruct host_ports as [|hp more]; [reflexivity|].
        apply lookup_dict_set_same.
      * destruct host_ports as [|hp more]; [reflexivity|].
        rewrite lookup_dict_set_other by congruence. reflexivity.
Qed.

End WellFormed.

Section Records.

Lemma sort_by_In {A} (key : A -> string) (l : list A) (x : A) :
  In x (App.sort_by key l) <-> In x l.
Proof.
  split; apply Permutation_in;
    [|apply Permutation_sym]; apply sort_by_perm.
Qed.

Lemma last_default {A} (l : list A) (a b : A) :
  l <> [] -> last l a = last l b.
Proof.
  induction l as [|x l IH]; [congruence|]. intros _.
  destruct l as [|y l]; [reflexivity|]. apply IH. discriminate.
Qed.

End Records.

(** X9.  Every record [_scan_environments_fs] returns belongs to a
    manifest directory the traversal found: its name is the relative
    path of that directory, its category the first component of the
    path and its [cve] the last one, its status is [unknown], and its
    services and ports are what the manifest parser gives for that
    directory.  The record of a manifest in the root itself is named
    [.], with [.] as category and [cve]. *)
Theorem X9_scan_record_fields (t : App.Tree) (dirs : list (list string))
  (envs : list App.environment) (e : App.environment) :
  App.rglob t = Some dirs ->
  Forall (Forall component) dirs ->
  App._scan_environments_fs t = Some envs ->
  In e envs ->
  App.status e = "unknown"
  /\ exists d,
       In d dirs
       /\ App.name e = App.as_posix d
       /\ App.category e = hd "." d
       /\ App.cve e = last d "."
       /\ (App.services e, App.ports e)
          = App._compose_parse_services_ports t d.
Proof.
  intros R W S I. unfold App._scan_environments_fs in S.
  destruct (negb (App.root_exists t)); [discriminate|].
  rewrite R in S. inversion S; subst envs. clear S.
  apply sort_by_In in I. apply in_map_iff in I.
  destruct I as [d [<- I]].
  rewrite Forall_forall in W. specialize (W d I).
  unfold App.scan_entry. rewrite (split_as_posix d W).
  destruct (App._compose_parse_services_ports t d) as [svcs ports_map] eqn:P.
  simpl. split; [reflexivity|]. exists d. rewrite P.
  split; [exact I|]. split; [reflexivity|].
  destruct d as [|seg d']; [now repeat split|].
  repeat split. now apply last_default.
Qed.

Lemma X9_witness :
  App.status (App.scan_entry
                (Examples.tree [["nexus"; "CVE-2020-10199"]; []]
                   (App.Loaded Examples.bound_manifest))
                ["nexus"; "CVE-2020-10199"]) = "unknown"
  /\ exists d,
       In d [["nexus"; "CVE-2020-10199"]; []]
       /\ "nexus/CVE-2020-10199" = App.as_posix d
       /\ "nexus" = hd "." d
       /\ "CVE-2020-10199" = last d "."
       /\ (["web"], [("web", "8080")])
          = App._compose_parse_services_ports
              (Examples.tree [["nexus"; "CVE-2020-10199"]; []]
                 (App.Loaded Examples.bound_manifest)) d.
Proof.
  apply (X9_scan_record_fields
           (Examples.tree [["nexus"; "CVE-2020-10199"]; []]
              (App.Loaded Examples.bound_manifest))
           [["nexus"; "CVE-2020-10199"]; []]
           (App.sort_by App.name
              (map (App.scan_entry
                      (Examples.tree [["nexus"; "CVE-2020-10199"]; []]
                         (App.Loaded Examples.bound_manifest)))
                 [["nexus"; "CVE-2020-10199"]; []]))).
  - reflexivity.
  - repeat constructor; discriminate.
  - reflexivity.
  - vm_compute. right. left. reflexivity.
Defined.

(** X10.  On a manifest whose services are all dictionaries whose
    [ports] entry is absent, empty or can be iterated,
    [_compose_parse_services_ports] returns the names of all services
    in the order of the manifest, and its port map gives for every
    service the first host port its declarations yield, and nothing
    for a service without one. *)
Theorem X10_parse_wellformed (t : App.Tree) (d : list string)
  (entries svcs : list (string * Yaml.yaml)) :
  App.manifest_exists t d = true ->
  App.yaml_loaded t = true ->
  App.manifest_load t d = App.Loaded (Yaml.YMap entries) ->
  Yaml.lookup "services" entries = Some (Yaml.YMap svcs) ->
  NoDup (map fst svcs) ->
  Forall (fun kv => App.service_host_ports (snd kv) <> None) svcs ->
  fst (App._compose_parse_services_ports t d) = map fst svcs
  /\ (forall svc_name svc_cfg,
        In (svc_name, svc_cfg) svcs ->
        Yaml.lookup svc_name (snd (App._compose_parse_services_ports t d))
        = first_port svc_cfg)
  /\ (forall k,
        ~ In k (map fst svcs) ->
        Yaml.lookup k (snd (App._compose_parse_services_ports t d)) = None).
Proof.
  intros X Y L S N F. unfold App._compose_parse_services_ports.
  rewrite X, Y, L. simpl negb. cbv iota.
  assert (E : entries <> []) by (intros ->; discriminate).
  assert (O : Yaml.or_else (Yaml.YMap entries) (Yaml.YMap [])
              = Yaml.YMap entries).
  { unfold Yaml.or_else. simpl. now destruct entries. }
  rewrite O. unfold Yaml.get. rewrite S.
  assert (O2 : Yaml.or_else (Yaml.YMap svcs) (Yaml.YMap []) = Yaml.YMap svcs).
  { unfold Yaml.or_else. simpl. now destruct svcs. }
  rewrite O2.
  destruct (parse_services_wellformed svcs [] [] N F) as [A B].
  split; [exact A|]. split.
  - intros svc_name svc_cfg I. rewrite B.
    rewrite (lookup_in svc_name svc_cfg svcs N I).
    now destruct (first_port svc_cfg).
  - intros k K. rewrite B. now rewrite (lookup_none k svcs K).
Qed.

Lemma X10_witness :
  fst (App._compose_parse_services_ports
         (Examples.tree [["a"]] (App.Loaded Samples.three_services)) ["a"])
  = ["web"; "db"; "cache"]
  /\ Yaml.lookup "cache"
       (snd (App._compose_parse_services_ports
               (Examples.tree [["a"]] (App.Loaded Samples.three_services))
               ["a"]))
     = Some "6379"
  /\ Yaml.lookup "db"
       (snd (App._compose_parse_services_ports
               (Examples.tree [["a"]] (App.Loaded Samples.three_services))
               ["a"]))
     = None.
Proof.
  destruct (X10_parse_wellformed
              (Examples.tree [["a"]] (App.Loaded Samples.three_services))
              ["a"]
              [("version", Yaml.YStr "3"); ("services", Samples.three_bodies)]
              Samples.three_list
              eq_refl eq_refl eq_refl eq_refl) as (A & B & _).
  - repeat constructor; simpl; intuition discriminate.
  - repeat constructor; discriminate.
  - split; [exact A|]. split.
    + exact (B "cache" _ (or_intror (or_intror (or_introl eq_refl)))).
    + exact (B "db" _ (or_intror (or_introl eq_refl))).
Defined.

(* ================================================================== *)
(** * The fingerprint and the cache tiers *)
(* ================================================================== *)

Section Reordering.

(** Two ascending lists of texts with the same elements are the same
    list, repeated texts included. *)
Lemma sorted_texts_unique (l1 : list string) :
  forall l2,
    Sorted (key_le (fun s => s)) l1 -> Sorted (key_le (fun s => s)) l2 ->
    Permutation l1 l2 -> l1 = l2.
Proof.
  induction l1 as [|a l1 IH]; intros l2 S1 S2 P.
  - now apply Permutation_nil in P.
  - destruct l2 as [|b l2].
    { apply Permutation_sym, Permutation_nil in P. discriminate. }
    assert (a = b) as <-.
    { assert (Ia : In a (b :: l2)) by (eapply Permutation_in; [exact P | now left]).
      assert (Ib : In b (a :: l1))
        by (eapply Permutation_in; [apply Permutation_sym; exact P | now left]).
      destruct Ia as [-> | Ia]; auto.
      destruct Ib as [-> | Ib]; auto.
      apply Sorted_StronglySorted in S1, S2; try apply key_le_trans.
      inversion S1 as [|? ? _ F1]; inversion S2 as [|? ? _ F2]; subst.
      rewrite Forall_forall in F1, F2.
      exact (String.leb_antisym _ _ (F1 _ Ib) (F2 _ Ia)). }
    f_equal. apply IH.
    + now inversion S1.
    + now inversion S2.
    + eapply Permutation_cons_inv; exact P.
Qed.

Lemma sorted_perm (l l' : list string) :
  Permutation l l' -> App.sorted l = App.sorted l'.
Proof.
  intros P. unfold App.sorted. apply sorted_texts_unique.
  - apply sort_by_sorted.
  - apply sort_by_sorted.
  - rewrite sort_by_perm, P. apply Permutation_sym, sort_by_perm.
Qed.

Lemma paths_str_perm (dirs dirs' : list (list string)) :
  Permutation dirs dirs' -> App.paths_str dirs = App.paths_str dirs'.
Proof.
  intros P. unfold App.paths_str. f_equal.
  now apply sorted_perm, Permutation_map.
Qed.

End Reordering.

(** X11.  The fingerprint does not depend on the order in which the
    traversal yields the manifests, also when a directory is yielded
    twice.  So a snapshot that was stored is loaded again when the
    traversal finds the same manifests in any order, up to and
    including the instant twenty-four hours after the store; one
    millisecond later it is not. *)
Theorem X11_cache_survives_reordering (h : Operations.Host) (t t' : App.Tree)
  (dirs dirs' : list (list string)) (now now' : Z)
  (envs : list App.environment) (old : Disk.file App.envelope) :
  App.rglob t = Some dirs ->
  App.rglob t' = Some dirs' ->
  Permutation dirs dirs' ->
  let stored :=
    App._save_persistent_cache h t now envs old Disk.NoFault in
  App._calculate_vulhub_hash t = App._calculate_vulhub_hash t'
  /\ ((now' - now <= App.CACHE_TTL_MS)%Z ->
      App._load_persistent_cache t' now' stored = Some envs)
  /\ ((now' - now > App.CACHE_TTL_MS)%Z ->
      App._load_persistent_cache t' now' stored = None).
Proof.
  intros R R' P stored.
  assert (H : App._calculate_vulhub_hash t = App._calculate_vulhub_hash t').
  { unfold App._calculate_vulhub_hash. rewrite R, R'.
    now rewrite (paths_str_perm dirs dirs' P). }
  split; [exact H|].
  unfold stored, App._save_persistent_cache, App._load_persistent_cache.
  cbn [Disk.open_w_dump fst App.timestamp App.vulhub_hash App.environments
       App.get_or].
  split; intros T.
  - replace (now' - now >? App.CACHE_TTL_MS)%Z with false
      by (symmetry; rewrite Z.gtb_ltb; apply Z.ltb_ge; lia).
    rewrite H.
    assert (Q : App.option_string_eqb (App._calculate_vulhub_hash t')
                  (App._calculate_vulhub_hash t') = true)
      by now apply option_string_eqb_eq.
    now rewrite Q.
  - replace (now' - now >? App.CACHE_TTL_MS)%Z with true
      by (symmetry; apply Z.gtb_lt; lia).
    reflexivity.
Qed.

Lemma X11_witness :
  App._calculate_vulhub_hash
    (Examples.tree [["a"]; ["b"; "c"]; ["a"]]
       (App.Loaded Examples.bound_manifest))
  = App._calculate_vulhub_hash
      (Examples.tree [["b"; "c"]; ["a"]; ["a"]] App.LoadRaises)
  /\ ((86400000 - 0 <= App.CACHE_TTL_MS)%Z ->
      App._load_persistent_cache
        (Examples.tree [["b"; "c"]; ["a"]; ["a"]] App.LoadRaises) 86400000
        (App._save_persistent_cache Examples.idle
           (Examples.tree [["a"]; ["b"; "c"]; ["a"]]
              (App.Loaded Examples.bound_manifest))
           0 Examples.snapshot_a Disk.Absent Disk.NoFault)
      = Some Examples.snapshot_a)
  /\ ((86400000 - 0 > App.CACHE_TTL_MS)%Z ->
      App._load_persistent_cache
        (Examples.tree [["b"; "c"]; ["a"]; ["a"]] App.LoadRaises) 86400000
        (App._save_persistent_cache Examples.idle
           (Examples.tree [["a"]; ["b"; "c"]; ["a"]]
              (App.Loaded Examples.bound_manifest))
           0 Examples.snapshot_a Disk.Absent Disk.NoFault)
      = None).
Proof.
  apply (X11_cache_survives_reordering Examples.idle
           (Examples.tree [["a"]; ["b"; "c"]; ["a"]]
              (App.Loaded Examples.bound_manifest))
           (Examples.tree [["b"; "c"]; ["a"]; ["a"]] App.LoadRaises)
           [["a"]; ["b"; "c"]; ["a"]] [["b"; "c"]; ["a"]; ["a"]]
           0 86400000 Examples.snapshot_a Disk.Absent eq_refl eq_refl).
  apply perm_trans with (l' := [["b"; "c"]; ["a"]; ["a"]]).
  - apply perm_swap.
  - apply Permutation_refl.
Defined.

Section Tiers.

Import App.
Import Api.








End Tiers.



Section Listing.

Import App.
Import Api.


End Listing.





(* ================================================================== *)
(** * The statistics *)
(* ================================================================== *)

Section Statistics.

Import Yaml.
Import App.
Import Api.

Lemma count_le (f : environment -> bool) (l : list environment) :
  count f l <= length l.
Proof.
  unfold count. induction l as [|x l IH]; simpl; [lia|].
  destruct (f x); simpl; lia.
Qed.

Lemma dict_set_sum (k : string) (m : list (string * nat)) :
  list_sum (map snd (dict_set k (get_or (lookup k m) 0 + 1) m))
  = list_sum (map snd m) + 1.
Proof.
  induction m as [|[k' n] r IH]; simpl; [reflexivity|].
  destruct (String.eqb_spec k' k) as [->|D]; simpl.
  - lia.
  - rewrite IH. lia.
Qed.

Lemma tally_sum (l : list environment) :
  forall cats,
    list_sum (map snd (tally l cats)) = list_sum (map snd cats) + length l.
Proof.
  induction l as [|x l IH]; intros cats; simpl; [lia|].
  rewrite IH, dict_set_sum. lia.
Qed.

Lemma tally_keys (l : list environment) :
  forall cats, NoDup (map fst cats) -> NoDup (map fst (tally l cats)).
Proof.
  induction l as [|x l IH]; intros cats N; simpl; [exact N|].
  apply IH. now apply dict_set_keys.
Qed.

Lemma tally_lookup (l : list environment) :
  forall cats k,
    lookup k (tally l cats)
    = match lookup k cats with
      | Some n => Some (n + in_category k l)
      | None =>
          if (in_category k l =? 0)%nat then None
          else Some (in_category k l)
      end.
Proof.
  unfold in_category, count.
  induction l as [|x l IH]; intros cats k; cbn [tally filter].
  - simpl. destruct (lookup k cats) as [n|]; [f_equal; lia | reflexivity].
  - rewrite IH. destruct (String.eqb_spec (category x) k) as [E|D].
    + rewrite E, lookup_dict_set_same. cbn [length].
      destruct (lookup k cats) as [n|]; cbn [get_or].
      * f_equal. lia.
      * cbn [Nat.eqb]. f_equal.
    + rewrite lookup_dict_set_other by congruence. reflexivity.
Qed.

End Statistics.

(** X15.  The statistics agree with the snapshot they are taken from:
    [total] is its length; the counts of running environments, of
    environments with an exploit and of environments with local images
    do not exceed it; [categories] names every category of the
    snapshot once, with the number of its records, and no other; and
    the category counts add up to [total].  Without a snapshot all
    numbers are zero. *)
Theorem X15_stats_consistent (c : App.env_cache) :
  let st := Api.api_stats c in
  let l := App.get_or (App.data c) [] in
  Api.total st = length l
  /\ Api.running st <= Api.total st
  /\ Api.with_exploit st <= Api.total st
  /\ Api.with_images st <= Api.total st
  /\ NoDup (map fst (Api.categories st))
  /\ list_sum (map snd (Api.categories st)) = Api.total st
  /\ forall k,
       Yaml.lookup k (Api.categories st)
       = if (in_category k l =? 0)%nat then None
         else Some (in_category k l).
Proof.
  cbv zeta. unfold Api.api_stats.
  set (l := match App.data c with Some (x :: r) => x :: r | _ => [] end).
  assert (E : App.get_or (App.data c) [] = l).
  { unfold l. now destruct (App.data c) as [[|x r]|]. }
  rewrite E. cbn [Api.total Api.running Api.with_exploit Api.with_images
                  Api.categories].
  split; [reflexivity|].
  repeat (split; [apply count_le|]).
  split; [apply tally_keys; constructor|].
  split; [now rewrite tally_sum|].
  intros k. now rewrite tally_lookup.
Qed.

(* ================================================================== *)
(** * The exploit files *)
(* ================================================================== *)

Section ExploitFiles.

Import Probes.

Lemma substring_prefix (n : nat) :
  forall s, prefix (substring 0 n s) s = true.
Proof.
  induction n as [|n IH]; intros [|c r]; simpl; try reflexivity.
  destruct (ascii_dec c c) as [_|N]; [apply IH | now elim N].
Qed.

Lemma substring_length (n : nat) :
  forall s, String.length (substring 0 n s) = Nat.min n (String.length s).
Proof.
  induction n as [|n IH]; intros [|c r]; simpl; try reflexivity.
  now rewrite IH.
Qed.

Lemma find_usage_spec (ls : list string) :
  find_usage ls = ""
  \/ (In (find_usage ls) ls /\ is_usage (find_usage ls) = true).
Proof.
  induction ls as [|line r IH]; simpl; [now left|].
  destruct (is_usage line) eqn:U; [right; tauto|].
  destruct IH as [E|[I V]]; [now left | right; tauto].
Qed.

Lemma exploit_entries_In (l : Listing) (files : list (list string))
  (e : exploit) :
  In e (exploit_entries l files) ->
  exists rel, In rel files /\ exploit_entry l rel = Some e.
Proof.
  induction files as [|rel r IH]; simpl; [tauto|].
  destruct (exploit_entry l rel) as [x|] eqn:E.
  - intros [<-|I].
    + exists rel. tauto.
    + destruct (IH I) as [y [A B]]. exists y. tauto.
  - intros I. destruct (IH I) as [y [A B]]. exists y. tauto.
Qed.

Lemma scripts_in_In (l : Listing) (subs : list string) :
  forall found rel,
    scripts_in l subs = Py.Returns found ->
    In rel found ->
    exists sub file entries,
      rel = [sub; file]
      /\ In sub subs
      /\ child_exists l sub = true
      /\ children l sub = Some entries
      /\ In (file, true) entries
      /\ In (suffix file) script_exts.
Proof.
  induction subs as [|sub r IH]; intros found rel; simpl.
  - intros E. inversion E. intros [].
  - destruct (child_exists l sub) eqn:X; cbn [andb].
    2:{ intros E I. destruct (IH _ _ E I) as (s & f & en & A).
        exists s, f, en. tauto. }
    destruct (child_is_dir l sub).
    2:{ intros E I. destruct (IH _ _ E I) as (s & f & en & A).
        exists s, f, en. tauto. }
    destruct (children l sub) as [entries|] eqn:C; [|discriminate].
    destruct (scripts_in l r) as [|more] eqn:M; [discriminate|].
    intros E I. inversion E; subst found. clear E.
    apply in_app_iff in I. destruct I as [I|I].
    + apply in_map_iff in I. destruct I as [[file flag] [<- I]].
      apply filter_In in I. destruct I as [I F].
      unfold is_script in F. cbn [fst snd] in F.
      apply andb_true_iff in F. destruct F as [-> F].
      apply mem_string_In in F. exists sub, file, entries. tauto.
    + destruct (IH _ _ eq_refl I) as (s & f & en & A).
      exists s, f, en. tauto.
Qed.

End ExploitFiles.

(** X16.  The two probes for exploits agree in one direction: a
    directory for which [_get_exploit_files] lists a file is a
    directory for which [_has_exploit] answers [True], so an
    environment whose detail page lists exploit files is flagged in the
    listing.  Every listed file is a regular file; those from the
    exploit directories carry a script suffix. *)
Theorem X16_exploit_files_flag (l : Probes.Listing)
  (files : list (list string)) (rel : list string) :
  Probes._get_exploit_files l = Py.Returns files ->
  In rel files ->
  Probes._has_exploit l = true
  /\ ((exists sub file entries,
         rel = [sub; file]
         /\ In sub Probes.exploit_dirs
         /\ Probes.children l sub = Some entries
         /\ In (file, true) entries
         /\ In (Probes.suffix file) Probes.script_exts)
      \/ exists pattern file,
           rel = [file]
           /\ In pattern Probes.exploit_patterns
           /\ In (file, true) (Probes.glob l pattern)).
Proof.
  unfold Probes._get_exploit_files, Probes._has_exploit.
  destruct (Probes.scripts_in l Probes.exploit_dirs) as [|found] eqn:S;
    [discriminate|].
  intros E I.
  assert (Q : files
              = found ++ flat_map (Probes.matches_of l) Probes.exploit_patterns)
    by congruence.
  subst files. clear E.
  apply in_app_iff in I. destruct I as [I|I].
  - destruct (scripts_in_In l _ _ rel S I)
      as (sub & file & entries & R & A & X & C & F & G).
    split.
    + apply orb_true_iff. left. apply existsb_exists. exists sub. tauto.
    + left. exists sub, file, entries. tauto.
  - apply in_flat_map in I. destruct I as [pat [P I]].
    unfold Probes.matches_of in I.
    apply in_map_iff in I. destruct I as [[file flag] [<- I]].
    apply filter_In in I. destruct I as [I F]. simpl in F. subst flag. split.
    + apply orb_true_iff. right. apply existsb_exists. exists pat.
      split; [exact P|]. destruct (Probes.glob l pat); [destruct I | reflexivity].
    + right. exists pat, file. tauto.
Qed.

Lemma X16_witness :
  Probes._has_exploit Samples.listing = true
  /\ ((exists sub file entries,
         ["exploit"; "run.py"] = [sub; file]
         /\ In sub Probes.exploit_dirs
         /\ Probes.children Samples.listing sub = Some entries
         /\ In (file, true) entries
         /\ In (Probes.suffix file) Probes.script_exts)
      \/ exists pattern file,
           ["exploit"; "run.py"] = [file]
           /\ In pattern Probes.exploit_patterns
           /\ In (file, true) (Probes.glob Samples.listing pattern)).
Proof.
  apply (X16_exploit_files_flag Samples.listing
           [["exploit"; "run.py"]; ["poc.py"]] ["exploit"; "run.py"]).
  - reflexivity.
  - left. reflexivity.
Defined.

(** X17.  Every entry [api_exploit] returns describes a file that
    [_get_exploit_files] lists in a directory at or below the root and
    that has text: [size] is the length of the text, [content] its
    first 10000 characters at most, [lines] the number of its lines,
    [path] the path relative to the directory with [filename] as last
    component, and [usage] is empty or one of the first twenty lines
    and names a usage or an example.  An identifier that leaves the
    root gets the empty list with status 404; every other answer has
    status 200. *)
Theorem X17_exploit_entries (h : Operations.Host)
  (listing : Pathlib.path -> Probes.Listing) (name : string)
  (entries : list Probes.exploit) (code : Z) :
  Probes.api_exploit h listing name = Py.Returns (entries, code) ->
  (forall e,
     In e entries ->
     exists env_dir files rel text,
       App._get_env_dir_by_name h name = Py.Returns env_dir
       /\ within (Operations.VULHUB_PATH h) env_dir
       /\ Probes._get_exploit_files (listing env_dir) = Py.Returns files
       /\ In rel files
       /\ text = Probes.text_of (listing env_dir) rel
       /\ text <> ""
       /\ Probes.filename e = last rel ""
       /\ Probes.path e = Py.join "/" rel
       /\ Probes.size e = String.length text
       /\ String.length (Probes.content e)
          = Nat.min Probes.content_limit (Probes.size e)
       /\ prefix (Probes.content e) text = true
       /\ Probes.lines e = length (Py.splitlines text)
       /\ (Probes.usage e = ""
           \/ (In (Probes.usage e) (firstn 20 (Py.splitlines text))
               /\ Probes.is_usage (Probes.usage e) = true)))
  /\ (App._get_env_dir_by_name h name = Py.Raises ->
      entries = [] /\ code = 404%Z)
  /\ (App._get_env_dir_by_name h name <> Py.Raises -> code = 200%Z).
Proof.
  unfold Probes.api_exploit.
  pose proof (_get_env_dir_by_name_spec h name) as G.
  destruct (App._get_env_dir_by_name h name) as [|env_dir] eqn:E.
  - intros Q. inversion Q; subst entries code.
    split; [intros e []|]. split; [tauto | congruence].
  - destruct (Probes._get_exploit_files (listing env_dir)) as [|files] eqn:F;
      [discriminate|].
    intros Q. inversion Q; subst entries code. clear Q.
    split; [|split; [discriminate | reflexivity]].
    intros e I.
    assert (W : within (Operations.VULHUB_PATH h) env_dir).
    { destruct (Pathlib.resolve _ _) as [p|]; [|discriminate].
      destruct (Pathlib.is_prefix _ p) eqn:P; [|discriminate].
      simpl in G. inversion G; subst p. now apply is_prefix_within. }
    apply exploit_entries_In in I. destruct I as [rel [I X]].
    unfold Probes.exploit_entry in X.
    destruct (String.eqb_spec (Probes.text_of (listing env_dir) rel) "")
      as [|N]; [discriminate|].
    inversion X; subst e. clear X. cbn.
    exists env_dir, files, rel, (Probes.text_of (listing env_dir) rel).
    repeat split; try assumption.
    + apply substring_length.
    + apply substring_prefix.
    + apply find_usage_spec.
Qed.

Lemma X17_witness :
  (forall e,
     In e [{| Probes.filename := "run.py";
              Probes.path := "exploit/run.py";
              Probes.content := Samples.run_text;
              Probes.size := 52;
              Probes.lines := 3;
              Probes.usage := "# Usage: run.py HOST" |}] ->
     exists env_dir files rel text,
       App._get_env_dir_by_name Examples.idle "nginx" = Py.Returns env_dir
       /\ within (Operations.VULHUB_PATH Examples.idle) env_dir
       /\ Probes._get_exploit_files Samples.listing = Py.Returns files
       /\ In rel files
       /\ text = Probes.text_of Samples.listing rel
       /\ text <> ""
       /\ Probes.filename e = last rel ""
       /\ Probes.path e = Py.join "/" rel
       /\ Probes.size e = String.length text
       /\ String.length (Probes.content e)
          = Nat.min Probes.content_limit (Probes.size e)
       /\ prefix (Probes.content e) text = true
       /\ Probes.lines e = length (Py.splitlines text)
       /\ (Probes.usage e = ""
           \/ (In (Probes.usage e) (firstn 20 (Py.splitlines text))
               /\ Probes.is_usage (Probes.usage e) = true)))
  /\ (App._get_env_dir_by_name Examples.idle "nginx" = Py.Raises ->
      [{| Probes.filename := "run.py";
          Probes.path := "exploit/run.py";
          Probes.content := Samples.run_text;
          Probes.size := 52;
          Probes.lines := 3;
          Probes.usage := "# Usage: run.py HOST" |}] = [] /\ 200%Z = 404%Z)
  /\ (App._get_env_dir_by_name Examples.idle "nginx" <> Py.Raises ->
      200%Z = 200%Z).
Proof.
  apply (X17_exploit_entries Examples.idle (fun _ => Samples.listing) "nginx").
  reflexivity.
Defined.

(* ================================================================== *)
(** * The records of the manager *)
(* ================================================================== *)

Section ManagerRecords.

Import Manager.

Lemma replace_backslash_clean (s : string) :
  Yaml.has_char Yaml.backslash (replace_backslash s) = false.
Proof.
  induction s as [|c r IH]; simpl; [reflexivity|].
  rewrite IH. destruct (Ascii.eqb_spec c Yaml.backslash) as [->|D].
  - reflexivity.
  - rewrite orb_false_r. now apply Ascii.eqb_neq.
Qed.

Lemma image_names_bound (w : World) (d : list string) :
  length (image_names w d) <= 12.
Proof.
  unfold image_names. cbn [flat_map]. rewrite !length_app.
  pose proof (firstn_le_length 3 (glob w d "*.png")).
  pose proof (firstn_le_length 3 (glob w d "*.jpg")).
  pose proof (firstn_le_length 3 (glob w d "*.jpeg")).
  pose proof (firstn_le_length 3 (glob w d "*.gif")).
  cbn [length]. lia.
Qed.

Lemma sorted_length (l : list string) : length (App.sorted l) = length l.
Proof. apply Permutation_length, sort_by_perm. Qed.

Lemma ltb_length_nonempty {A} (l : list A) :
  (0 <? length l)%nat = true <-> l <> [].
Proof.
  destruct l; simpl; split; try congruence; try discriminate.
  intros _. reflexivity.
Qed.

Lemma sorted_nonempty (l : list string) : App.sorted l <> [] <-> l <> [].
Proof.
  pose proof (sorted_length l) as L.
  destruct l as [|x l], (App.sorted _) as [|y s]; simpl in L;
    split; congruence.
Qed.

End ManagerRecords.

(** X18.  A record [_parse_environment] returns has status [unknown];
    its name holds no backslash; it names at most twelve images, in
    ascending order, and [has_images] tells whether it names one; its
    exploit files are the Python files of the directory whose
    lower-case name holds [exploit], [poc], [cve] or [exp], in
    ascending order, and [has_exploit] tells whether there is one.  A
    manifest in the root itself gives no record. *)
Theorem X18_parsed_record (w : Manager.World) (i : nat) (d : list string)
  (e : Manager.VulhubEnvironment) :
  Manager._parse_environment w i d = Py.Returns (Some e) ->
  d <> []
  /\ Manager.status e = "unknown"
  /\ Yaml.has_char Yaml.backslash (Manager.name e) = false
  /\ length (Manager.images e) <= 12
  /\ Sorted (key_le (fun s => s)) (Manager.images e)
  /\ (Manager.has_images e = true <-> Manager.images e <> [])
  /\ Sorted (key_le (fun s => s)) (Manager.exploit_files e)
  /\ (Manager.has_exploit e = true <-> Manager.exploit_files e <> [])
  /\ (forall f, In f (Manager.exploit_files e) <->
                In f (Manager.glob w d "*.py")
                /\ Manager.is_exploit_name f = true).
Proof.
  unfold Manager._parse_environment.
  destruct d as [|seg d']; [discriminate|]. cbn [length Nat.eqb].
  destruct (match Manager.find_cve (seg :: d') 0 with
            | Some (m, cve_idx) => _
            | None => _
            end) as [category_ cve_].
  destruct (Manager.read_compose w (seg :: d')) as [|content config];
    [discriminate|].
  destruct (Yaml.get_default config "services" (Yaml.YMap []))
    as [[| | | | | |svcs]|]; try discriminate.
  destruct (Manager._extract_ports config) as [ports_|]; [|discriminate].
  intros E. inversion E; subst e. clear E.
  cbn [Manager.status Manager.name Manager.images Manager.has_images
       Manager.exploit_files Manager.has_exploit].
  split; [discriminate|]. split; [reflexivity|].
  split; [apply replace_backslash_clean|].
  split; [rewrite sorted_length; apply image_names_bound|].
  split; [apply sort_by_sorted|].
  split; [rewrite ltb_length_nonempty; symmetry; apply sorted_nonempty|].
  split; [apply sort_by_sorted|].
  split; [rewrite ltb_length_nonempty; symmetry; apply sorted_nonempty|].
  intros f. unfold App.sorted. rewrite sort_by_In.
  unfold Manager.exploit_names. apply filter_In.
Qed.

Lemma X18_witness :
  ["a"] <> []
  /\ Manager.status (Samples.parsed_a) = "unknown"
  /\ Yaml.has_char Yaml.backslash (Manager.name Samples.parsed_a) = false
  /\ length (Manager.images Samples.parsed_a) <= 12
  /\ Sorted (key_le (fun s => s)) (Manager.images Samples.parsed_a)
  /\ (Manager.has_images Samples.parsed_a = true
      <-> Manager.images Samples.parsed_a <> [])
  /\ Sorted (key_le (fun s => s)) (Manager.exploit_files Samples.parsed_a)
  /\ (Manager.has_exploit Samples.parsed_a = true
      <-> Manager.exploit_files Samples.parsed_a <> [])
  /\ (forall f, In f (Manager.exploit_files Samples.parsed_a) <->
                In f (Manager.glob Samples.gallery ["a"] "*.py")
                /\ Manager.is_exploit_name f = true).
Proof.
  apply (X18_parsed_record Samples.gallery 1 ["a"] Samples.parsed_a).
  reflexivity.
Defined.

Section CveSegments.

Import Manager.

Lemma upper_of_lower_char (c : ascii) :
  Py.upper_char c = Py.upper_char (Py.lower_char c).
Proof. destruct c as [[] [] [] [] [] [] [] []]; reflexivity. Qed.

Lemma upper_of_lower (s : string) : Py.upper s = Py.upper (Py.lower s).
Proof.
  induction s as [|c r IH]; simpl; [reflexivity|].
  now rewrite IH, <- upper_of_lower_char.
Qed.

Lemma upper_length (s : string) : String.length (Py.upper s) = String.length s.
Proof. induction s; simpl; congruence. Qed.

Lemma drop_length (n : nat) :
  forall s, String.length (Operations.drop n s) = String.length s - n.
Proof.
  induction n as [|n IH]; intros [|c r]; simpl; try reflexivity.
  apply IH.
Qed.

Lemma take_while_length (f : ascii -> bool) (s : string) :
  String.length (Operations.take_while f s) <= String.length s.
Proof.
  induction s as [|c r IH]; simpl; [lia|].
  destruct (f c); simpl; lia.
Qed.

Lemma substring_substring (s : string) :
  forall n k, k <= n -> substring 0 k (substring 0 n s) = substring 0 k s.
Proof.
  induction s as [|c r IH]; intros n k L.
  - destruct n, k; reflexivity.
  - destruct k as [|k]; [now destruct n|].
    destruct n as [|n]; [lia|]. simpl. rewrite IH by lia. reflexivity.
Qed.

Lemma upper_substring (s : string) :
  forall n, Py.upper (substring 0 n s) = substring 0 n (Py.upper s).
Proof.
  induction s as [|c r IH]; intros [|n]; simpl; try reflexivity.
  now rewrite IH.
Qed.

Lemma prefix_substring (p s : string) :
  prefix p s = true -> substring 0 (String.length p) s = p.
Proof.
  revert s. induction p as [|a p IH]; intros [|c r]; simpl;
    try reflexivity; try discriminate.
  destruct (ascii_dec a c) as [->|]; [|discriminate].
  intros P. now rewrite IH.
Qed.

(** The text the pattern matches: the first 13 to 16 characters of the
    segment, which read [CVE-] in any case, four digits, a dash and
    digits. *)
Lemma cve_match_shape (seg m : string) :
  cve_match seg = Some m ->
  prefix m seg = true
  /\ 13 <= String.length m <= 16
  /\ prefix "CVE-" (Py.upper m) = true.
Proof.
  unfold cve_match.
  destruct (Py.lower (substring 0 4 seg) =? "cve-") eqn:L; [|discriminate].
  destruct (String.length (substring 4 4 seg) =? 4)%nat; [|discriminate].
  destruct (all_digits (substring 4 4 seg)); [|discriminate].
  destruct (substring 8 1 seg =? "-"); [|discriminate].
  cbn [andb]. cbv zeta.
  set (run := Operations.take_while Py.is_digit (Operations.drop 9 seg)).
  destruct (4 <=? String.length run)%nat eqn:R; [|discriminate].
  apply Nat.leb_le in R. intros E. inversion E; subst m. clear E.
  assert (B : String.length run <= String.length seg - 9).
  { unfold run. rewrite <- drop_length. apply take_while_length. }
  assert (M : min7 (String.length run) <= 7 /\ 4 <= min7 (String.length run)
              /\ min7 (String.length run) <= String.length run).
  { unfold min7. lia. }
  split; [apply substring_prefix|]. split.
  - rewrite substring_length. lia.
  - apply String.eqb_eq in L.
    assert (U : Py.upper (substring 0 4 seg) = "CVE-").
    { rewrite upper_of_lower, L. reflexivity. }
    assert (P : substring 0 4 (Py.upper (substring 0 (9 + min7 (String.length run)) seg))
                = "CVE-").
    { rewrite <- upper_substring, substring_substring by lia. exact U. }
    rewrite <- P. apply substring_prefix.
Qed.

Lemma find_cve_spec (parts : list string) :
  forall k c idx,
    find_cve parts k = Some (c, idx) ->
    k <= idx < k + length parts
    /\ exists seg m,
         nth_error parts (idx - k) = Some seg
         /\ cve_match seg = Some m
         /\ c = Py.upper m
         /\ forall j seg', j < idx - k -> nth_error parts j = Some seg' ->
                           cve_match seg' = None.
Proof.
  induction parts as [|seg r IH]; intros k c idx; simpl; [discriminate|].
  destruct (cve_match seg) as [m|] eqn:M.
  - intros E. inversion E; subst c idx. split; [lia|].
    exists seg, m. rewrite Nat.sub_diag. simpl.
    repeat split; try reflexivity; try assumption. intros j seg' J. lia.
  - intros E. destruct (IH (S k) c idx E) as (B & seg' & m & N & C & U & F).
    split; [lia|]. exists seg', m.
    replace (idx - k) with (S (idx - S k)) by lia. simpl.
    repeat split; try assumption.
    intros [|j] s J Q; simpl in Q.
    + now inversion Q; subst.
    + apply (F j s); [lia | exact Q].
Qed.

End CveSegments.

(** X19.  When a component of the path of an environment starts with a
    CVE identifier, the [cve] of the record is that identifier in upper
    case: it starts with [CVE-], has 13 to 16 characters, and is the
    upper-case form of the start of the first component that matches;
    the category is the component before it, or that component itself
    when it is the first.  Without such a component the [cve] is the
    last component and the category the one before it. *)
Theorem X19_cve_of_record (w : Manager.World) (i : nat) (d : list string)
  (e : Manager.VulhubEnvironment) :
  Manager._parse_environment w i d = Py.Returns (Some e) ->
  (exists idx seg m,
     nth_error d idx = Some seg
     /\ Manager.cve_match seg = Some m
     /\ prefix m seg = true
     /\ (forall j seg', j < idx -> nth_error d j = Some seg' ->
                        Manager.cve_match seg' = None)
     /\ Manager.cve e = Py.upper m
     /\ prefix "CVE-" (Manager.cve e) = true
     /\ 13 <= String.length (Manager.cve e) <= 16
     /\ Manager.category e = Manager.nth_str d (idx - 1))
  \/ (Forall (fun seg => Manager.cve_match seg = None) d
      /\ Manager.cve e = last d "unknown"
      /\ Manager.category e = Manager.nth_str d (length d - 2)).
Proof.
  unfold Manager._parse_environment.
  destruct d as [|seg0 d']; [discriminate|]. cbn [length Nat.eqb].
  destruct (Manager.find_cve (seg0 :: d') 0) as [[c idx]|] eqn:F.
  - destruct (Manager.read_compose w (seg0 :: d')) as [|content config];
      [discriminate|].
    destruct (Yaml.get_default config "services" (Yaml.YMap []))
      as [[| | | | | |svcs]|]; try discriminate.
    destruct (Manager._extract_ports config) as [ports_|]; [|discriminate].
    intros E. inversion E; subst e. clear E.
    cbn [Manager.cve Manager.category]. left.
    destruct (find_cve_spec _ _ _ _ F) as (B & seg & m & N & C & U & Q).
    rewrite Nat.sub_0_r in *.
    destruct (cve_match_shape seg m C) as (P1 & P2 & P3).
    exists idx, seg, m. subst c. rewrite upper_length.
    repeat split; try assumption; try lia.
    destruct idx as [|idx]; [reflexivity|].
    replace (0 <? S idx)%nat with true by reflexivity. reflexivity.
  - destruct (Manager.read_compose w (seg0 :: d')) as [|content config];
      [discriminate|].
    destruct (Yaml.get_default config "services" (Yaml.YMap []))
      as [[| | | | | |svcs]|]; try discriminate.
    destruct (Manager._extract_ports config) as [ports_|]; [|discriminate].
    intros E. inversion E; subst e. clear E.
    cbn [Manager.cve Manager.category]. right. split; [|split].
    + clear - F. revert F. generalize 0. generalize (seg0 :: d').
      intros l. induction l as [|s l IH]; intros k; simpl; [constructor|].
      destruct (Manager.cve_match s) eqn:M; [discriminate|].
      intros F. constructor; [exact M | exact (IH _ F)].
    + reflexivity.
    + destruct d' as [|s1 d'']; [reflexivity|].
      replace (2 <=? length (seg0 :: s1 :: d''))%nat with true by reflexivity.
      reflexivity.
Qed.

Lemma X19_witness :
  (exists idx seg m,
     nth_error ["nexus"; "cve-2020-10199-rce"; "v2"] idx = Some seg
     /\ Manager.cve_match seg = Some m
     /\ prefix m seg = true
     /\ (forall j seg', j < idx ->
                        nth_error ["nexus"; "cve-2020-10199-rce"; "v2"] j
                        = Some seg' ->
                        Manager.cve_match seg' = None)
     /\ "CVE-2020-10199" = Py.upper m
     /\ prefix "CVE-" "CVE-2020-10199" = true
     /\ 13 <= String.length "CVE-2020-10199" <= 16
     /\ "nexus"
        = Manager.nth_str ["nexus"; "cve-2020-10199-rce"; "v2"] (idx - 1))
  \/ (Forall (fun seg => Manager.cve_match seg = None)
        ["nexus"; "cve-2020-10199-rce"; "v2"]
      /\ "CVE-2020-10199" = last ["nexus"; "cve-2020-10199-rce"; "v2"] "unknown"
      /\ "nexus"
         = Manager.nth_str ["nexus"; "cve-2020-10199-rce"; "v2"]
             (length ["nexus"; "cve-2020-10199-rce"; "v2"] - 2)).
Proof.
  apply (X19_cve_of_record Samples.gallery 1
           ["nexus"; "cve-2020-10199-rce"; "v2"]
           (Samples.parsed ["nexus"; "cve-2020-10199-rce"; "v2"])).
  reflexivity.
Defined.

(* ================================================================== *)
(** * The statuses of the manager *)
(* ================================================================== *)

Section ManagerStatus.

Import Manager.
Import Status.

Lemma batch_frame (w : World) (envs : list VulhubEnvironment) :
  same_but_status (_batch_check_status w envs) envs.
Proof.
  unfold same_but_status, _batch_check_status.
  destruct (docker_ps_labels w) as [stdout|]; rewrite map_map;
    apply map_ext; intros e; [|reflexivity].
  now destruct (Operations.mem_string _ _).
Qed.

Lemma set_first_frame (nm st : string) (envs : list VulhubEnvironment) :
  same_but_status (set_first nm st envs) envs.
Proof.
  unfold same_but_status.
  induction envs as [|e r IH]; simpl; [reflexivity|].
  destruct (name e =? nm); simpl; [reflexivity | now rewrite IH].
Qed.

Lemma set_first_found (nm st : string) (envs : list VulhubEnvironment)
  (env : VulhubEnvironment) :
  get_environment envs nm = Some env ->
  get_environment (set_first nm st envs) nm = Some (with_status env st).
Proof.
  unfold get_environment.
  induction envs as [|e r IH]; simpl; [discriminate|].
  destruct (name e =? nm) eqn:E; simpl.
  - intros Q. inversion Q; subst. simpl. now rewrite E.
  - rewrite E. exact IH.
Qed.

Lemma set_first_others (nm st other : string) (envs : list VulhubEnvironment) :
  other <> nm ->
  get_environment (set_first nm st envs) other = get_environment envs other.
Proof.
  intros D. unfold get_environment.
  induction envs as [|e r IH]; simpl; [reflexivity|].
  destruct (String.eqb_spec (name e) nm) as [E|N]; simpl.
  - destruct (String.eqb_spec (name e) other) as [E'|N']; [congruence|].
    reflexivity.
  - destruct (name e =? other); [reflexivity | exact IH].
Qed.

End ManagerStatus.

(** X20.  [_batch_check_status] changes nothing but statuses and gives
    every environment one of the three statuses: [unknown] for all
    when [docker ps] raises, and otherwise [running] exactly for the
    environments whose path is the working directory of a running
    compose project, [stopped] for the others. *)
Theorem X20_batch_status (w : Manager.World)
  (envs : list Manager.VulhubEnvironment) :
  let after := Manager._batch_check_status w envs in
  same_but_status after envs
  /\ length after = length envs
  /\ Forall (fun e => is_status (Manager.status e)) after
  /\ (Manager.docker_ps_labels w = None ->
      Forall (fun e => Manager.status e = "unknown") after)
  /\ (forall stdout e,
        Manager.docker_ps_labels w = Some stdout ->
        In e after ->
        (Manager.status e = "running" <->
         In (Manager.path e)
           (Manager.running_projects (Py.splitlines stdout)))).
Proof.
  cbv zeta. split; [apply batch_frame|].
  unfold Manager._batch_check_status.
  destruct (Manager.docker_ps_labels w) as [stdout|].
  - split; [apply length_map|]. split; [|split; [discriminate|]].
    + apply Forall_forall. intros e I. apply in_map_iff in I.
      destruct I as [x [<- _]].
      destruct (Operations.mem_string _ _); simpl;
        [left | right; left]; reflexivity.
    + intros s e Q I. inversion Q; subst s. apply in_map_iff in I.
      destruct I as [x [<- _]].
      destruct (Operations.mem_string _ _) eqn:M; simpl.
      * apply mem_string_In in M. tauto.
      * split; [discriminate|]. intros J. apply mem_string_In in J.
        congruence.
  - split; [apply length_map|]. split; [|split; [|discriminate]].
    + apply Forall_forall. intros e I. apply in_map_iff in I.
      destruct I as [x [<- _]]. right. right. reflexivity.
    + intros _. apply Forall_forall. intros e I. apply in_map_iff in I.
      now destruct I as [x [<- _]].
Qed.

Lemma X20_witness :
  In "/srv/vulhub/a"
    (Manager.running_projects
       (Py.splitlines
          "com.docker.compose.project=a,com.docker.compose.project.working_dir=/srv/vulhub/a,x=y
maintainer=nobody
")).
Proof.
  destruct (X20_batch_status Samples.gallery [Samples.parsed_a])
    as (_ & _ & _ & _ & R).
  apply (R _ (Manager.with_status Samples.parsed_a "running") eq_refl).
  - vm_compute. left. reflexivity.
  - reflexivity.
Defined.

(** X21.  What [scan] stored is what a later [scan] loads: after a
    scan that returned a list, a scan with the cache enabled and a
    cache file younger than an hour returns the same environments with
    fresh statuses and leaves the file as it is; with an older file,
    or with the cache disabled, it scans the tree again. *)
Theorem X21_manager_cache_round_trip (w w' : Manager.World)
  (old : Disk.file (list Manager.VulhubEnvironment))
  (envs : list Manager.VulhubEnvironment) (ft' : Disk.fault) :
  fst (Manager.scan w false old Disk.NoFault) = Some envs ->
  let stored := snd (Manager.scan w false old Disk.NoFault) in
  ((Manager.cache_age_ms w' < 3600000)%Z ->
   Manager.scan w' true stored ft'
   = (Some (Manager._batch_check_status w' envs), stored)
   /\ same_but_status (Manager._batch_check_status w' envs) envs)
  /\ ((3600000 <= Manager.cache_age_ms w')%Z ->
      Manager.scan w' true stored ft' = Manager.scan w' false stored ft').
Proof.
  unfold Manager.scan at 1 2. cbn [andb].
  destruct (Manager.rglob w) as [dirs|]; [|discriminate].
  cbn [Manager._save_to_cache Disk.open_w_dump fst snd].
  intros E. inversion E; subst envs. clear E. cbv zeta. split.
  - intros A. split; [|apply batch_frame].
    unfold Manager.scan. cbn [Manager.cache_exists andb].
    replace (Manager.cache_age_ms w' <? 3600 * 1000)%Z with true
      by (symmetry; apply Z.ltb_lt; lia).
    reflexivity.
  - intros A. unfold Manager.scan. cbn [Manager.cache_exists andb].
    replace (Manager.cache_age_ms w' <? 3600 * 1000)%Z with false
      by (symmetry; apply Z.ltb_ge; lia).
    reflexivity.
Qed.

Lemma X21_witness :
  ((Manager.cache_age_ms Samples.gallery < 3600000)%Z ->
   Manager.scan Samples.gallery true
     (snd (Manager.scan Samples.gallery false Disk.Foreign Disk.NoFault))
     Disk.OpenFails
   = (Some (Manager._batch_check_status Samples.gallery [Samples.parsed_a]),
      snd (Manager.scan Samples.gallery false Disk.Foreign Disk.NoFault))
   /\ same_but_status
        (Manager._batch_check_status Samples.gallery [Samples.parsed_a])
        [Samples.parsed_a])
  /\ ((3600000 <= Manager.cache_age_ms Samples.gallery)%Z ->
      Manager.scan Samples.gallery true
        (snd (Manager.scan Samples.gallery false Disk.Foreign Disk.NoFault))
        Disk.OpenFails
      = Manager.scan Samples.gallery false
          (snd (Manager.scan Samples.gallery false Disk.Foreign Disk.NoFault))
          Disk.OpenFails).
Proof.
  apply (X21_manager_cache_round_trip Samples.gallery Samples.gallery
           Disk.Foreign [Samples.parsed_a] Disk.OpenFails).
  reflexivity.
Defined.

(** X22.  [check_single_status] answers [unknown] for a name the
    manager does not hold and changes nothing then.  For a name it
    holds, it answers [running] when [compose ps -q] prints a
    container, [stopped] when it prints nothing and [unknown] when the
    call raises; it stores the answer in the first environment of that
    name and changes no other field and no environment of another
    name. *)
Theorem X22_single_status (ps_q : string -> option string)
  (envs : list Manager.VulhubEnvironment) (env_name : string) :
  let st := fst (Status.check_single_status ps_q envs env_name) in
  let after := snd (Status.check_single_status ps_q envs env_name) in
  is_status st
  /\ same_but_status after envs
  /\ (Status.get_environment envs env_name = None ->
      st = "unknown" /\ after = envs)
  /\ (forall env,
        Status.get_environment envs env_name = Some env ->
        Manager.name env = env_name
        /\ Status.get_environment after env_name
           = Some (Manager.with_status env st)
        /\ (st = "running" <->
            exists stdout, ps_q (Manager.path env) = Some stdout
                           /\ Py.strip stdout <> "")
        /\ (st = "unknown" <-> ps_q (Manager.path env) = None))
  /\ (forall other,
        other <> env_name ->
        Status.get_environment after other
        = Status.get_environment envs other).
Proof.
  cbv zeta. unfold Status.check_single_status.
  destruct (Status.get_environment envs env_name) as [env|] eqn:G;
    cbn [fst snd].
  - split; [|split; [|split; [|split]]].
    + unfold Status._check_status.
      destruct (ps_q (Manager.path env)) as [stdout|];
        [destruct (Py.strip stdout =? "")|]; unfold is_status; tauto.
    + apply set_first_frame.
    + discriminate.
    + intros e Q. inversion Q; subst e. clear Q.
      split; [|split; [now apply set_first_found|]].
      * unfold Status.get_environment in G. apply find_some in G.
        destruct G as [_ G]. now apply String.eqb_eq in G.
      * unfold Status._check_status.
        destruct (ps_q (Manager.path env)) as [stdout|].
        -- destruct (String.eqb_spec (Py.strip stdout) "") as [E|N]; split.
           ++ split; [discriminate|]. intros (s & Q & N).
              inversion Q; subst s. contradiction.
           ++ split; discriminate.
           ++ split; [|reflexivity]. intros _. now exists stdout.
           ++ split; discriminate.
        -- split; split; try discriminate; try reflexivity.
           intros (s & Q & _). discriminate.
    + intros other D. now apply set_first_others.
  - split; [right; right; reflexivity|].
    split; [reflexivity|]. split; [tauto|]. split; [discriminate|].
    reflexivity.
Qed.

Lemma X22_witness :
  Status.check_single_status (fun _ => Some "3f2a9c
") [Samples.parsed_a] "a"
  = ("running", [Manager.with_status Samples.parsed_a "running"])
  /\ is_status (fst (Status.check_single_status (fun _ => Some "3f2a9c
") [Samples.parsed_a] "a")).
Proof.
  split; [reflexivity|].
  exact (proj1 (X22_single_status (fun _ => Some "3f2a9c
") [Samples.parsed_a] "a")).
Defined.

(* ================================================================== *)
(** * Pictures, the cache file and the compose command *)
(* ================================================================== *)

Section Suffixes.

Import Probes.

Lemma substring_drop (i : nat) :
  forall s, (substring 0 i s ++ Operations.drop i s)%string = s.
Proof.
  induction i as [|i IH]; intros [|c r]; simpl; try reflexivity.
  now rewrite IH.
Qed.

(** A name with a suffix is a non-empty stem followed by the suffix,
    which starts at the last dot of the name. *)
Lemma suffix_splits (name : string) :
  suffix name <> "" ->
  exists stem,
    name = (stem ++ suffix name)%string /\ stem <> "".
Proof.
  unfold suffix. destruct (rfind_dot name 0 None) as [i|]; [|congruence].
  destruct ((0 <? i)%nat && (i <? String.length name - 1)%nat) eqn:B;
    [|congruence].
  apply andb_true_iff in B. destruct B as [B1 B2].
  apply Nat.ltb_lt in B1. apply Nat.ltb_lt in B2. intros _.
  exists (substring 0 i name). split; [now rewrite substring_drop|].
  intros E. pose proof (substring_length i name) as L. rewrite E in L.
  simpl in L. lia.
Qed.

End Suffixes.

(** X23.  [_image_files] returns regular files of the directory only,
    and each of them is named by a non-empty stem followed by a suffix
    that reads [.png], [.jpg], [.jpeg], [.gif], [.webp], [.bmp] or
    [.svg] in lower case; a file whose whole name is such a suffix is
    no picture.  It raises exactly when the directory cannot be
    listed. *)
Theorem X23_image_files (l : Probes.Listing) :
  (Probes._image_files l = Py.Raises <-> Probes.iterdir l = None)
  /\ forall names name,
       Probes._image_files l = Py.Returns names ->
       In name names ->
       (exists entries,
          Probes.iterdir l = Some entries /\ In (name, true) entries)
       /\ exists stem ext,
            name = (stem ++ ext)%string
            /\ stem <> ""
            /\ In (Py.lower ext) Probes.image_exts
            /\ ~ In name Probes.image_exts.
Proof.
  unfold Probes._image_files.
  destruct (Probes.iterdir l) as [entries|]; split;
    try (split; congruence); try discriminate.
  intros names name E I. inversion E; subst names. clear E.
  apply in_map_iff in I.
  destruct I as [[n flag] [<- I]]. apply filter_In in I.
  destruct I as [I F]. unfold Probes.is_image in F. cbn [fst snd] in *.
  apply andb_true_iff in F. destruct F as [-> F].
  apply mem_string_In in F. split; [now exists entries|].
  assert (N : Probes.suffix n <> "").
  { intros E. rewrite E in F. simpl in F. intuition discriminate. }
  destruct (suffix_splits n N) as [stem [E S]].
  exists stem, (Probes.suffix n). repeat split; try assumption.
  intros J. revert N. clear - J. simpl in J.
  destruct J as [<-|[<-|[<-|[<-|[<-|[<-|[<-|[]]]]]]]]; intros N; now elim N.
Qed.

Lemma X23_witness :
  (exists entries,
     Probes.iterdir Samples.listing = Some entries
     /\ In ("1.PNG", true) entries)
  /\ exists stem ext,
       "1.PNG" = (stem ++ ext)%string
       /\ stem <> ""
       /\ In (Py.lower ext) Probes.image_exts
       /\ ~ In "1.PNG" Probes.image_exts.
Proof.
  apply (proj2 (X23_image_files Samples.listing) ["1.PNG"] "1.PNG").
  - reflexivity.
  - left. reflexivity.
Defined.

Section Healing.

Import App.
Import Api.

Lemma load_unreadable (t : Tree) (now : Z) (f : Disk.file envelope) :
  (forall doc, f <> Disk.Holds doc) -> _load_persistent_cache t now f = None.
Proof.
  intros N. destruct f as [|doc| |]; try reflexivity. now elim (N doc).
Qed.

End Healing.

(** X24.  A cache file that is missing, torn or undecodable never
    fails a listing: with an empty memory cache the request scans as if
    the cache were disabled.  Writing the file is best effort: whether
    and how the write fails changes neither the answer nor the memory
    cache, and a write that succeeds leaves a file from which the
    answer is loaded again, within twenty-four hours and while the
    manifests stay the same. *)
Theorem X24_cache_file_best_effort (h : Operations.Host) (t : App.Tree)
  (mgr : option (list Manager.VulhubEnvironment)) (ck : Api.instants)
  (ft : Disk.fault) (arg : option string) (s : Api.store) (now : Z) :
  App.data_truthy (App.data (Api.memory s)) = false ->
  (forall doc, Api.disk s <> Disk.Holds doc) ->
  Api.api_scan h t mgr ck ft arg s
  = Api.api_scan h t mgr ck ft (Some "false") s
  /\ fst (Api.api_scan h t mgr ck ft arg s)
     = fst (Api.api_scan h t mgr ck Disk.NoFault arg s)
  /\ Api.memory (snd (Api.api_scan h t mgr ck ft arg s))
     = Api.memory (snd (Api.api_scan h t mgr ck Disk.NoFault arg s))
  /\ (forall out,
        fst (Api.api_scan h t mgr ck Disk.NoFault arg s) = Py.Returns out ->
        (now - Api.at_save ck <= App.CACHE_TTL_MS)%Z ->
        App._load_persistent_cache t now
          (Api.disk (snd (Api.api_scan h t mgr ck Disk.NoFault arg s)))
        = Some out).
Proof.
  intros M D.
  assert (A : forall f, Api.api_scan h t mgr ck f arg s
                        = Api.api_scan h t mgr ck f (Some "false") s).
  { intros f. unfold Api.api_scan. rewrite M, andb_false_r.
    change (Api.use_cache_of (Some "false")) with false. cbn [andb].
    rewrite (load_unreadable t (Api.at_load ck) (Api.disk s) D).
    now destruct (Api.use_cache_of arg). }
  split; [apply A|]. rewrite !A.
  unfold Api.api_scan. change (Api.use_cache_of (Some "false")) with false.
  cbn [andb].
  destruct (Api.full_scan h t mgr) as [|out]; cbn [fst snd Api.memory Api.disk].
  - repeat split. discriminate.
  - repeat split. intros o Q T. inversion Q; subst o.
    unfold App._save_persistent_cache, App._load_persistent_cache.
    cbn [Disk.open_w_dump fst App.timestamp App.vulhub_hash App.environments
         App.get_or].
    replace (now - Api.at_save ck >? App.CACHE_TTL_MS)%Z with false
      by (symmetry; rewrite Z.gtb_ltb; apply Z.ltb_ge; lia).
    assert (Q' : App.option_string_eqb (App._calculate_vulhub_hash t)
                   (App._calculate_vulhub_hash t) = true)
      by now apply option_string_eqb_eq.
    now rewrite Q'.
Qed.

Lemma X24_witness :
  Api.api_scan Examples.idle
    (Examples.tree [["a"]] (App.Loaded Examples.bound_manifest)) None
    (Samples.at_ms 1000) (Disk.DumpFails 3) None
    {| Api.memory := {| App.data := Some []; App.ts := 0%Z |};
       Api.disk := Disk.Torn Samples.stale 7 |}
  = Api.api_scan Examples.idle
      (Examples.tree [["a"]] (App.Loaded Examples.bound_manifest)) None
      (Samples.at_ms 1000) (Disk.DumpFails 3) (Some "false")
      {| Api.memory := {| App.data := Some []; App.ts := 0%Z |};
         Api.disk := Disk.Torn Samples.stale 7 |}
  /\ fst (Api.api_scan Examples.idle
            (Examples.tree [["a"]] (App.Loaded Examples.bound_manifest)) None
            (Samples.at_ms 1000) (Disk.DumpFails 3) None
            {| Api.memory := {| App.data := Some []; App.ts := 0%Z |};
               Api.disk := Disk.Torn Samples.stale 7 |})
     = Py.Returns Examples.snapshot_a.
Proof.
  destruct (X24_cache_file_best_effort Examples.idle
              (Examples.tree [["a"]] (App.Loaded Examples.bound_manifest))
              None (Samples.at_ms 1000) (Disk.DumpFails 3) None
              {| Api.memory := {| App.data := Some []; App.ts := 0%Z |};
                 Api.disk := Disk.Torn Samples.stale 7 |} 2000%Z
              eq_refl) as (A & B & _).
  - intros doc. discriminate.
  - split; [exact A|]. rewrite B. reflexivity.
Defined.

(** X25.  The driver and the manager detect the compose command alike
    whenever every [version] command ends and one that succeeds does so
    within five seconds: both take [docker compose] when its [version]
    exits with zero, else [docker-compose] when that one does, else
    [docker compose].  The manager always gets one of the two
    commands; the driver does not return while a [version] command it
    waits for never ends. *)
Theorem X25_detection_agrees (run : list string -> Detect.outcome) :
  (forall args, run args <> Detect.Hangs) ->
  (forall args ms, run args = Detect.Exits 0 ms -> (ms <= 5000)%Z) ->
  Detect._detect_compose_cmd run = Some (Detect._detect_docker_compose run)
  /\ (Detect._detect_docker_compose run = Detect.plugin
      \/ Detect._detect_docker_compose run = Detect.standalone)
  /\ (Detect._detect_docker_compose run = Detect.standalone <->
      Detect.run_ok run ["docker"; "compose"; "version"] = Some false
      /\ Detect.run_ok run ["docker-compose"; "version"] = Some true).
Proof.
  intros H T.
  assert (R : forall args,
             Detect.run_ok run args
             = Some match Detect.run_timeout run args with
                    | Some code => (code =? 0)%Z
                    | None => false
                    end).
  { intros args. unfold Detect.run_timeout, Detect.run_ok.
    specialize (H args).
    destruct (run args) as [|code ms|] eqn:E; [reflexivity| |congruence].
    destruct (5000 <? ms)%Z eqn:L; [|reflexivity].
    apply Z.ltb_lt in L. destruct (Z.eqb_spec code 0) as [->|]; [|reflexivity].
    specialize (T _ _ E). lia. }
  unfold Detect._detect_compose_cmd, Detect._detect_docker_compose.
  cbn [Detect.first_working].
  change (Detect.plugin ++ ["version"]) with ["docker"; "compose"; "version"].
  change (Detect.standalone ++ ["version"]) with ["docker-compose"; "version"].
  rewrite !R.
  destruct (Detect.run_timeout run ["docker"; "compose"; "version"]) as [c1|];
    destruct (Detect.run_timeout run ["docker-compose"; "version"]) as [c2|];
    try destruct (c1 =? 0)%Z; try destruct (c2 =? 0)%Z;
    (split; [reflexivity|]); (split; [auto|]);
    split; try discriminate; try tauto; intros [? ?]; discriminate.
Qed.

Lemma X25_witness :
  Detect._detect_compose_cmd Samples.old_docker
  = Some (Detect._detect_docker_compose Samples.old_docker)
  /\ (Detect._detect_docker_compose Samples.old_docker = Detect.plugin
      \/ Detect._detect_docker_compose Samples.old_docker = Detect.standalone)
  /\ (Detect._detect_docker_compose Samples.old_docker = Detect.standalone <->
      Detect.run_ok Samples.old_docker ["docker"; "compose"; "version"]
      = Some false
      /\ Detect.run_ok Samples.old_docker ["docker-compose"; "version"]
         = Some true).
Proof.
  apply (X25_detection_agrees Samples.old_docker).
  - intros args.
    destruct args as [|a [|b [|c r]]]; discriminate.
  - intros args ms E.
    destruct args as [|a [|b [|c r]]]; simpl in E; inversion E; lia.
Defined.

(* ================================================================== *)
(** * The port listing of the compose CLI *)
(* ================================================================== *)

Section PortListing.

Import Operations.

Lemma split_go_comma (c : ascii) (r cur : string) :
  Py.split_go "," (String c r) cur 0
  = if Ascii.eqb "," c then cur :: Py.split_go "," r "" 0
    else Py.split_go "," r (cur ++ String c "") 0.
Proof. cbn [Py.split_go]. now rewrite prefix_char. Qed.

Lemma split_no_comma (s : string) :
  forall cur,
    Yaml.has_char "," s = false ->
    Py.split_go "," s cur 0 = [(cur ++ s)%string].
Proof.
  induction s as [|c r IH]; intros cur H.
  - simpl. now rewrite append_nil_r.
  - rewrite split_go_comma. simpl in H.
    apply orb_false_iff in H. destruct H as [C H].
    rewrite Ascii.eqb_sym, C. rewrite IH by exact H.
    now rewrite append_assoc.
Qed.

Lemma has_char_app (c : ascii) (a b : string) :
  Yaml.has_char c (a ++ b) = Yaml.has_char c a || Yaml.has_char c b.
Proof.
  induction a as [|x a IH]; simpl; [reflexivity|].
  now rewrite IH, orb_assoc.
Qed.

Lemma numeral_no_comma (d : string) :
  numeral d = true -> Yaml.has_char "," d = false.
Proof.
  unfold numeral. intros N. apply andb_true_iff in N. destruct N as [_ N].
  induction d as [|c r IH]; simpl in *; [reflexivity|].
  apply andb_true_iff in N. destruct N as [C N]. rewrite (IH N).
  rewrite orb_false_r. apply Ascii.eqb_neq. intros ->. discriminate.
Qed.

Lemma address_no_comma (ip : string) :
  address ip = true -> Yaml.has_char "," ip = false.
Proof.
  induction ip as [|c r IH]; simpl; [reflexivity|].
  intros A. apply andb_true_iff in A. destruct A as [A A3].
  apply andb_true_iff in A. destruct A as [A1 A2].
  rewrite (IH A3). apply negb_true_iff in A1. now rewrite A1.
Qed.

(** The pattern matches right after the address. *)
Lemma port_match_after_colon (d d2 proto rest : string) :
  numeral d = true -> numeral d2 = true ->
  proto = "tcp" \/ proto = "udp" ->
  port_match_here (":" ++ d ++ "->" ++ d2 ++ "/" ++ proto ++ rest)%string
  = Some d.
Proof.
  unfold numeral. intros N N2 P.
  apply andb_true_iff in N. destruct N as [E N].
  apply andb_true_iff in N2. destruct N2 as [E2 N2].
  apply negb_true_iff in E. apply negb_true_iff in E2.
  change (":" ++ d ++ "->" ++ d2 ++ "/" ++ proto ++ rest)%string
    with (String ":" (d ++ "->" ++ d2 ++ "/" ++ proto ++ rest)).
  cbn [port_match_here].
  rewrite (take_while_app Py.is_digit d _ N) by reflexivity.
  rewrite E.
  rewrite (drop_while_app Py.is_digit d _ N) by reflexivity.
  change ("->" ++ d2 ++ "/" ++ proto ++ rest)%string
    with (String "-" (String ">" (d2 ++ "/" ++ proto ++ rest))).
  cbv iota.
  rewrite (take_while_app Py.is_digit d2 _ N2) by reflexivity.
  rewrite E2.
  rewrite (drop_while_app Py.is_digit d2 _ N2) by reflexivity.
  destruct P as [-> | ->]; cbn [append];
    rewrite !prefix_cons, !prefix_nil; reflexivity.
Qed.

Lemma port_search_after_address (ip tail d : string) :
  address ip = true ->
  port_match_here (":" ++ tail) = Some d ->
  port_search (ip ++ ":" ++ tail) = Some d.
Proof.
  intros A M. induction ip as [|c r IH].
  - change ("" ++ ":" ++ tail)%string with (":" ++ tail)%string.
    destruct (":" ++ tail)%string eqn:Q; [discriminate|].
    cbn [port_search]. now rewrite M.
  - simpl in A. apply andb_true_iff in A. destruct A as [A A3].
    apply andb_true_iff in A. destruct A as [_ A2].
    change (String c r ++ ":" ++ tail)%string
      with (String c (r ++ ":" ++ tail)).
    cbn [port_search].
    assert (Q : port_match_here (String c (r ++ ":" ++ tail)) = None).
    { unfold port_match_here.
      destruct (Ascii.eqb_spec c ":") as [->|D].
      2:{ destruct c as [[] [] [] [] [] [] [] []]; try reflexivity.
          now elim D. }
      destruct r as [|c' r'].
      - change ("" ++ ":" ++ tail)%string with (String ":" tail).
        reflexivity.
      - simpl in A2. apply negb_true_iff in A2.
        change (String c' r' ++ ":" ++ tail)%string
          with (String c' (r' ++ ":" ++ tail)).
        cbn [take_while]. rewrite A2. reflexivity. }
    rewrite Q. now apply IH.
Qed.

End PortListing.

(** X26.  [_parse_ports_string] reads the host port out of a port
    mapping as the compose CLI prints it: for an address without comma
    and without a digit after a colon (such as [0.0.0.0] and [::]),
    followed by a colon, a numeral, [->], a numeral, a slash and [tcp]
    or [udp], the result is the number the first numeral stands for,
    and nothing else. *)
Theorem X26_published_port (ip d d2 proto : string) (n : Z) :
  address ip = true ->
  numeral d = true ->
  numeral d2 = true ->
  proto = "tcp" \/ proto = "udp" ->
  Py.int d = Some n ->
  Operations._parse_ports_string
    (ip ++ ":" ++ d ++ "->" ++ d2 ++ "/" ++ proto)%string
  = [n].
Proof.
  intros A N N2 P I. unfold Operations._parse_ports_string, Py.split.
  set (s := (ip ++ ":" ++ d ++ "->" ++ d2 ++ "/" ++ proto)%string).
  rewrite split_no_comma.
  - change ("" ++ s)%string with s. cbn [Operations.ports_of_parts].
    pose proof (port_match_after_colon d d2 proto "" N N2 P) as M.
    rewrite append_nil_r in M. unfold s.
    rewrite (port_search_after_address ip _ d A M). now rewrite I.
  - unfold s. rewrite !has_char_app, (address_no_comma ip A), (numeral_no_comma d N),
      (numeral_no_comma d2 N2).
    destruct P as [-> | ->]; reflexivity.
Qed.

Lemma X26_witness :
  Operations._parse_ports_string "0.0.0.0:8080->80/tcp" = [8080%Z]
  /\ Operations._parse_ports_string ":::53->53/udp" = [53%Z].
Proof.
  split.
  - exact (X26_published_port "0.0.0.0" "8080" "80" "tcp" 8080
             eq_refl eq_refl eq_refl (or_introl eq_refl) eq_refl).
  - exact (X26_published_port "::" "53" "53" "udp" 53
             eq_refl eq_refl eq_refl (or_intror eq_refl) eq_refl).
Defined.
